(** * Gradient descent for linear regression: the three training loops of
      [class_tutorial.ipynb]

    The notebook trains a linear model three times on the same data:
    [LinearRegression] (numpy, hand-written gradient),
    [MixedLinearRegression] (torch tensors, gradient from autograd) and the
    function [train] driving an [nn.Linear] layer with [nn.MSELoss] and
    [optim.SGD].

    Modelling decisions, valid for the whole file.
    - Arithmetic is exact: a finite float is a rational [Qc]; rounding and
      overflow are not modelled.  The one way the code leaves the finite
      numbers, a true division by the integer [0] (numpy and torch return
      [nan] or [inf] there and go on, they do not raise), is kept: a scalar
      is an [npfloat], either [Fin q] or [NonFinite].
    - A two-dimensional array carries its shape, so that an array with no
      row still has a number of columns, as in numpy.
    - The exceptions numpy and torch raise on a shape mismatch are results
      [Raise e]; every method is a function from the object's state to a
      result and a new state. *)

From Stdlib Require Import List ZArith QArith Qcanon Lia Bool Permutation.
Import ListNotations.

Set Implicit Arguments.
Close Scope Qc_scope.
Close Scope Q_scope.

(** ** Scalars *)

(** The operations the code applies to array elements. [divn x m] is the
    true division of [x] by the Python integer [m]; [ofnat k] is the
    conversion of a Python integer. *)
Class Num (F : Type) : Type := {
  zero : F;
  one : F;
  add : F -> F -> F;
  sub : F -> F -> F;
  mul : F -> F -> F;
  divn : F -> nat -> F;
  ofnat : nat -> F
}.

Definition Qc_of_nat (n : nat) : Qc := Q2Qc (inject_Z (Z.of_nat n)).

#[export] Instance Num_Qc : Num Qc := {
  zero := Q2Qc 0%Q;
  one := Q2Qc 1%Q;
  add := Qcplus;
  sub := Qcminus;
  mul := Qcmult;
  divn := fun x m => Qcdiv x (Qc_of_nat m);
  ofnat := Qc_of_nat
}.

(** A float of the running program: a finite value, or one of [nan],
    [inf], [-inf].  The three are not told apart: under the operations used
    here ([+], [-], [*], division by an integer) a non-finite operand always
    gives a non-finite result. *)
Inductive npfloat : Type :=
| Fin (q : Qc)
| NonFinite.

Definition lift2 (f : Qc -> Qc -> Qc) (a b : npfloat) : npfloat :=
  match a, b with
  | Fin x, Fin y => Fin (f x y)
  | _, _ => NonFinite
  end.

Definition np_divn (a : npfloat) (m : nat) : npfloat :=
  match a with
  | Fin x => if Nat.eqb m 0 then NonFinite else Fin (Qcdiv x (Qc_of_nat m))
  | NonFinite => NonFinite
  end.

#[export] Instance Num_npfloat : Num npfloat := {
  zero := Fin (Q2Qc 0%Q);
  one := Fin (Q2Qc 1%Q);
  add := lift2 Qcplus;
  sub := lift2 Qcminus;
  mul := lift2 Qcmult;
  divn := np_divn;
  ofnat := fun k => Fin (Qc_of_nat k)
}.

(** ** Vectors and matrices over any scalar type *)

Section LinAlg.
Context {F : Type} `{Num F}.

Fixpoint zip_with (f : F -> F -> F) (u v : list F) : list F :=
  match u, v with
  | a :: u', b :: v' => f a b :: zip_with f u' v'
  | _, _ => []
  end.

Definition vsum (v : list F) : F := fold_right add zero v.

Definition dot (u v : list F) : F := vsum (zip_with mul u v).

Definition vscale (c : F) (v : list F) : list F := map (mul c) v.

Definition vdivn (v : list F) (m : nat) : list F :=
  map (fun x => divn x m) v.

Definition matvec (M : list (list F)) (v : list F) : list F :=
  map (fun r => dot r v) M.

(** The [c] columns of a list of rows of length [c]. *)
Fixpoint transpose (c : nat) (M : list (list F)) : list (list F) :=
  match M with
  | [] => repeat [] c
  | r :: M' => map (fun p => fst p :: snd p) (combine r (transpose c M'))
  end.

(** Rows of [A] times the [c] columns of [B]. *)
Definition mmul (A : list (list F)) (c : nat) (B : list (list F))
  : list (list F) :=
  map (fun r => map (dot r) (transpose c B)) A.

Definition power2 (v : list F) : list F := map (fun x => mul x x) v.

Definition mean (v : list F) : F := divn (vsum v) (length v).
End LinAlg.

(** A two-dimensional array of shape [(shape0, shape1)]. *)
Record ndarray2 (F : Type) : Type := mk2 {
  shape0 : nat;
  shape1 : nat;
  rows : list (list F)
}.

Definition wf2 {F} (A : ndarray2 F) : Prop :=
  length (rows A) = shape0 A /\
  Forall (fun r => length r = shape1 A) (rows A).

Definition map2 {F G} (h : F -> G) (A : ndarray2 F) : ndarray2 G :=
  mk2 (shape0 A) (shape1 A) (map (map h) (rows A)).

(** ** Results of a Python call *)

Inductive exn : Type :=
| ValueError
| RuntimeError
| AttributeError.

Inductive result (A : Type) : Type :=
| Ok (a : A)
| Raise (e : exn).

Arguments Ok {A} a.
Arguments Raise {A} e.

(** A method of an object whose attributes are [S]. *)
Definition M (S A : Type) : Type := S -> result (A * S).

Definition ret {S A} (a : A) : M S A := fun s => Ok (a, s).

Definition bind {S A B} (c : M S A) (k : A -> M S B) : M S B :=
  fun s => match c s with
           | Ok (a, s') => k a s'
           | Raise e => Raise e
           end.

Definition get {S} : M S S := fun s => Ok (s, s).

Definition put {S} (s : S) : M S unit := fun _ => Ok (tt, s).

Definition lift {S A} (r : result A) : M S A :=
  fun s => match r with
           | Ok a => Ok (a, s)
           | Raise e => Raise e
           end.

Declare Scope py_scope.
Delimit Scope py_scope with py.
Notation "x <- c ;; k" := (bind c (fun x => k))
  (at level 61, c at next level, right associativity) : py_scope.
Notation "c ;;; k" := (bind c (fun _ => k))
  (at level 61, right associativity) : py_scope.

Open Scope py_scope.

Abbreviation vec := (list npfloat).
Abbreviation mat := (ndarray2 npfloat).

(** ** The numpy operations the notebook uses *)

Module np.

(** [np.zeros((k, n))]. *)
Definition zeros (k n : nat) : mat :=
  mk2 k n (repeat (repeat zero n) k).

(** [A.T] of a two-dimensional array. *)
Definition T (A : mat) : mat :=
  mk2 (shape1 A) (shape0 A) (transpose (shape1 A) (rows A)).

(** [np.dot(A, B)], both two-dimensional: the matrix product; the inner
    dimensions must agree. *)
Definition dot22 (A B : mat) : result mat :=
  if Nat.eqb (shape1 A) (shape0 B)
  then Ok (mk2 (shape0 A) (shape1 B) (mmul (rows A) (shape1 B) (rows B)))
  else Raise ValueError.

(** [np.dot(A, v)], [A] two-dimensional and [v] one-dimensional. *)
Definition dot21 (A : mat) (v : vec) : result vec :=
  if Nat.eqb (shape1 A) (length v)
  then Ok (matvec (rows A) v)
  else Raise ValueError.

(** [A.squeeze(-1)]: numpy raises unless the last axis has size one. *)
Definition squeeze_last (A : mat) : result vec :=
  if Nat.eqb (shape1 A) 1
  then Ok (map (fun r => hd zero r) (rows A))
  else Raise ValueError.

(** [u - v] on one-dimensional arrays, with broadcasting of a length-one
    operand. *)
Definition sub11 (u v : vec) : result vec :=
  if Nat.eqb (length u) (length v) then Ok (zip_with sub u v)
  else if Nat.eqb (length v) 1 then Ok (map (fun a => sub a (hd zero v)) u)
  else if Nat.eqb (length u) 1 then Ok (map (fun b => sub (hd zero u) b) v)
  else Raise ValueError.

(** [A - v], [A] of shape [(r, c)] and [v] of shape [(l,)]: [v] is
    aligned with the last axis of [A]. *)
Definition sub21 (A : mat) (v : vec) : result mat :=
  if Nat.eqb (shape1 A) (length v)
  then Ok (mk2 (shape0 A) (shape1 A)
             (map (fun r => zip_with sub r v) (rows A)))
  else if Nat.eqb (length v) 1
  then Ok (mk2 (shape0 A) (shape1 A)
             (map (map (fun a => sub a (hd zero v))) (rows A)))
  else if Nat.eqb (shape1 A) 1
  then Ok (mk2 (shape0 A) (length v)
             (map (fun r => map (fun b => sub (hd zero r) b) v) (rows A)))
  else Raise ValueError.

(** [np.power(v, 2)]. *)
Definition power (v : vec) : vec := power2 v.

(** [np.mean(v)]; of an empty array it is [nan]. *)
Definition mean (v : vec) : npfloat := mean v.

End np.

(** ** Solution with numpy, without autodiff *)

Module LinearRegression.

Record state : Type := mk { W : mat; lr : npfloat }.

(** The default [lr=0.01]. *)
Definition default_lr : npfloat := Fin (Q2Qc (1 # 100)%Q).

Definition __init__ (n_features n_targets : nat) (lr : npfloat) : state :=
  {| W := np.zeros n_targets n_features; lr := lr |}.

Definition predict (X : mat) : M state vec :=
  self <- get ;;
  y_hat <- lift (np.dot22 X (np.T (W self))) ;;
  lift (np.squeeze_last y_hat).

Definition loss (y_hat y : vec) : M state npfloat :=
  d <- lift (np.sub11 y_hat y) ;;
  ret (np.mean (np.power d)).

(** The local [W_grad] of [update_weight]. *)
Definition W_grad (X : mat) (y : vec) : M state vec :=
  let m := shape0 X in
  y_hat <- predict X ;;
  d <- lift (np.sub11 y_hat y) ;;
  g <- lift (np.dot21 (np.T X) d) ;;
  ret (vdivn (vscale (ofnat 2) g) m).

Definition update_weight (X : mat) (y : vec) : M state unit :=
  W_grad <- W_grad X y ;;
  self <- get ;;
  W' <- lift (np.sub21 (W self) (vscale (lr self) W_grad)) ;;
  put {| W := W'; lr := lr self |}.

(** The body of [for _ in range(epochs)], [n] iterations left. *)
Fixpoint train_loop (X : mat) (y : vec) (n : nat)
  (loss_history : list npfloat) : M state (list npfloat) :=
  match n with
  | O => ret loss_history
  | S n' =>
      update_weight X y ;;;
      y_hat <- predict X ;;
      loss <- loss y_hat y ;;
      train_loop X y n' (loss_history ++ [loss])
  end.

Definition train (X : mat) (y : vec) (epochs : Z)
  : M state (list npfloat) :=
  train_loop X y (Z.to_nat epochs) [].

End LinearRegression.

(** ** The torch operations the notebook uses, with their backward rules *)

Module torch.

(** A tensor that takes part in the autograd graph: its value, and the
    backward function of the graph below it, which maps the gradient of a
    scalar with respect to this tensor to the gradient with respect to the
    leaves that require one ([G] is the type of those gradients). *)
Record tensor (A G : Type) : Type := mkT {
  data : A;
  grad_fn : A -> G
}.

(** [torch.zeros(k, n)]. *)
Definition zeros (k n : nat) : mat :=
  mk2 k n (repeat (repeat zero n) k).

Definition transpose2 (A : mat) : mat :=
  mk2 (shape1 A) (shape0 A) (transpose (shape1 A) (rows A)).

(** Elementwise [A + B] and [A - c * B] on arrays of one shape. *)
Definition add22 (A B : mat) : mat :=
  mk2 (shape0 A) (shape1 A)
    (map (fun p => zip_with add (fst p) (snd p)) (combine (rows A) (rows B))).

Definition axpy22 (A : mat) (c : npfloat) (B : mat) : mat :=
  mk2 (shape0 A) (shape1 A)
    (map (fun p => zip_with sub (fst p) (vscale c (snd p)))
       (combine (rows A) (rows B))).

Section Graph.
Variable G : Type.

(** [w.t()]. *)
Definition t (w : tensor mat G) : tensor mat G :=
  mkT (transpose2 (data w)) (fun g => grad_fn w (transpose2 g)).

(** [torch.matmul(X, B)], [X] a constant: the gradient of [B] is
    [X.t() @ g]. *)
Definition matmul (X : mat) (B : tensor mat G) : result (tensor mat G) :=
  if Nat.eqb (shape1 X) (shape0 (data B))
  then Ok (mkT
             (mk2 (shape0 X) (shape1 (data B))
                (mmul (rows X) (shape1 (data B)) (rows (data B))))
             (fun g =>
                grad_fn B
                  (mk2 (shape1 X) (shape1 g)
                     (mmul (transpose (shape1 X) (rows X))
                        (shape1 g) (rows g)))))
  else Raise RuntimeError.

(** [a.squeeze(-1)]: torch drops the last axis when it has size one and
    returns the tensor as it is otherwise. *)
Definition squeeze_last (a : tensor mat G)
  : tensor vec G + tensor mat G :=
  if Nat.eqb (shape1 (data a)) 1
  then inl (mkT (map (fun r => hd zero r) (rows (data a)))
              (fun g =>
                 grad_fn a
                   (mk2 (shape0 (data a)) 1 (map (fun x => [x]) g))))
  else inr a.

(** [a - y], [y] a constant, one-dimensional operands.  Where [a] was
    broadcast, its gradient is summed back to its shape. *)
Definition sub11 (a : tensor vec G) (y : vec) : result (tensor vec G) :=
  if Nat.eqb (length (data a)) (length y)
  then Ok (mkT (zip_with sub (data a) y) (grad_fn a))
  else if Nat.eqb (length y) 1
  then Ok (mkT (map (fun v => sub v (hd zero y)) (data a)) (grad_fn a))
  else if Nat.eqb (length (data a)) 1
  then Ok (mkT (map (fun b => sub (hd zero (data a)) b) y)
             (fun g => grad_fn a [vsum g]))
  else Raise RuntimeError.

(** [a - y], [a] of shape [(r, c)] and [y] of shape [(l,)]. *)
Definition sub21 (a : tensor mat G) (y : vec) : result (tensor mat G) :=
  let A := data a in
  if Nat.eqb (shape1 A) (length y)
  then Ok (mkT (mk2 (shape0 A) (shape1 A)
                  (map (fun r => zip_with sub r y) (rows A)))
             (grad_fn a))
  else if Nat.eqb (length y) 1
  then Ok (mkT (mk2 (shape0 A) (shape1 A)
                  (map (map (fun v => sub v (hd zero y))) (rows A)))
             (grad_fn a))
  else if Nat.eqb (shape1 A) 1
  then Ok (mkT (mk2 (shape0 A) (length y)
                  (map (fun r => map (fun b => sub (hd zero r) b) y)
                     (rows A)))
             (fun g =>
                grad_fn a
                  (mk2 (shape0 A) 1 (map (fun r => [vsum r]) (rows g)))))
  else Raise RuntimeError.

(** [torch.pow(a, 2)]: the gradient is [g * (2 * a ** 1)]. *)
Definition pow1 (a : tensor vec G) : tensor vec G :=
  mkT (power2 (data a))
    (fun g => grad_fn a (zip_with mul g (vscale (ofnat 2) (data a)))).

Definition pow2 (a : tensor mat G) : tensor mat G :=
  mkT (mk2 (shape0 (data a)) (shape1 (data a))
         (map power2 (rows (data a))))
    (fun g =>
       grad_fn a
         (mk2 (shape0 (data a)) (shape1 (data a))
            (map (fun p => zip_with mul (fst p) (vscale (ofnat 2) (snd p)))
               (combine (rows g) (rows (data a)))))).

(** [torch.mean(a)]: every element receives [g / numel]. *)
Definition mean1 (a : tensor vec G) : tensor npfloat G :=
  mkT (mean (data a))
    (fun g =>
       grad_fn a (repeat (divn g (length (data a))) (length (data a)))).

Definition mean2 (a : tensor mat G) : tensor npfloat G :=
  let n := (shape0 (data a) * shape1 (data a))%nat in
  mkT (divn (vsum (concat (rows (data a)))) n)
    (fun g =>
       grad_fn a
         (mk2 (shape0 (data a)) (shape1 (data a))
            (repeat (repeat (divn g n) (shape1 (data a)))
               (shape0 (data a))))).
End Graph.

End torch.

(** ** numpy-style code with autograd from torch *)

Module MixedLinearRegression.

(** [W_grad] is the attribute [W.grad], [None] until the first
    [backward]. *)
Record state : Type := mk {
  W : mat;
  W_grad : option mat;
  lr : npfloat
}.

Definition default_lr : npfloat := Fin (Q2Qc (1 # 100)%Q).

Definition tensor (A : Type) : Type := torch.tensor A mat.

Definition __init__ (n_features n_targets : nat) (lr : npfloat) : state :=
  {| W := torch.zeros n_targets n_features; W_grad := None; lr := lr |}.

Definition update_weight : M state unit :=
  self <- get ;;
  match W_grad self with
  | None => lift (Raise AttributeError)
  | Some g =>
      put {| W := torch.axpy22 (W self) (lr self) g;
             W_grad := W_grad self;
             lr := lr self |}
  end.

Definition loss (y_hat : tensor vec + tensor mat) (y : vec)
  : M state (tensor npfloat) :=
  match y_hat with
  | inl y_hat =>
      d <- lift (torch.sub11 y_hat y) ;;
      ret (torch.mean1 (torch.pow1 d))
  | inr y_hat =>
      d <- lift (torch.sub21 y_hat y) ;;
      ret (torch.mean2 (torch.pow2 d))
  end.

Definition predict (X : mat) : M state (tensor vec + tensor mat) :=
  self <- get ;;
  let W := torch.mkT (W self) (fun g : mat => g) in
  y_hat <- lift (torch.matmul X (torch.t W)) ;;
  ret (torch.squeeze_last y_hat).

(** [loss.backward()]: the gradient of the loss is added to [W.grad]. *)
Definition backward (loss : tensor npfloat) : M state unit :=
  self <- get ;;
  let g := torch.grad_fn loss one in
  put {| W := W self;
         W_grad := match W_grad self with
                   | None => Some g
                   | Some g0 => Some (torch.add22 g0 g)
                   end;
         lr := lr self |}.

(** [self.W.grad.data.zero_()]. *)
Definition zero_grad : M state unit :=
  self <- get ;;
  match W_grad self with
  | None => lift (Raise AttributeError)
  | Some g =>
      put {| W := W self;
             W_grad := Some (torch.zeros (shape0 g) (shape1 g));
             lr := lr self |}
  end.

Fixpoint train_loop (X : mat) (y : vec) (n : nat)
  (loss_history : list npfloat) : M state (list npfloat) :=
  match n with
  | O => ret loss_history
  | S n' =>
      y_hat <- predict X ;;
      loss <- loss y_hat y ;;
      backward loss ;;;
      let loss_history := loss_history ++ [torch.data loss] in
      update_weight ;;;
      zero_grad ;;;
      train_loop X y n' loss_history
  end.

Definition train (X : mat) (y : vec) (epochs : Z)
  : M state (list npfloat) :=
  train_loop X y (Z.to_nat epochs) [].

End MixedLinearRegression.

(** ** Full PyTorch solution *)

Module FullPyTorch.

(** The globals [model] and [optimizer].  [weight] is the single row of
    the [(1, input_dim)] weight of [nn.Linear(input_dim, 1)], [bias] its
    one bias; an array of shape [(m, 1)] is the list of its [m] entries.
    [lr] is the learning rate of [optim.SGD]. *)
Record state : Type := mk {
  weight : vec;
  bias : npfloat;
  weight_grad : option vec;
  bias_grad : option npfloat;
  training : bool;
  lr : npfloat
}.

Definition tensor (A : Type) : Type := torch.tensor A (vec * npfloat).

(** [LinReg(input_dim)] and [optim.SGD(model.parameters(), lr)].
    [nn.Linear] draws its initial weight and bias at random; they are
    arguments here. *)
Definition __init__ (weight0 : vec) (bias0 : npfloat) (lr : npfloat)
  : state :=
  {| weight := weight0; bias := bias0;
     weight_grad := None; bias_grad := None;
     training := true; lr := lr |}.

(** [LinReg.forward]: [self.beta(X)], that is [X @ weight.t() + bias]. *)
Definition forward (X : mat) : M state (tensor vec) :=
  self <- get ;;
  if Nat.eqb (shape1 X) (length (weight self))
  then ret (torch.mkT
              (map (fun r => add (dot r (weight self)) (bias self)) (rows X))
              (fun g => (matvec (transpose (shape1 X) (rows X)) g, vsum g)))
  else lift (Raise RuntimeError).

(** [nn.MSELoss()]. *)
Definition loss_fn (y_ : tensor vec) (y : vec) : M state (tensor npfloat) :=
  d <- lift (torch.sub11 y_ y) ;;
  ret (torch.mean1 (torch.pow1 d)).

(** [optimizer.zero_grad()]. *)
Definition zero_grad : M state unit :=
  self <- get ;;
  put {| weight := weight self; bias := bias self;
         weight_grad := None; bias_grad := None;
         training := training self; lr := lr self |}.

Definition backward (loss : tensor npfloat) : M state unit :=
  self <- get ;;
  let g := torch.grad_fn loss one in
  put {| weight := weight self; bias := bias self;
         weight_grad := match weight_grad self with
                        | None => Some (fst g)
                        | Some g0 => Some (zip_with add g0 (fst g))
                        end;
         bias_grad := match bias_grad self with
                      | None => Some (snd g)
                      | Some g0 => Some (add g0 (snd g))
                      end;
         training := training self; lr := lr self |}.

(** [optimizer.step()]: a parameter without gradient is left alone. *)
Definition step : M state unit :=
  self <- get ;;
  put {| weight := match weight_grad self with
                   | None => weight self
                   | Some g => zip_with sub (weight self) (vscale (lr self) g)
                   end;
         bias := match bias_grad self with
                 | None => bias self
                 | Some g => sub (bias self) (mul (lr self) g)
                 end;
         weight_grad := weight_grad self; bias_grad := bias_grad self;
         training := training self; lr := lr self |}.

(** [model.train()]. *)
Definition set_train : M state unit :=
  self <- get ;;
  put {| weight := weight self; bias := bias self;
         weight_grad := weight_grad self; bias_grad := bias_grad self;
         training := true; lr := lr self |}.

Fixpoint train_loop (X : mat) (y : vec) (n : nat)
  (loss_history : list npfloat) : M state (list npfloat) :=
  match n with
  | O => ret loss_history
  | S n' =>
      zero_grad ;;;
      y_ <- forward X ;;
      loss <- loss_fn y_ y ;;
      let loss_history := loss_history ++ [torch.data loss] in
      backward loss ;;;
      step ;;;
      train_loop X y n' loss_history
  end.

Definition train (X : mat) (y : vec) (epochs : Z)
  : M state (list npfloat) :=
  set_train ;;;
  train_loop X y (Z.to_nat epochs) [].

End FullPyTorch.

(** ** The mathematics the statements refer to, over the rationals *)

Definition fin_vec (v : list Qc) : vec := map Fin v.

Definition fin_mat (A : ndarray2 Qc) : mat := map2 Fin A.

(** The weight matrix of shape [(1, n)] whose single row is [w]. *)
Definition row_mat {F} (w : list F) : ndarray2 F := mk2 1 (length w) [w].

Module Spec.

Local Open Scope Qc_scope.

Definition two : Qc := Q2Qc 2%Q.

(** Elementwise sum and multiple of lists of rows. *)
Definition madd (A B : list (list Qc)) : list (list Qc) :=
  map (fun p => zip_with Qcplus (fst p) (snd p)) (combine A B).

Definition mscale (c : Qc) (A : list (list Qc)) : list (list Qc) :=
  map (vscale c) A.

(** [X * W^T] for the one-row weight matrix [W = [w]]. *)
Definition linear_prediction (X : list (list Qc)) (w : list Qc) : list Qc :=
  matvec X w.

(** [(1/m) * sum_i (y_hat_i - y_i)^2], [m] the length of [y_hat]. *)
Definition mean_squared_error (y_hat y : list Qc) : Qc :=
  / Qc_of_nat (length y_hat)
  * vsum (zip_with (fun a b => (a - b) * (a - b)) y_hat y).

(** The loss as a function of the weights. *)
Definition objective (X : list (list Qc)) (y w : list Qc) : Qc :=
  mean_squared_error (linear_prediction X w) y.

(** [(2/m) * X^T (X w - y)], [X] with [m] rows of length [n]. *)
Definition mse_gradient (n : nat) (X : list (list Qc)) (y w : list Qc)
  : list Qc :=
  vscale (two / Qc_of_nat (length X))
    (matvec (transpose n X) (zip_with Qcminus (linear_prediction X w) y)).

(** The same gradient written as a sum over all the examples:
    [sum_i (2/m) * (x_i . w - y_i) * x_i]. *)
Definition batch_gradient (n : nat) (X : list (list Qc)) (y w : list Qc)
  : list Qc :=
  fold_right
    (fun (xy : list Qc * Qc) acc =>
       zip_with Qcplus
         (vscale (two / Qc_of_nat (length X) * (dot (fst xy) w - snd xy))
            (fst xy))
         acc)
    (repeat (Q2Qc 0%Q) n) (combine X y).

(** One step of gradient descent with step size [lr]:
    [w - lr * (2/m) * X^T (X w - y)]. *)
Definition gd_step (lr : Qc) (n : nat) (X : list (list Qc)) (y w : list Qc)
  : list Qc :=
  zip_with Qcminus w (vscale lr (mse_gradient n X y w)).

End Spec.

(** [e] successive calls [self.update_weight(X, y)]. *)
Fixpoint updates (X : mat) (y : vec) (e : nat)
  : M LinearRegression.state unit :=
  match e with
  | O => ret tt
  | S e' => LinearRegression.update_weight X y ;;; updates X y e'
  end.

(** The loss of the current weights on the data set, as an epoch of
    [LinearRegression.train] records it. *)
Definition current_loss (X : mat) (y : vec)
  : M LinearRegression.state npfloat :=
  y_hat <- LinearRegression.predict X ;;
  LinearRegression.loss y_hat y.

(** What [LinearRegression.update_weight] computes when the weight matrix is
    the one row [w]: its local [W_grad], and the new row. *)
Definition hand_gradient (X : mat) (y w : vec) : vec :=
  vdivn
    (vscale (ofnat 2)
       (matvec (transpose (shape1 X) (rows X))
          (zip_with sub (matvec (rows X) w) y)))
    (shape0 X).

Definition hand_step (lr : npfloat) (X : mat) (y w : vec) : vec :=
  zip_with sub w (vscale lr (hand_gradient X y w)).

(** The loss the code computes for the weight row [w]. *)
Definition loss_at (X : mat) (y w : vec) : npfloat :=
  mean (power2 (zip_with sub (matvec (rows X) w) y)).

(** What [loss.backward()] adds to the single row of [W.grad] when the
    weight matrix is the one row [w], read off the backward rules in the
    order autograd applies them: [mean], [pow], [sub], [squeeze], [matmul],
    [t]. *)
Definition autograd_gradient (X : mat) (y w : vec) : vec :=
  let d := zip_with sub (matvec (rows X) w) y in
  let g_mean := repeat (divn one (length (power2 d))) (length (power2 d)) in
  let g_pow := zip_with mul g_mean (vscale (ofnat 2) d) in
  matvec (transpose (shape1 X) (rows X)) g_pow.

Definition autograd_step (lr : npfloat) (X : mat) (y w : vec) : vec :=
  zip_with sub w (vscale lr (autograd_gradient X y w)).

(** [W.grad] holds nothing that a later [backward] would add to. *)
Definition grad_clear (n : nat) (g : option mat) : Prop :=
  g = None \/ g = Some (torch.zeros 1 n).

(** The gradient [self.W.grad] that [MixedLinearRegression.update_weight]
    reads in an epoch: the first three statements of the loop body, then the
    attribute. *)
Definition autograd_W_grad (X : mat) (y : vec)
  : M MixedLinearRegression.state (option mat) :=
  y_hat <- MixedLinearRegression.predict X ;;
  loss <- MixedLinearRegression.loss y_hat y ;;
  MixedLinearRegression.backward loss ;;;
  self <- get ;;
  ret (MixedLinearRegression.W_grad self).

(** What an epoch of the function [train] computes for the layer with
    weight row [w] and bias [b]: the loss it records, and the parameters
    after [optimizer.step()]. *)
Definition affine_loss (X : mat) (y w : vec) (b : npfloat) : npfloat :=
  mean (power2 (zip_with sub (map (fun r => add (dot r w) b) (rows X)) y)).

Definition sgd_step (lr : npfloat) (X : mat) (y : vec) (p : vec * npfloat)
  : vec * npfloat :=
  let y_ := map (fun r => add (dot r (fst p)) (snd p)) (rows X) in
  let d := zip_with sub y_ y in
  let g_mean := repeat (divn one (length (power2 d))) (length (power2 d)) in
  let g_pow := zip_with mul g_mean (vscale (ofnat 2) d) in
  (zip_with sub (fst p)
     (vscale lr (matvec (transpose (shape1 X) (rows X)) g_pow)),
   sub (snd p) (mul lr (vsum g_pow))).

(** What a call leaves of the state: [keeps f c] when [c], if it returns,
    returns in a state with the same [f]. *)
Definition keeps {S A B} (f : S -> B) (c : M S A) : Prop :=
  forall s, match c s with
            | Ok (_, s') => f s' = f s
            | Raise _ => True
            end.

(** ** The rest of the notebook *)

(** [np.hstack([np.ones((n_samples, 1)), X])], the data of the branch
    [use_bias]: a first column of ones.  The two blocks must have the same
    number of rows. *)
Definition hstack_ones (n_samples : nat) (X : mat) : result mat :=
  if Nat.eqb n_samples (shape0 X)
  then Ok (mk2 (shape0 X) (1 + shape1 X) (map (cons one) (rows X)))
  else Raise ValueError.

(** [model.eval()]. *)
Definition set_eval : M FullPyTorch.state unit :=
  self <- get ;;
  put {| FullPyTorch.weight := FullPyTorch.weight self;
         FullPyTorch.bias := FullPyTorch.bias self;
         FullPyTorch.weight_grad := FullPyTorch.weight_grad self;
         FullPyTorch.bias_grad := FullPyTorch.bias_grad self;
         FullPyTorch.training := false;
         FullPyTorch.lr := FullPyTorch.lr self |}.

(** The function [evaluate]: under [torch.no_grad()] the result of
    [model(X)] carries no graph, it is its value. *)
Definition evaluate (X : mat) : M FullPyTorch.state vec :=
  set_eval ;;;
  y_ <- FullPyTorch.forward X ;;
  ret (torch.data y_).

(** The cells on automatic differentiation: one leaf [x] with
    [requires_grad], and the operations applied to it. *)
Module autograd.

(** The gradient that flows back to [x]; [None] when the graph does not
    lead to [x]. *)
Definition tensor (A : Type) : Type := torch.tensor A (option vec).

Definition accumulate (g1 g2 : option vec) : option vec :=
  match g1, g2 with
  | None, g => g
  | g, None => g
  | Some a, Some b => Some (zip_with add a b)
  end.

(** [x] and its attribute [x.grad]. *)
Record state : Type := mk { x : vec; x_grad : option vec }.

Definition leaf (x : vec) : tensor vec := torch.mkT x (fun g => Some g).

(** [a.detach()]. *)
Definition detach {A} (a : tensor A) : tensor A :=
  torch.mkT (torch.data a) (fun _ => None).

(** [torch.dot(a, b)]: each operand receives [g] times the other. *)
Definition dot (a b : tensor vec) : result (tensor npfloat) :=
  if Nat.eqb (length (torch.data a)) (length (torch.data b))
  then Ok (torch.mkT (dot (torch.data a) (torch.data b))
             (fun g =>
                accumulate
                  (torch.grad_fn a (vscale g (torch.data b)))
                  (torch.grad_fn b (vscale g (torch.data a)))))
  else Raise RuntimeError.

(** [c * a] for a Python integer [c]. *)
Definition rmul (c : nat) (a : tensor npfloat) : tensor npfloat :=
  torch.mkT (mul (ofnat c) (torch.data a))
    (fun g => torch.grad_fn a (mul g (ofnat c))).

(** [a * b], elementwise, with broadcasting of a length-one operand; a
    broadcast operand receives the sum of its gradient. *)
Definition mul (a b : tensor vec) : result (tensor vec) :=
  let da := torch.data a in
  let db := torch.data b in
  if Nat.eqb (length da) (length db)
  then Ok (torch.mkT (zip_with mul da db)
             (fun g =>
                accumulate (torch.grad_fn a (zip_with mul g db))
                  (torch.grad_fn b (zip_with mul g da))))
  else if Nat.eqb (length db) 1
  then Ok (torch.mkT (map (fun v => mul v (hd zero db)) da)
             (fun g =>
                accumulate
                  (torch.grad_fn a (map (fun v => mul v (hd zero db)) g))
                  (torch.grad_fn b [vsum (zip_with mul g da)])))
  else if Nat.eqb (length da) 1
  then Ok (torch.mkT (map (fun v => mul (hd zero da) v) db)
             (fun g =>
                accumulate
                  (torch.grad_fn a [vsum (zip_with mul g db)])
                  (torch.grad_fn b (map (fun v => mul v (hd zero da)) g))))
  else Raise RuntimeError.

(** [a.sum()]. *)
Definition sum (a : tensor vec) : tensor npfloat :=
  torch.mkT (vsum (torch.data a))
    (fun g => torch.grad_fn a (repeat g (length (torch.data a)))).

(** [t.backward()]: torch raises when nothing in the graph requires a
    gradient. *)
Definition backward (t : tensor npfloat) : M state unit :=
  self <- get ;;
  match torch.grad_fn t one with
  | None => lift (Raise RuntimeError)
  | Some g =>
      put {| x := x self;
             x_grad := match x_grad self with
                       | None => Some g
                       | Some g0 => Some (zip_with add g0 g)
                       end |}
  end.

(** [x.grad.zero_()]. *)
Definition zero_ : M state unit :=
  self <- get ;;
  match x_grad self with
  | None => lift (Raise AttributeError)
  | Some g => put {| x := x self; x_grad := Some (repeat zero (length g)) |}
  end.

(** [y = 2 * torch.dot(x, x)] and [y.backward()]. *)
Definition dot_cell : M state unit :=
  self <- get ;;
  let x := leaf (x self) in
  d <- lift (dot x x) ;;
  let y := rmul 2 d in
  backward y.

(** [x.grad.zero_()], [y = x * x], [u = y.detach()], [z = u * x] and
    [z.sum().backward()]; [y] and [u] stay defined for the next cell. *)
Definition detach_cell : M state (tensor vec * tensor vec) :=
  zero_ ;;;
  self <- get ;;
  let x := leaf (x self) in
  y <- lift (mul x x) ;;
  let u := detach y in
  z <- lift (mul u x) ;;
  backward (sum z) ;;;
  ret (y, u).

(** [x.grad.zero_()] and [y.sum().backward()]. *)
Definition sum_cell (y : tensor vec) : M state unit :=
  zero_ ;;;
  backward (sum y).

(** The value of [x.grad] that a cell displays. *)
Definition grad : M state (option vec) :=
  self <- get ;;
  ret (x_grad self).

(** The three cells in the order of the notebook, with the values they
    compare: [x.grad] after the first, [x.grad] and [u] after the second,
    [x.grad] after the third. *)
Definition cells : M state (option vec * (option vec * vec) * option vec) :=
  dot_cell ;;;
  g1 <- grad ;;
  yu <- detach_cell ;;
  g2 <- grad ;;
  sum_cell (fst yu) ;;;
  g3 <- grad ;;
  ret (g1, (g2, torch.data (snd yu)), g3).

(** The third cell with its first statement left out. *)
Definition sum_cell_without_reset (y : tensor vec) : M state unit :=
  backward (sum y).

End autograd.

(** The data set with a first column of ones, over the rationals, and one
    step of gradient descent on the mean squared error of the prediction
    [X w + b], for the weights and the bias [(w, b)]. *)
Definition bias_column (X : ndarray2 Qc) : ndarray2 Qc :=
  mk2 (shape0 X) (1 + shape1 X) (map (cons (Q2Qc 1%Q)) (rows X)).

Definition affine_gd_step (lr : Qc) (n : nat) (X : list (list Qc))
  (y : list Qc) (p : list Qc * Qc) : list Qc * Qc :=
  let d := zip_with Qcminus
             (map (fun r => Qcplus (dot r (fst p)) (snd p)) X) y in
  let c := Qcdiv Spec.two (Qc_of_nat (length X)) in
  (zip_with Qcminus (fst p)
     (vscale lr (vscale c (matvec (transpose n X) d))),
   Qcminus (snd p) (Qcmult lr (Qcmult c (vsum d)))).

(** ** Data to run the models on *)

(** A small data set, two examples with two features, and an empty one
    with the same number of features; used to run the models. *)
Definition q (n : Z) (d : positive) : Qc := Q2Qc (Qmake n d).

Definition sample_X : ndarray2 Qc :=
  mk2 2 2 [[q 1 1; q 2 1]; [q 3 1; q (-1) 1]].

Definition sample_y : list Qc := [q 1 1; q 0 1].

Definition sample_w : list Qc := [q 1 2; q (-1) 4].

Definition sample_lr : Qc := q 1 100.

Definition empty_X : mat := mk2 0 2 [].

(** One example with one feature. *)
Definition tiny_X : mat := mk2 1 1 [[Fin (q 1 1)]].

Definition tiny_y : vec := [Fin (q 1 1)].

(** The numerator and denominator of a finite value. *)
Definition value_of (x : npfloat) : option Q :=
  match x with
  | Fin v => Some (this v)
  | NonFinite => None
  end.

(** Labels that the weights [sample_w] fit exactly on [sample_X], and the
    data set with its two examples in the other order. *)
Definition fitted_y : list Qc := [q 0 1; q 7 4].

Definition swapped_X : ndarray2 Qc :=
  mk2 2 2 [[q 3 1; q (-1) 1]; [q 1 1; q 2 1]].

Definition swapped_y : list Qc := [q 0 1; q 1 1].

(** * Properties *)

(** ** Lists of rows *)

Section ListFacts.
Context {F : Type} `{Num F}.

Lemma zip_with_length (f : F -> F -> F) (u v : list F) :
  length (zip_with f u v) = Nat.min (length u) (length v).
Proof.
  revert v; induction u as [|a u IH]; intros [|b v]; simpl; auto.
Qed.

Lemma transpose_length (c : nat) (M : list (list F)) :
  Forall (fun r => length r = c) M -> length (transpose c M) = c.
Proof.
  induction 1 as [|r M Hr _ IH]; simpl.
  - apply repeat_length.
  - rewrite length_map, length_combine, IH, Hr. apply Nat.min_id.
Qed.

Lemma transpose_rows_length (c : nat) (M : list (list F)) :
  Forall (fun r => length r = c) M ->
  Forall (fun col => length col = length M) (transpose c M).
Proof.
  induction 1 as [|r M Hr _ IH]; simpl.
  - apply Forall_forall. intros x Hx. apply repeat_spec in Hx. now subst.
  - apply Forall_forall. intros col Hin.
    apply in_map_iff in Hin. destruct Hin as [[a col'] [<- Hin]].
    apply in_combine_r in Hin. simpl.
    rewrite Forall_forall in IH. now rewrite (IH _ Hin).
Qed.

(** The transpose of a column is the row of its entries. *)
Lemma transpose_column (v : list F) :
  transpose 1 (map (fun x => [x]) v) = [v].
Proof.
  induction v as [|a v IH]; simpl; [reflexivity|]. now rewrite IH.
Qed.

(** The transpose of a row is the column of its entries. *)
Lemma transpose_row (c : nat) (w : list F) :
  length w <= c -> transpose c [w] = map (fun x => [x]) w.
Proof.
  simpl. revert c. induction w as [|a w IH]; intros [|c] Hc; simpl in *;
    try reflexivity; try lia.
  f_equal. apply IH. lia.
Qed.

Lemma matvec_length (M : list (list F)) (v : list F) :
  length (matvec M v) = length M.
Proof. apply length_map. Qed.

Lemma repeat_map {A B} (h : A -> B) (a : A) (k : nat) :
  map h (repeat a k) = repeat (h a) k.
Proof. induction k; simpl; congruence. Qed.
End ListFacts.

(** ** Finite values: the running program computes what the rationals do *)

Section Finite.

Lemma Qc_of_nat_neq0 (m : nat) : m <> 0 -> Qc_of_nat m <> Q2Qc 0%Q.
Proof.
  intros Hm E. apply Q2Qc_eq_iff in E.
  unfold Qeq in E. simpl in E. lia.
Qed.

Lemma zip_with_fin (f : Qc -> Qc -> Qc) (u v : list Qc) :
  zip_with (lift2 f) (map Fin u) (map Fin v) = map Fin (zip_with f u v).
Proof.
  revert v; induction u as [|a u IH]; intros [|b v]; simpl; auto.
  now rewrite IH.
Qed.

Lemma vsum_fin (v : list Qc) : vsum (map Fin v) = Fin (vsum v).
Proof.
  unfold vsum. induction v as [|a v IH]; [reflexivity|].
  change (add (Fin a) (fold_right add zero (map Fin v))
          = Fin (add a (fold_right add zero v))).
  now rewrite IH.
Qed.

Lemma dot_fin (u v : list Qc) : dot (map Fin u) (map Fin v) = Fin (dot u v).
Proof.
  unfold dot. simpl. now rewrite zip_with_fin, vsum_fin.
Qed.

Lemma vscale_fin (c : Qc) (v : list Qc) :
  vscale (Fin c) (map Fin v) = map Fin (vscale c v).
Proof.
  unfold vscale. rewrite !map_map. reflexivity.
Qed.

Lemma vdivn_fin (v : list Qc) (m : nat) :
  m <> 0 -> vdivn (map Fin v) m = map Fin (vdivn v m).
Proof.
  intros Hm. unfold vdivn. rewrite !map_map. apply map_ext. intros x.
  simpl. apply Nat.eqb_neq in Hm. now rewrite Hm.
Qed.

Lemma power2_fin (v : list Qc) : power2 (map Fin v) = map Fin (power2 v).
Proof.
  unfold power2. rewrite !map_map. reflexivity.
Qed.

Lemma mean_fin (v : list Qc) :
  v <> [] -> mean (map Fin v) = Fin (mean v).
Proof.
  intros Hv. unfold mean. rewrite vsum_fin, length_map. simpl.
  destruct v; [congruence|]. reflexivity.
Qed.

Lemma matvec_fin (M : list (list Qc)) (v : list Qc) :
  matvec (map (map Fin) M) (map Fin v) = map Fin (matvec M v).
Proof.
  unfold matvec. rewrite !map_map. apply map_ext. intros r. apply dot_fin.
Qed.

Lemma transpose_map {A B} (h : A -> B) (c : nat) (M : list (list A)) :
  transpose c (map (map h) M) = map (map h) (transpose c M).
Proof.
  induction M as [|r M IH]; simpl.
  - now rewrite repeat_map.
  - rewrite IH. clear IH. generalize (transpose c M). intros T.
    revert T. induction r as [|a r IHr]; intros [|t T]; simpl; auto.
    now rewrite IHr.
Qed.

End Finite.

(** ** Linear algebra over the rationals *)

Section QcAlgebra.
Local Open Scope Qc_scope.

Implicit Types (u v w h r d : list Qc) (M : list (list Qc)) (c a b : Qc).

Lemma vsum_cons a v : vsum (a :: v) = a + vsum v.
Proof. reflexivity. Qed.

Lemma dot_cons a b u v : dot (a :: u) (b :: v) = a * b + dot u v.
Proof. reflexivity. Qed.

Lemma dot_nil_r u : dot u [] = Q2Qc 0%Q.
Proof. now destruct u. Qed.

Lemma dot_add_r r u v :
  length u = length v ->
  dot r (zip_with Qcplus u v) = dot r u + dot r v.
Proof.
  revert u v. induction r as [|x r IH]; intros [|a u] [|b v] E;
    try discriminate E; try (cbn; ring).
  cbn [zip_with]. rewrite !dot_cons, IH by (simpl in E; lia). ring.
Qed.

Lemma dot_add_l u v h :
  length u = length v ->
  dot (zip_with Qcplus u v) h = dot u h + dot v h.
Proof.
  revert v h. induction u as [|a u IH]; intros [|b v] [|x h] E;
    try discriminate E; try (cbn; ring).
  cbn [zip_with]. rewrite !dot_cons, IH by (simpl in E; lia). ring.
Qed.

Lemma dot_scale_r c r v : dot r (vscale c v) = c * dot r v.
Proof.
  revert v. induction r as [|x r IH]; intros [|b v]; try (cbn; ring).
  cbn [vscale map]. fold (vscale c v). rewrite !dot_cons, IH. cbn. ring.
Qed.

Lemma dot_scale_l c u h : dot (vscale c u) h = c * dot u h.
Proof.
  revert h. induction u as [|a u IH]; intros [|x h]; try (cbn; ring).
  cbn [vscale map]. fold (vscale c u). rewrite !dot_cons, IH. cbn. ring.
Qed.

Lemma dot_zero_l (n : nat) h : dot (repeat (Q2Qc 0%Q) n) h = Q2Qc 0%Q.
Proof.
  revert h. induction n as [|n IH]; intros [|x h]; try reflexivity.
  cbn [repeat]. rewrite dot_cons, IH. ring.
Qed.

Lemma matvec_add_r M u v :
  length u = length v ->
  matvec M (zip_with Qcplus u v)
  = zip_with Qcplus (matvec M u) (matvec M v).
Proof.
  intros E. induction M as [|r M IH]; [reflexivity|].
  cbn [matvec map zip_with]. fold (matvec M u) (matvec M v).
  rewrite dot_add_r by assumption. f_equal. apply IH.
Qed.

Lemma matvec_scale_r c M v : matvec M (vscale c v) = vscale c (matvec M v).
Proof.
  unfold matvec, vscale at 2. rewrite map_map. apply map_ext. intros r.
  apply dot_scale_r.
Qed.

Lemma vscale_repeat c a (n : nat) :
  vscale c (repeat a n) = repeat (c * a) n.
Proof. apply repeat_map. Qed.

Lemma vscale_vscale c a v : vscale c (vscale a v) = vscale (c * a) v.
Proof.
  unfold vscale. rewrite map_map. apply map_ext. intros x. cbn. ring.
Qed.

Lemma vscale_add c u v :
  vscale c (zip_with Qcplus u v)
  = zip_with Qcplus (vscale c u) (vscale c v).
Proof.
  revert v. induction u as [|a u IH]; intros [|b v]; try reflexivity.
  cbn [zip_with vscale map]. fold (vscale c u) (vscale c v).
  fold (vscale c (zip_with Qcplus u v)). rewrite IH. f_equal. cbn. ring.
Qed.

(** A new first row [r] with coefficient [a] adds [a * r] to [M^T d]. *)
Lemma matvec_transpose_cons (n : nat) r M a d :
  length r = n ->
  Forall (fun x => length x = n) M ->
  matvec (transpose n (r :: M)) (a :: d)
  = zip_with Qcplus (vscale a r) (matvec (transpose n M) d).
Proof.
  intros Hr HM. cbn [transpose].
  assert (E : length r = length (transpose n M))
    by now rewrite transpose_length.
  revert E. generalize (transpose n M). clear. intros T. revert T.
  induction r as [|x r IH]; intros [|t T] E; try discriminate E;
    try reflexivity.
  cbn [combine map matvec vscale zip_with fst snd].
  fold (matvec T d) (vscale a r).
  change (map (fun r0 => dot r0 (a :: d))
            (map (fun p : Qc * list Qc => fst p :: snd p) (combine r T)))
    with (matvec (map (fun p : Qc * list Qc => fst p :: snd p)
                    (combine r T)) (a :: d)).
  rewrite IH by (simpl in E; lia). rewrite dot_cons. f_equal. cbn. ring.
Qed.

Lemma matvec_transpose_nil (n : nat) :
  matvec (transpose n []) [] = repeat (Q2Qc 0%Q) n.
Proof.
  cbn [transpose]. unfold matvec. now rewrite repeat_map.
Qed.

(** [d . (M h) = (M^T d) . h]. *)
Lemma dot_matvec_adjoint (n : nat) M d h :
  Forall (fun x => length x = n) M ->
  length d = length M ->
  length h = n ->
  dot d (matvec M h) = dot (matvec (transpose n M) d) h.
Proof.
  intros HM. revert d. induction HM as [|r M Hr HM IH]; intros d Hd Hh.
  - destruct d; [|discriminate Hd].
    now rewrite matvec_transpose_nil, dot_zero_l.
  - destruct d as [|a d]; [discriminate Hd|].
    rewrite matvec_transpose_cons by assumption.
    cbn [matvec map]. fold (matvec M h).
    rewrite dot_cons, dot_add_l, dot_scale_l.
    + rewrite IH by (simpl in Hd; auto; lia). reflexivity.
    + unfold vscale. rewrite length_map, matvec_length, transpose_length;
        auto.
Qed.

End QcAlgebra.

(** ** [LinearRegression], one call at a time *)

Section LinearRegressionCalls.
Import LinearRegression.

Variables (X : mat) (y w : vec) (rate : npfloat).
Hypothesis HX : wf2 X.
Hypothesis Hy : length y = shape0 X.
Hypothesis Hw : length w = shape1 X.

Let self : state := {| W := row_mat w; lr := rate |}.

Lemma predict_row : predict X self = Ok (matvec (rows X) w, self).
Proof using Hw.
  unfold predict, bind, get, lift, np.dot22, np.squeeze_last, np.T.
  subst self. unfold row_mat. cbn [W shape0 shape1 rows].
  rewrite Hw, Nat.eqb_refl. cbn [shape0 shape1 rows].
  unfold mmul. rewrite <- Hw, transpose_row, transpose_column
    by apply Nat.le_refl.
  rewrite Nat.eqb_refl, map_map. reflexivity.
Qed.

Lemma loss_same_length (y_hat : vec) (s : state) :
  length y_hat = length y ->
  loss y_hat y s = Ok (mean (power2 (zip_with sub y_hat y)), s).
Proof.
  intros E. unfold loss, bind, lift, ret, np.sub11.
  now rewrite E, Nat.eqb_refl.
Qed.

Lemma W_grad_row : W_grad X y self = Ok (hand_gradient X y w, self).
Proof.
  unfold W_grad, bind. rewrite predict_row.
  unfold lift, ret, np.sub11, np.dot21.
  rewrite matvec_length. destruct HX as [Hr Hc].
  rewrite Hr, Hy, Nat.eqb_refl. simpl.
  rewrite zip_with_length, matvec_length, Hr, Hy, Nat.min_id, Nat.eqb_refl.
  reflexivity.
Qed.

Lemma hand_gradient_length : length (hand_gradient X y w) = shape1 X.
Proof.
  unfold hand_gradient, vdivn, vscale. rewrite !length_map, matvec_length.
  apply transpose_length. apply HX.
Qed.

Lemma hand_step_length : length (hand_step rate X y w) = shape1 X.
Proof.
  unfold hand_step. rewrite zip_with_length. unfold vscale.
  rewrite length_map, hand_gradient_length, Hw. apply Nat.min_id.
Qed.

Lemma update_weight_row :
  update_weight X y self
  = Ok (tt, {| W := row_mat (hand_step rate X y w); lr := rate |}).
Proof.
  unfold update_weight, bind. rewrite W_grad_row.
  unfold get, lift, put, np.sub21. simpl.
  unfold vscale at 1. rewrite length_map, hand_gradient_length.
  rewrite Hw, Nat.eqb_refl. unfold row_mat.
  rewrite hand_step_length. reflexivity.
Qed.

End LinearRegressionCalls.

(** ** [LinearRegression.train]: the loop *)

Section LinearRegressionLoop.
Import LinearRegression.

Variables (X : mat) (y : vec) (rate : npfloat).
Hypothesis HX : wf2 X.
Hypothesis Hy : length y = shape0 X.

Let step := hand_step rate X y.

Lemma iter_step_length (e : nat) (w : vec) :
  length w = shape1 X -> length (Nat.iter e step w) = shape1 X.
Proof.
  intros Hw. induction e as [|e IH]; simpl; [assumption|].
  now apply hand_step_length.
Qed.

Lemma iter_step_shift (e : nat) (w : vec) :
  Nat.iter e step (step w) = Nat.iter (S e) step w.
Proof.
  induction e as [|e IH]; simpl; [reflexivity|]. now rewrite IH.
Qed.

Lemma current_loss_row (w : vec) :
  length w = shape1 X ->
  current_loss X y (mk (row_mat w) rate)
  = Ok (loss_at X y w, mk (row_mat w) rate).
Proof.
  intros Hw. unfold current_loss, bind. rewrite predict_row by assumption.
  apply loss_same_length. rewrite matvec_length. destruct HX. congruence.
Qed.

Lemma updates_row (e : nat) (w : vec) :
  length w = shape1 X ->
  updates X y e (mk (row_mat w) rate)
  = Ok (tt, mk (row_mat (Nat.iter e step w)) rate).
Proof.
  revert w. induction e as [|e IH]; intros w Hw; [reflexivity|].
  cbn [updates]. unfold bind. rewrite update_weight_row by assumption.
  rewrite IH by now apply hand_step_length.
  now rewrite iter_step_shift.
Qed.

Lemma train_loop_row (n : nat) (w : vec) (history : list npfloat) :
  length w = shape1 X ->
  train_loop X y n history (mk (row_mat w) rate)
  = Ok (history
        ++ map (fun i => loss_at X y (Nat.iter (S i) step w)) (seq 0 n),
        mk (row_mat (Nat.iter n step w)) rate).
Proof.
  revert w history. induction n as [|n IH]; intros w history Hw.
  - simpl. unfold ret. now rewrite app_nil_r.
  - cbn [train_loop]. unfold bind at 1.
    rewrite update_weight_row by assumption.
    unfold bind at 1. rewrite predict_row by now apply hand_step_length.
    unfold bind at 1. rewrite loss_same_length.
    2:{ rewrite matvec_length. destruct HX. congruence. }
    rewrite IH by now apply hand_step_length.
    fold (step w).
    assert (E : map (fun i => loss_at X y (Nat.iter (S i) step (step w)))
                  (seq 0 n)
                = map (fun i => loss_at X y (Nat.iter (S i) step w))
                    (seq 1 n)).
    { rewrite <- seq_shift, map_map. apply map_ext. intros i.
      now rewrite iter_step_shift. }
    rewrite E, iter_step_shift, <- app_assoc. reflexivity.
Qed.

End LinearRegressionLoop.

(** ** The code on finite data computes the formulas of [Spec] *)

Section FiniteCode.
Local Open Scope Qc_scope.

Variables (X : ndarray2 Qc) (y : list Qc).
Hypothesis HX : wf2 X.
Hypothesis Hm : (1 <= shape0 X)%nat.
Hypothesis Hy : length y = shape0 X.

Lemma wf2_fin_mat : wf2 (fin_mat X).
Proof using HX.
  destruct HX as [Hr Hc]. split; cbn [fin_mat map2 rows shape0 shape1].
  - now rewrite length_map.
  - apply Forall_map. eapply Forall_impl; [|exact Hc].
    intros r Hlen. now rewrite length_map.
Qed.

Lemma fin_vec_length (v : list Qc) : length (fin_vec v) = length v.
Proof. apply length_map. Qed.

Lemma power2_sub (a b : list Qc) :
  power2 (zip_with Qcminus a b)
  = zip_with (fun p q => (p - q) * (p - q)) a b.
Proof.
  revert b. induction a as [|p a IH]; intros [|q b]; try reflexivity.
  cbn [zip_with power2 map]. f_equal. apply IH.
Qed.

Lemma loss_fin (a b : list Qc) :
  a <> [] -> length a = length b ->
  mean (power2 (zip_with sub (fin_vec a) (fin_vec b)))
  = Fin (Spec.mean_squared_error a b).
Proof.
  intros Ha E. unfold fin_vec.
  change (@sub npfloat _) with (lift2 Qcminus).
  rewrite zip_with_fin, power2_fin, mean_fin.
  - f_equal. unfold mean, Spec.mean_squared_error.
    rewrite power2_sub, zip_with_length, <- E, Nat.min_id.
    cbn [divn Num_Qc]. unfold Qcdiv. ring.
  - destruct a; [congruence|]. destruct b; [discriminate E|]. discriminate.
Qed.

Lemma loss_at_fin (w : list Qc) :
  loss_at (fin_mat X) (fin_vec y) (fin_vec w)
  = Fin (Spec.objective (rows X) y w).
Proof using HX Hm Hy.
  unfold loss_at, Spec.objective, Spec.linear_prediction.
  cbn [fin_mat map2 rows]. unfold fin_vec at 2. rewrite matvec_fin.
  apply loss_fin.
  - destruct HX as [Hr _]. intros E. apply (f_equal (@length _)) in E.
    rewrite matvec_length in E. simpl in E. lia.
  - rewrite matvec_length. destruct HX. congruence.
Qed.

Lemma hand_gradient_fin (w : list Qc) :
  hand_gradient (fin_mat X) (fin_vec y) (fin_vec w)
  = fin_vec (Spec.mse_gradient (shape1 X) (rows X) y w).
Proof using HX Hm Hy.
  unfold hand_gradient, Spec.mse_gradient, Spec.linear_prediction, fin_vec.
  cbn [fin_mat map2 rows shape0 shape1].
  change (@sub npfloat _) with (lift2 Qcminus).
  rewrite matvec_fin, zip_with_fin, transpose_map, matvec_fin.
  change (@ofnat npfloat _ 2) with (Fin (Qc_of_nat 2)).
  rewrite vscale_fin, vdivn_fin by lia. f_equal.
  destruct HX as [Hr _]. rewrite Hr.
  unfold vdivn, vscale. rewrite map_map. apply map_ext. intros x.
  cbn [divn mul Num_Qc]. change (Qc_of_nat 2) with Spec.two.
  field. apply Qc_of_nat_neq0. lia.
Qed.

Lemma hand_step_fin (lr : Qc) (w : list Qc) :
  hand_step (Fin lr) (fin_mat X) (fin_vec y) (fin_vec w)
  = fin_vec (Spec.gd_step lr (shape1 X) (rows X) y w).
Proof using HX Hm Hy.
  unfold hand_step, Spec.gd_step. rewrite hand_gradient_fin.
  unfold fin_vec. rewrite vscale_fin.
  change (@sub npfloat _) with (lift2 Qcminus).
  now rewrite zip_with_fin.
Qed.

Lemma iter_hand_step_fin (lr : Qc) (e : nat) (w : list Qc) :
  Nat.iter e (hand_step (Fin lr) (fin_mat X) (fin_vec y)) (fin_vec w)
  = fin_vec (Nat.iter e (Spec.gd_step lr (shape1 X) (rows X) y) w).
Proof using HX Hm Hy.
  induction e as [|e IH]; [reflexivity|].
  cbn [Nat.iter nat_rect]. unfold Nat.iter in IH. rewrite IH.
  apply hand_step_fin.
Qed.

End FiniteCode.

(** ** The gradient of the mean squared error *)

Section Gradient.
Local Open Scope Qc_scope.

Lemma two_plus : Spec.two = Q2Qc 1%Q + Q2Qc 1%Q.
Proof. apply Qc_is_canon. reflexivity. Qed.

Lemma sum_squares_expand (a b y : list Qc) :
  length a = length b -> length a = length y ->
  vsum (zip_with (fun p q => (p - q) * (p - q)) (zip_with Qcplus a b) y)
  = vsum (zip_with (fun p q => (p - q) * (p - q)) a y)
    + Spec.two * dot (zip_with Qcminus a y) b
    + dot b b.
Proof.
  rewrite two_plus.
  revert b y. induction a as [|p a IH]; intros [|q b] [|t y] Eb Ey;
    try discriminate Eb; try discriminate Ey.
  - cbn. ring.
  - cbn [zip_with]. rewrite !vsum_cons, !dot_cons.
    rewrite IH by (simpl in Eb, Ey; lia). ring.
Qed.

(** The loss is a quadratic function of the weights, and [mse_gradient]
    is its linear part: exactly, for every displacement [h],
    [L(w + h) = L(w) + grad . h + (1/m) |X h|^2]. *)
Lemma objective_expansion (n : nat) (X : list (list Qc)) (y w h : list Qc) :
  Forall (fun r => length r = n) X ->
  length y = length X -> length w = n -> length h = n ->
  Spec.objective X y (zip_with Qcplus w h)
  = Spec.objective X y w
    + dot (Spec.mse_gradient n X y w) h
    + / Qc_of_nat (length X) * dot (matvec X h) (matvec X h).
Proof.
  intros HX Hy Hw Hh.
  unfold Spec.objective, Spec.mean_squared_error, Spec.mse_gradient,
    Spec.linear_prediction.
  rewrite matvec_add_r by congruence.
  rewrite sum_squares_expand by (rewrite !matvec_length; congruence).
  rewrite dot_scale_l.
  rewrite <- (dot_matvec_adjoint (n:=n)); auto.
  2:{ rewrite zip_with_length, matvec_length, Hy. apply Nat.min_id. }
  rewrite zip_with_length, !matvec_length, Nat.min_id.
  unfold Qcdiv. ring.
Qed.

(** The gradient over the whole data set is the sum of the gradients of
    the examples. *)
Lemma batch_gradient_sum (n : nat) (k : Qc) (X : list (list Qc))
  (y w : list Qc) :
  Forall (fun r => length r = n) X ->
  length y = length X ->
  fold_right
    (fun (xy : list Qc * Qc) acc =>
       zip_with Qcplus (vscale (k * (dot (fst xy) w - snd xy)) (fst xy)) acc)
    (repeat (Q2Qc 0%Q) n) (combine X y)
  = vscale k (matvec (transpose n X) (zip_with Qcminus (matvec X w) y)).
Proof.
  intros HX. revert y. induction HX as [|r X Hr HX IH]; intros y Hy.
  - destruct y; [|discriminate Hy]. cbn [combine fold_right matvec map].
    cbn [zip_with]. rewrite matvec_transpose_nil, vscale_repeat.
    f_equal. ring.
  - destruct y as [|t y]; [discriminate Hy|].
    cbn [combine fold_right fst snd matvec map zip_with].
    fold (matvec X w). rewrite IH by (simpl in Hy; lia).
    rewrite matvec_transpose_cons by assumption.
    rewrite vscale_add, vscale_vscale. reflexivity.
Qed.

Lemma batch_gradient_eq (n : nat) (X : list (list Qc)) (y w : list Qc) :
  Forall (fun r => length r = n) X ->
  length y = length X ->
  Spec.batch_gradient n X y w = Spec.mse_gradient n X y w.
Proof.
  intros HX Hy. unfold Spec.batch_gradient, Spec.mse_gradient.
  now apply batch_gradient_sum.
Qed.

End Gradient.

(** ** [MixedLinearRegression], one call at a time *)

Section MixedLinearRegressionCalls.
Import MixedLinearRegression.

Variables (X : mat) (y w : vec) (rate : npfloat) (grad : option mat).
Hypothesis HX : wf2 X.
Hypothesis Hy : length y = shape0 X.
Hypothesis Hw : length w = shape1 X.

Let self : state := {| W := row_mat w; W_grad := grad; lr := rate |}.

Lemma mixed_predict_row :
  exists t : tensor vec,
    predict X self = Ok (inl t, self)
    /\ torch.data t = matvec (rows X) w
    /\ forall g : vec,
        torch.grad_fn t g
        = mk2 1 (shape1 X) [matvec (transpose (shape1 X) (rows X)) g].
Proof using Hw.
  unfold predict, bind, get, lift, ret, torch.matmul, torch.squeeze_last,
    torch.t, torch.transpose2.
  subst self. unfold row_mat. cbn [W torch.data shape0 shape1 rows].
  rewrite Hw, Nat.eqb_refl. cbn [torch.data shape0 shape1 rows].
  rewrite Nat.eqb_refl. eexists. split; [reflexivity|].
  cbn [torch.data torch.grad_fn shape0 shape1 rows]. split.
  - unfold mmul. rewrite <- Hw, transpose_row, transpose_column
      by apply Nat.le_refl.
    now rewrite map_map.
  - intros g. f_equal. unfold mmul. rewrite transpose_column.
    change (map (fun r : vec => map (dot r) [g])
              (transpose (shape1 X) (rows X)))
      with (map (fun r : vec => [dot r g]) (transpose (shape1 X) (rows X))).
    rewrite <- (map_map (fun r => dot r g) (fun x => [x])).
    apply transpose_column.
Qed.

Lemma mixed_loss_same_length (t : tensor vec) (s : state) :
  length (torch.data t) = length y ->
  exists l : tensor npfloat,
    loss (inl t) y s = Ok (l, s)
    /\ torch.data l = mean (power2 (zip_with sub (torch.data t) y))
    /\ forall c : npfloat,
        torch.grad_fn l c
        = torch.grad_fn t
            (let d := zip_with sub (torch.data t) y in
             zip_with mul
               (repeat (divn c (length (power2 d))) (length (power2 d)))
               (vscale (ofnat 2) d)).
Proof.
  intros E. unfold loss, bind, lift, ret, torch.sub11.
  rewrite E, Nat.eqb_refl. eexists. split; [reflexivity|].
  split; [reflexivity|]. intros c. reflexivity.
Qed.

Lemma forward_backward_row :
  exists l : tensor npfloat,
    torch.data l = loss_at X y w
    /\ forall (B : Type) (k : tensor npfloat -> M state B),
        (y_hat <- predict X ;;
         loss <- loss y_hat y ;;
         backward loss ;;;
         k loss) self
        = k l {| W := row_mat w;
                 W_grad :=
                   let g := mk2 1 (shape1 X) [autograd_gradient X y w] in
                   match grad with
                   | None => Some g
                   | Some g0 => Some (torch.add22 g0 g)
                   end;
                 lr := rate |}.
Proof using HX Hy Hw.
  destruct mixed_predict_row as (t & Ep & Ed & Eg).
  destruct (mixed_loss_same_length t self) as (l & El & Eld & Elg).
  { rewrite Ed, matvec_length. destruct HX. congruence. }
  exists l. split.
  - rewrite Eld, Ed. reflexivity.
  - intros B k. unfold bind at 1. rewrite Ep. unfold bind at 1. rewrite El.
    unfold bind, backward, get, put. rewrite Elg, Eg, Ed. reflexivity.
Qed.

Lemma autograd_gradient_length :
  length (autograd_gradient X y w) = shape1 X.
Proof using HX.
  unfold autograd_gradient. cbv zeta. rewrite matvec_length.
  apply transpose_length. apply HX.
Qed.

Lemma autograd_step_length : length (autograd_step rate X y w) = shape1 X.
Proof using HX Hw.
  unfold autograd_step. rewrite zip_with_length. unfold vscale.
  rewrite length_map, autograd_gradient_length, Hw. apply Nat.min_id.
Qed.

End MixedLinearRegressionCalls.

(** ** [MixedLinearRegression.train]: the loop *)

Section MixedLinearRegressionLoop.
Import MixedLinearRegression.

Variables (X : mat) (y : vec) (rate : npfloat).
Hypothesis HX : wf2 X.
Hypothesis Hy : length y = shape0 X.

Let step := autograd_step rate X y.

Lemma add_zero_l (x : npfloat) : add zero x = x.
Proof.
  destruct x as [q|]; [|reflexivity]. cbn. f_equal. apply Qcplus_0_l.
Qed.

Lemma zip_with_add_zeros (g : vec) :
  zip_with add (repeat zero (length g)) g = g.
Proof.
  induction g as [|x g IH]; [reflexivity|].
  cbn [length repeat zip_with]. now rewrite IH, add_zero_l.
Qed.

Lemma accumulate_clear (grad : option mat) (g : vec) :
  length g = shape1 X ->
  grad_clear (shape1 X) grad ->
  match grad with
  | None => Some (mk2 1 (shape1 X) [g])
  | Some g0 => Some (torch.add22 g0 (mk2 1 (shape1 X) [g]))
  end = Some (mk2 1 (shape1 X) [g]).
Proof.
  intros Hg [-> | ->]; [reflexivity|].
  unfold torch.add22, torch.zeros. cbn [shape0 shape1 rows repeat combine map].
  cbn [fst snd]. rewrite <- Hg, zip_with_add_zeros. reflexivity.
Qed.

Lemma mixed_iter_step_length (e : nat) (w : vec) :
  length w = shape1 X -> length (Nat.iter e step w) = shape1 X.
Proof using HX.
  intros Hw. induction e as [|e IH]; simpl; [assumption|].
  now apply autograd_step_length.
Qed.

Lemma mixed_iter_step_shift (e : nat) (w : vec) :
  Nat.iter e step (step w) = Nat.iter (S e) step w.
Proof.
  induction e as [|e IH]; simpl; [reflexivity|]. now rewrite IH.
Qed.

(** One epoch: the loss of the current weights is recorded, then the
    weights move, and [W.grad] is left at zero. *)
Lemma mixed_epoch (n : nat) (w : vec) (grad : option mat)
  (history : list npfloat) :
  length w = shape1 X ->
  grad_clear (shape1 X) grad ->
  train_loop X y (S n) history (mk (row_mat w) grad rate)
  = train_loop X y n (history ++ [loss_at X y w])
      (mk (row_mat (step w)) (Some (torch.zeros 1 (shape1 X))) rate).
Proof using HX Hy.
  intros Hw Hg. cbn [train_loop].
  destruct (@forward_backward_row X y w rate grad HX Hy Hw)
    as (l & El & Ek).
  rewrite Ek. cbv zeta. rewrite El.
  rewrite accumulate_clear;
    [|now apply autograd_gradient_length|assumption].
  unfold bind, update_weight, zero_grad, get, put.
  cbn [W W_grad lr shape0 shape1].
  f_equal. f_equal.
  unfold torch.axpy22, row_mat. cbn [shape0 shape1 rows combine map fst snd].
  subst step. fold (autograd_step rate X y w).
  now rewrite autograd_step_length, Hw.
Qed.

Lemma mixed_train_loop_row (n : nat) (w : vec) (grad : option mat)
  (history : list npfloat) :
  length w = shape1 X ->
  grad_clear (shape1 X) grad ->
  exists grad' : option mat,
    grad_clear (shape1 X) grad'
    /\ train_loop X y n history (mk (row_mat w) grad rate)
       = Ok (history
             ++ map (fun i => loss_at X y (Nat.iter i step w)) (seq 0 n),
             mk (row_mat (Nat.iter n step w)) grad' rate).
Proof using HX Hy.
  revert w grad history. induction n as [|n IH]; intros w grad history Hw Hg.
  - exists grad. split; [assumption|]. simpl. unfold ret.
    now rewrite app_nil_r.
  - rewrite mixed_epoch by assumption.
    destruct (IH (step w) (Some (torch.zeros 1 (shape1 X)))
                (history ++ [loss_at X y w])) as (grad' & Hg' & E).
    { now apply autograd_step_length. }
    { now right. }
    exists grad'. split; [assumption|]. rewrite E.
    assert (El : map (fun i => loss_at X y (Nat.iter i step (step w)))
                   (seq 0 n)
                 = map (fun i => loss_at X y (Nat.iter i step w))
                     (seq 1 n)).
    { rewrite <- seq_shift, map_map. apply map_ext. intros i.
      now rewrite mixed_iter_step_shift. }
    rewrite El, mixed_iter_step_shift, <- app_assoc. reflexivity.
Qed.

End MixedLinearRegressionLoop.

(** ** Autograd on finite data computes the gradient of [Spec] *)

Section FiniteAutograd.
Local Open Scope Qc_scope.

Variables (X : ndarray2 Qc) (y : list Qc).
Hypothesis HX : wf2 X.
Hypothesis Hm : (1 <= shape0 X)%nat.
Hypothesis Hy : length y = shape0 X.

Lemma zip_with_repeat (c : Qc) (m : nat) (v : list Qc) :
  length v = m -> zip_with Qcmult (repeat c m) v = vscale c v.
Proof.
  intros <-. induction v as [|x v IH]; [reflexivity|].
  cbn [length repeat zip_with vscale map]. now rewrite IH.
Qed.

Lemma autograd_gradient_fin (w : list Qc) :
  autograd_gradient (fin_mat X) (fin_vec y) (fin_vec w)
  = fin_vec (Spec.mse_gradient (shape1 X) (rows X) y w).
Proof using HX Hm Hy.
  unfold autograd_gradient, Spec.mse_gradient, Spec.linear_prediction,
    fin_vec.
  cbn [fin_mat map2 rows shape0 shape1]. cbv zeta.
  change (@sub npfloat _) with (lift2 Qcminus).
  change (@mul npfloat _) with (lift2 Qcmult).
  rewrite matvec_fin, zip_with_fin, power2_fin, length_map.
  set (d := zip_with Qcminus (matvec (rows X) w) y).
  assert (Hd : length d = shape0 X).
  { subst d. rewrite zip_with_length, matvec_length.
    destruct HX as [Hr _]. rewrite Hr, Hy. apply Nat.min_id. }
  unfold power2 at 1 2. rewrite length_map, Hd.
  assert (E1 : divn (one : npfloat) (shape0 X)
               = Fin (Q2Qc 1%Q / Qc_of_nat (shape0 X))).
  { cbn [divn one Num_npfloat np_divn].
    destruct (Nat.eqb_spec (shape0 X) 0) as [E|_]; [lia|reflexivity]. }
  rewrite E1, <- (repeat_map Fin).
  change (@ofnat npfloat _ 2) with (Fin (Qc_of_nat 2)).
  rewrite vscale_fin, zip_with_fin, transpose_map, matvec_fin. f_equal.
  rewrite zip_with_repeat by (unfold vscale; now rewrite length_map).
  rewrite vscale_vscale, matvec_scale_r.
  f_equal. destruct HX as [Hr _]. rewrite Hr.
  change (Qc_of_nat 2) with Spec.two. field. apply Qc_of_nat_neq0. lia.
Qed.

Lemma autograd_step_fin (lr : Qc) (w : list Qc) :
  autograd_step (Fin lr) (fin_mat X) (fin_vec y) (fin_vec w)
  = fin_vec (Spec.gd_step lr (shape1 X) (rows X) y w).
Proof using HX Hm Hy.
  unfold autograd_step, Spec.gd_step. rewrite autograd_gradient_fin.
  unfold fin_vec. rewrite vscale_fin.
  change (@sub npfloat _) with (lift2 Qcminus).
  now rewrite zip_with_fin.
Qed.

Lemma iter_autograd_step_fin (lr : Qc) (e : nat) (w : list Qc) :
  Nat.iter e (autograd_step (Fin lr) (fin_mat X) (fin_vec y)) (fin_vec w)
  = fin_vec (Nat.iter e (Spec.gd_step lr (shape1 X) (rows X) y) w).
Proof using HX Hm Hy.
  induction e as [|e IH]; [reflexivity|].
  cbn [Nat.iter nat_rect]. unfold Nat.iter in IH. rewrite IH.
  apply autograd_step_fin.
Qed.

End FiniteAutograd.

(** * The training step of [LinearRegression] *)

Section UpdateWeight.
Local Open Scope Qc_scope.
Import LinearRegression.

(** C3.  On a data set with [m >= 1] examples, [update_weight(X, y)]
    replaces the weight row [w] by [w - lr * (2/m) * X^T (X w - y)] and
    leaves [lr] alone; and [(2/m) * X^T (X w - y)] is the gradient of the
    mean squared error of the linear prediction: it is the linear part of
    the loss, [L(w + h) = L(w) + grad . h + (1/m) |X h|^2] for every
    displacement [h]. *)
Theorem update_weight_gradient_step (X : ndarray2 Qc) (y w : list Qc)
  (lr : Qc) :
  wf2 X -> (1 <= shape0 X)%nat ->
  length y = shape0 X -> length w = shape1 X ->
  update_weight (fin_mat X) (fin_vec y) (mk (row_mat (fin_vec w)) (Fin lr))
  = Ok (tt,
        mk (row_mat (fin_vec (Spec.gd_step lr (shape1 X) (rows X) y w)))
          (Fin lr))
  /\ forall h : list Qc,
      length h = shape1 X ->
      Spec.objective (rows X) y (zip_with Qcplus w h)
      = Spec.objective (rows X) y w
        + dot (Spec.mse_gradient (shape1 X) (rows X) y w) h
        + / Qc_of_nat (shape0 X) * dot (matvec (rows X) h) (matvec (rows X) h).
Proof.
  intros HX Hm Hy Hw. split.
  - rewrite update_weight_row.
    + now rewrite hand_step_fin.
    + now apply wf2_fin_mat.
    + now rewrite fin_vec_length.
    + now rewrite fin_vec_length.
  - intros h Hh. destruct HX as [Hr Hc]. rewrite <- Hr.
    apply objective_expansion; auto. congruence.
Qed.

Lemma update_weight_gradient_step_sample :
  update_weight (fin_mat sample_X) (fin_vec sample_y)
    (mk (row_mat (fin_vec sample_w)) (Fin sample_lr))
  = Ok (tt,
        mk (row_mat
              (fin_vec (Spec.gd_step sample_lr 2 (rows sample_X) sample_y
                          sample_w)))
          (Fin sample_lr)).
Proof.
  apply (@update_weight_gradient_step sample_X sample_y sample_w sample_lr).
  - split; [reflexivity|]. repeat constructor.
  - simpl. lia.
  - reflexivity.
  - reflexivity.
Defined.

End UpdateWeight.

(** * The training loop of [LinearRegression] *)

Section Train.
Import LinearRegression.

Lemma nth_error_map_seq {A} (f : nat -> A) (n i : nat) (a : A) :
  nth_error (map f (seq 0 n)) i = Some a -> i < n /\ a = f i.
Proof.
  intros E. assert (Hi : i < n).
  { assert (L : length (map f (seq 0 n)) = n)
      by (rewrite length_map; apply length_seq).
    rewrite <- L. apply nth_error_Some. congruence. }
  split; [assumption|].
  rewrite nth_error_map, nth_error_seq in E.
  apply Nat.ltb_lt in Hi. rewrite Hi in E. simpl in E. congruence.
Qed.

(** C5.  For an epoch count [e >= 0] and a well-shaped data set with at
    least one example, [train(X, y, e)] returns, and returns a loss history
    of exactly [e] entries; the state it leaves is the one [e] successive
    calls of [update_weight(X, y)] leave, and the entry of index [i] is the
    loss of the weights after exactly [i + 1] of those calls. *)
Theorem train_runs_one_update_per_epoch (X : mat) (y w : vec)
  (rate : npfloat) (e : Z) :
  (0 <= e)%Z ->
  wf2 X -> 1 <= shape0 X -> length y = shape0 X -> length w = shape1 X ->
  let self := mk (row_mat w) rate in
  exists (loss_history : list npfloat) (self' : state),
    train X y e self = Ok (loss_history, self')
    /\ Z.of_nat (length loss_history) = e
    /\ updates X y (Z.to_nat e) self = Ok (tt, self')
    /\ forall (i : nat) (l : npfloat),
        nth_error loss_history i = Some l ->
        exists self_i : state,
          (updates X y (S i) ;;; current_loss X y) self = Ok (l, self_i).
Proof.
  intros He HX Hm Hy Hw self. subst self. unfold train.
  rewrite (@train_loop_row X y rate HX Hy) by assumption.
  do 2 eexists. split; [reflexivity|]. split; [|split].
  - cbn [app]. rewrite length_map, length_seq. lia.
  - now apply updates_row.
  - intros i l E. cbn [app] in E.
    apply nth_error_map_seq in E. destruct E as [Hi ->].
    unfold bind. rewrite (@updates_row X y rate HX Hy) by assumption.
    rewrite current_loss_row; eauto.
    now apply iter_step_length.
Qed.

Lemma train_runs_one_update_per_epoch_sample :
  exists (loss_history : list npfloat) (self' : state),
    train (fin_mat sample_X) (fin_vec sample_y) 3
      (mk (row_mat (fin_vec sample_w)) (Fin sample_lr))
    = Ok (loss_history, self')
    /\ Z.of_nat (length loss_history) = 3%Z.
Proof.
  destruct (@train_runs_one_update_per_epoch (fin_mat sample_X)
              (fin_vec sample_y) (fin_vec sample_w) (Fin sample_lr) 3)
    as (h & s & E & L & _).
  - lia.
  - split; [reflexivity|]. repeat constructor.
  - simpl. lia.
  - reflexivity.
  - reflexivity.
  - exists h, s. split; assumption.
Defined.

(** C4.  [train] has no failure path of its own: for [X] of shape [(m, n)],
    [y] of length [m] and a weight matrix of shape [(1, n)], whatever [m]
    and the epoch count, it returns a loss history.  With [m = 0] the
    divisions by [m] give non-finite values, which the code does not guard
    against: every recorded loss is then non-finite. *)
Theorem train_never_raises (X : mat) (y w : vec) (rate : npfloat) (e : Z) :
  wf2 X -> length y = shape0 X -> length w = shape1 X ->
  exists (loss_history : list npfloat) (self' : state),
    train X y e (mk (row_mat w) rate) = Ok (loss_history, self')
    /\ (shape0 X = 0 -> loss_history = repeat NonFinite (Z.to_nat e)).
Proof.
  intros HX Hy Hw. unfold train.
  rewrite (@train_loop_row X y rate HX Hy) by assumption.
  do 2 eexists. split; [reflexivity|].
  intros Hm. cbn [app]. destruct HX as [Hr _].
  assert (E : forall w', loss_at X y w' = NonFinite).
  { intros w'. unfold loss_at. rewrite Hm in Hr.
    apply length_zero_iff_nil in Hr. rewrite Hr. reflexivity. }
  generalize 0 at 1. induction (Z.to_nat e) as [|n IH]; intros k.
  - reflexivity.
  - cbn [seq map repeat]. now rewrite E, IH.
Qed.

Lemma train_never_raises_empty :
  exists (loss_history : list npfloat) (self' : state),
    train empty_X [] 3 (__init__ 2 1 default_lr) = Ok (loss_history, self')
    /\ (0 = 0 -> loss_history = repeat NonFinite 3).
Proof.
  apply (@train_never_raises empty_X [] (repeat zero 2) default_lr 3).
  - split; [reflexivity|]. constructor.
  - reflexivity.
  - reflexivity.
Defined.

End Train.

(** * Batch gradient descent *)

Section Batch.
Local Open Scope Qc_scope.
Import LinearRegression.

Lemma iter_ext {A} (f g : A -> A) (P : A -> Prop) (e : nat) (a : A) :
  (forall x, P x -> f x = g x) -> (forall x, P x -> P (g x)) -> P a ->
  Nat.iter e f a = Nat.iter e g a /\ P (Nat.iter e g a).
Proof.
  intros Hfg HP Ha. induction e as [|e [IH IHP]]; simpl; [now split|].
  split; [|now apply HP]. rewrite IH. now apply Hfg.
Qed.

Lemma gd_step_length (lr : Qc) (n : nat) (X : list (list Qc))
  (y w : list Qc) :
  Forall (fun r => length r = n) X -> length w = n ->
  length (Spec.gd_step lr n X y w) = n.
Proof.
  intros HX Hw. unfold Spec.gd_step, Spec.mse_gradient, vscale.
  rewrite zip_with_length, !length_map, matvec_length, transpose_length, Hw
    by assumption.
  apply Nat.min_id.
Qed.

(** C8.  Training is batch gradient descent.  The gradient [update_weight]
    computes is the sum, over all the [m] examples of the data set, of the
    gradients [(2/m) * (x_i . w - y_i) * x_i] of the examples; and after
    [e] epochs of [train] the weights are the result of exactly [e] steps
    [w := w - lr * gradient], one per epoch and not one per example. *)
Theorem train_is_batch_gradient_descent (X : ndarray2 Qc) (y w : list Qc)
  (lr : Qc) (e : Z) :
  wf2 X -> (1 <= shape0 X)%nat ->
  length y = shape0 X -> length w = shape1 X ->
  let batch_step := fun v : list Qc =>
    zip_with Qcminus v
      (vscale lr (Spec.batch_gradient (shape1 X) (rows X) y v)) in
  (forall v : list Qc,
      length v = shape1 X ->
      W_grad (fin_mat X) (fin_vec y) (mk (row_mat (fin_vec v)) (Fin lr))
      = Ok (fin_vec (Spec.batch_gradient (shape1 X) (rows X) y v),
            mk (row_mat (fin_vec v)) (Fin lr)))
  /\ exists loss_history : list npfloat,
      train (fin_mat X) (fin_vec y) e (mk (row_mat (fin_vec w)) (Fin lr))
      = Ok (loss_history,
            mk (row_mat (fin_vec (Nat.iter (Z.to_nat e) batch_step w)))
              (Fin lr)).
Proof.
  intros HX Hm Hy Hw batch_step.
  pose proof (wf2_fin_mat HX) as HF.
  assert (HyF : length (fin_vec y) = shape0 (fin_mat X))
    by now rewrite fin_vec_length.
  assert (Hrows : Forall (fun r => length r = shape1 X) (rows X)) by apply HX.
  assert (Hlen : length y = length (rows X)) by (destruct HX; congruence).
  split.
  - intros v Hv. rewrite W_grad_row; auto.
    + now rewrite hand_gradient_fin, batch_gradient_eq.
    + now rewrite fin_vec_length.
  - unfold train. rewrite (@train_loop_row _ _ (Fin lr) HF HyF)
      by now rewrite fin_vec_length.
    eexists. cbn [app]. f_equal. f_equal. f_equal. f_equal.
    rewrite iter_hand_step_fin by assumption. f_equal.
    symmetry.
    apply (@iter_ext _ batch_step
             (Spec.gd_step lr (shape1 X) (rows X) y)
             (fun v => length v = shape1 X)); auto.
    + intros v Hv. subst batch_step. cbv beta.
      now rewrite batch_gradient_eq.
    + intros v Hv. now apply gd_step_length.
Qed.

Lemma train_is_batch_gradient_descent_sample :
  exists loss_history : list npfloat,
    train (fin_mat sample_X) (fin_vec sample_y) 2
      (mk (row_mat (fin_vec sample_w)) (Fin sample_lr))
    = Ok (loss_history,
          mk (row_mat
                (fin_vec
                   (Nat.iter 2
                      (fun v : list Qc =>
                         zip_with Qcminus v
                           (vscale sample_lr
                              (Spec.batch_gradient 2 (rows sample_X)
                                 sample_y v)))
                      sample_w)))
            (Fin sample_lr)).
Proof.
  apply (@train_is_batch_gradient_descent sample_X sample_y sample_w
           sample_lr 2).
  - split; [reflexivity|]. repeat constructor.
  - simpl. lia.
  - reflexivity.
  - reflexivity.
Defined.

End Batch.

(** * The model is linear *)

Section Linear.
Local Open Scope Qc_scope.
Import LinearRegression.

Lemma matvec_madd (n : nat) (A B : list (list Qc)) (w : list Qc) :
  Forall (fun r => length r = n) A ->
  Forall (fun r => length r = n) B ->
  matvec (Spec.madd A B) w = zip_with Qcplus (matvec A w) (matvec B w).
Proof.
  intros HA. revert B. induction HA as [|r A Hr HA IH]; intros B HB.
  - reflexivity.
  - destruct HB as [|t B Ht HB]; [reflexivity|].
    cbn [Spec.madd combine map matvec zip_with fst snd].
    fold (Spec.madd A B) (matvec A w) (matvec B w)
      (matvec (Spec.madd A B) w).
    rewrite dot_add_l by congruence. f_equal. now apply IH.
Qed.

Lemma matvec_mscale (c : Qc) (A : list (list Qc)) (w : list Qc) :
  matvec (Spec.mscale c A) w = vscale c (matvec A w).
Proof.
  unfold matvec, Spec.mscale, vscale at 2. rewrite !map_map.
  apply map_ext. intros r. apply dot_scale_l.
Qed.

Lemma matvec_zeros (m n : nat) (w : list Qc) :
  matvec (repeat (repeat (Q2Qc 0%Q) n) m) w = repeat (Q2Qc 0%Q) m.
Proof.
  unfold matvec. now rewrite repeat_map, dot_zero_l.
Qed.

Lemma predict_fin (X : ndarray2 Qc) (w : list Qc) (rate : npfloat) :
  length w = shape1 X ->
  predict (fin_mat X) (mk (row_mat (fin_vec w)) rate)
  = Ok (fin_vec (Spec.linear_prediction (rows X) w),
        mk (row_mat (fin_vec w)) rate).
Proof.
  intros Hw. rewrite predict_row by now rewrite fin_vec_length.
  cbn [fin_mat map2 rows]. unfold fin_vec. now rewrite matvec_fin.
Qed.

(** C7.  With the weight matrix [[w]] of shape [(1, n)], [predict(X)] of an
    [m]-by-[n] input is the vector [X w] of length [m], and does not touch
    the state.  For fixed weights it is additive and homogeneous in [X] and
    is [0] on the zero input: the model has no bias term. *)
Theorem predict_is_linear (w : list Qc) (rate : npfloat) (m : nat) :
  let n := length w in
  let self := mk (row_mat (fin_vec w)) rate in
  let out (X : list (list Qc)) := fin_vec (Spec.linear_prediction X w) in
  (forall X : list (list Qc),
      predict (fin_mat (mk2 m n X)) self = Ok (out X, self))
  /\ (forall X : list (list Qc), length X = m -> length (out X) = m)
  /\ (forall X1 X2 : list (list Qc),
        Forall (fun r => length r = n) X1 ->
        Forall (fun r => length r = n) X2 ->
        predict (fin_mat (mk2 m n (Spec.madd X1 X2))) self
        = Ok (fin_vec
                (zip_with Qcplus (Spec.linear_prediction X1 w)
                   (Spec.linear_prediction X2 w)),
              self))
  /\ (forall (c : Qc) (X : list (list Qc)),
        predict (fin_mat (mk2 m n (Spec.mscale c X))) self
        = Ok (fin_vec (vscale c (Spec.linear_prediction X w)), self))
  /\ predict (np.zeros m n) self = Ok (fin_vec (repeat (Q2Qc 0%Q) m), self)
  /\ (forall (X : list (list Qc)) (grad : option mat),
        let self := MixedLinearRegression.mk (row_mat (fin_vec w)) grad rate in
        exists t : MixedLinearRegression.tensor vec,
          MixedLinearRegression.predict (fin_mat (mk2 m n X)) self
          = Ok (inl t, self)
          /\ torch.data t = out X).
Proof.
  intros n self out.
  assert (P : forall X : list (list Qc),
             predict (fin_mat (mk2 m n X)) self = Ok (out X, self)).
  { intros X. subst self out. now rewrite predict_fin. }
  split; [exact P|]. split; [|split; [|split; [|split]]].
  - intros X HX. subst out. cbv beta. unfold Spec.linear_prediction.
    now rewrite fin_vec_length, matvec_length.
  - intros X1 X2 H1 H2. rewrite P. subst out. cbv beta.
    unfold Spec.linear_prediction. now rewrite (matvec_madd w H1 H2).
  - intros c X. rewrite P. subst out. cbv beta.
    unfold Spec.linear_prediction. now rewrite matvec_mscale.
  - replace (np.zeros m n)
      with (fin_mat (mk2 m n (repeat (repeat (Q2Qc 0%Q) n) m))).
    + rewrite P. subst out. cbv beta. unfold Spec.linear_prediction.
      now rewrite matvec_zeros.
    + unfold np.zeros, fin_mat, map2. cbn [shape0 shape1 rows].
      now rewrite !repeat_map.
  - intros X grad self'.
    destruct (@mixed_predict_row (fin_mat (mk2 m n X)) (fin_vec w) rate grad)
      as (t & Ep & Ed & _).
    { now rewrite fin_vec_length. }
    exists t. split; [exact Ep|]. rewrite Ed. subst out. cbv beta.
    cbn [fin_mat map2 rows]. unfold fin_vec. now rewrite matvec_fin.
Qed.

End Linear.

(** * The loss *)

Section Loss.
Local Open Scope Qc_scope.

(** C6.  For two vectors of the same length [m >= 1], [loss(y_hat, y)] of
    [LinearRegression] and of [MixedLinearRegression] both return
    [(1/m) * sum_i (y_hat_i - y_i)^2], and leave the state as it is. *)
Theorem loss_is_mean_squared_error (y_hat y : list Qc) :
  (1 <= length y_hat)%nat -> length y_hat = length y ->
  (forall self : LinearRegression.state,
      LinearRegression.loss (fin_vec y_hat) (fin_vec y) self
      = Ok (Fin (Spec.mean_squared_error y_hat y), self))
  /\ (forall (t : MixedLinearRegression.tensor vec)
        (self : MixedLinearRegression.state),
        torch.data t = fin_vec y_hat ->
        exists l : MixedLinearRegression.tensor npfloat,
          MixedLinearRegression.loss (inl t) (fin_vec y) self = Ok (l, self)
          /\ torch.data l = Fin (Spec.mean_squared_error y_hat y)).
Proof.
  intros Hm E.
  assert (Hne : y_hat <> []) by (destruct y_hat; [simpl in Hm; lia|congruence]).
  split.
  - intros self. rewrite loss_same_length by now rewrite !fin_vec_length.
    now rewrite loss_fin.
  - intros t self Ht.
    destruct (@mixed_loss_same_length (fin_vec y) t self) as (l & El & Ed & _).
    { now rewrite Ht, !fin_vec_length. }
    exists l. split; [assumption|].
    rewrite Ed, Ht. now apply loss_fin.
Qed.

Lemma loss_is_mean_squared_error_sample :
  LinearRegression.loss (fin_vec sample_w) (fin_vec sample_y)
    (LinearRegression.__init__ 2 1 LinearRegression.default_lr)
  = Ok (Fin (Spec.mean_squared_error sample_w sample_y),
        LinearRegression.__init__ 2 1 LinearRegression.default_lr).
Proof.
  apply (@loss_is_mean_squared_error sample_w sample_y).
  - simpl. lia.
  - reflexivity.
Defined.

End Loss.

(** * What each method leaves untouched *)

Section Frame.

Lemma keeps_bind {S A B C} (f : S -> C) (c : M S A) (k : A -> M S B) :
  keeps f c -> (forall a, keeps f (k a)) -> keeps f (bind c k).
Proof.
  intros Hc Hk s. unfold bind. specialize (Hc s).
  destruct (c s) as [[a s1]|]; [|exact I].
  specialize (Hk a s1). destruct (k a s1) as [[b s2]|]; [|exact I].
  congruence.
Qed.

Lemma keeps_ret {S A C} (f : S -> C) (a : A) : keeps f (ret a).
Proof. intros s. reflexivity. Qed.

Lemma keeps_lift {S A C} (f : S -> C) (r : result A) : keeps f (lift r).
Proof. intros s. unfold lift. now destruct r. Qed.

Lemma keeps_all {S A C} (f : S -> C) (c : M S A) :
  keeps (fun s => s) c -> keeps f c.
Proof.
  intros H s. specialize (H s). destruct (c s) as [[a s1]|]; [|exact I].
  now subst.
Qed.

Lemma linear_predict_frame (X : mat) :
  keeps (fun s => s) (LinearRegression.predict X).
Proof.
  intros s. unfold LinearRegression.predict, bind, get, lift.
  destruct (np.dot22 _ _); [|exact I]. now destruct (np.squeeze_last _).
Qed.

Lemma linear_loss_frame (y_hat y : vec) :
  keeps (fun s => s) (LinearRegression.loss y_hat y).
Proof.
  intros s. unfold LinearRegression.loss, bind, lift, ret.
  now destruct (np.sub11 _ _).
Qed.

Lemma linear_W_grad_frame (X : mat) (y : vec) :
  keeps (fun s => s) (LinearRegression.W_grad X y).
Proof.
  unfold LinearRegression.W_grad.
  apply keeps_bind; [apply linear_predict_frame|]. intros y_hat.
  apply keeps_bind; [apply keeps_lift|]. intros d.
  apply keeps_bind; [apply keeps_lift|]. intros g. apply keeps_ret.
Qed.

Lemma linear_update_weight_frame (X : mat) (y : vec) :
  keeps LinearRegression.lr (LinearRegression.update_weight X y).
Proof.
  intros s. unfold LinearRegression.update_weight, bind at 1.
  pose proof (linear_W_grad_frame X y s) as H.
  destruct (LinearRegression.W_grad X y s) as [[g s1]|]; [|exact I].
  subst s1. unfold bind, get, lift, put.
  now destruct (np.sub21 _ _).
Qed.

Lemma linear_train_frame (X : mat) (y : vec) (e : Z) :
  keeps LinearRegression.lr (LinearRegression.train X y e).
Proof.
  unfold LinearRegression.train. generalize (@nil npfloat).
  induction (Z.to_nat e) as [|n IH]; intros history.
  - apply keeps_ret.
  - cbn [LinearRegression.train_loop].
    apply keeps_bind; [apply linear_update_weight_frame|]. intros _.
    apply keeps_bind; [apply keeps_all, linear_predict_frame|]. intros y_hat.
    apply keeps_bind; [apply keeps_all, linear_loss_frame|]. intros l.
    apply IH.
Qed.

Lemma mixed_predict_frame (X : mat) :
  keeps (fun s => s) (MixedLinearRegression.predict X).
Proof.
  intros s. unfold MixedLinearRegression.predict, bind, get, lift, ret.
  now destruct (torch.matmul _ _).
Qed.

Lemma mixed_loss_frame (y_hat : MixedLinearRegression.tensor vec
                                + MixedLinearRegression.tensor mat)
  (y : vec) :
  keeps (fun s => s) (MixedLinearRegression.loss y_hat y).
Proof.
  intros s. unfold MixedLinearRegression.loss, bind, lift, ret.
  destruct y_hat as [t|t].
  - now destruct (torch.sub11 _ _).
  - now destruct (torch.sub21 _ _).
Qed.

Lemma mixed_update_weight_frame :
  keeps MixedLinearRegression.lr MixedLinearRegression.update_weight
  /\ keeps MixedLinearRegression.W_grad MixedLinearRegression.update_weight.
Proof.
  split; intros s;
    unfold MixedLinearRegression.update_weight, bind, get, put, lift;
    now destruct (MixedLinearRegression.W_grad s).
Qed.

Lemma mixed_backward_frame (l : MixedLinearRegression.tensor npfloat) :
  keeps MixedLinearRegression.W (MixedLinearRegression.backward l)
  /\ keeps MixedLinearRegression.lr (MixedLinearRegression.backward l).
Proof. split; intros s; reflexivity. Qed.

Lemma mixed_zero_grad_frame :
  keeps MixedLinearRegression.W MixedLinearRegression.zero_grad
  /\ keeps MixedLinearRegression.lr MixedLinearRegression.zero_grad.
Proof.
  split; intros s;
    unfold MixedLinearRegression.zero_grad, bind, get, put, lift;
    now destruct (MixedLinearRegression.W_grad s).
Qed.

Lemma mixed_train_frame (X : mat) (y : vec) (e : Z) :
  keeps MixedLinearRegression.lr (MixedLinearRegression.train X y e).
Proof.
  unfold MixedLinearRegression.train. generalize (@nil npfloat).
  induction (Z.to_nat e) as [|n IH]; intros history.
  - apply keeps_ret.
  - cbn [MixedLinearRegression.train_loop].
    apply keeps_bind; [apply keeps_all, mixed_predict_frame|]. intros y_hat.
    apply keeps_bind; [apply keeps_all, mixed_loss_frame|]. intros l.
    apply keeps_bind; [apply mixed_backward_frame|]. intros _. cbv zeta.
    apply keeps_bind; [apply mixed_update_weight_frame|]. intros _.
    apply keeps_bind; [apply mixed_zero_grad_frame|]. intros _.
    apply IH.
Qed.

(** C9.  [predict] and [loss], of [LinearRegression] and of
    [MixedLinearRegression], return in the state they were called in: [W]
    and [lr] are unchanged.  [update_weight] and a whole run of [train]
    leave [lr] as it was.  In [MixedLinearRegression] the other calls of an
    epoch, [backward] and the reset of [W.grad], leave [W] and [lr] as they
    were: only [update_weight] changes [W]. *)
Theorem predict_loss_read_only_lr_immutable :
  (forall X, keeps (fun s => s) (LinearRegression.predict X))
  /\ (forall y_hat y, keeps (fun s => s) (LinearRegression.loss y_hat y))
  /\ (forall X, keeps (fun s => s) (MixedLinearRegression.predict X))
  /\ (forall y_hat y,
        keeps (fun s => s) (MixedLinearRegression.loss y_hat y))
  /\ (forall X y,
        keeps LinearRegression.lr (LinearRegression.update_weight X y))
  /\ (forall X y e, keeps LinearRegression.lr (LinearRegression.train X y e))
  /\ keeps MixedLinearRegression.lr MixedLinearRegression.update_weight
  /\ (forall l,
        keeps MixedLinearRegression.W (MixedLinearRegression.backward l)
        /\ keeps MixedLinearRegression.lr (MixedLinearRegression.backward l))
  /\ keeps MixedLinearRegression.W MixedLinearRegression.zero_grad
  /\ keeps MixedLinearRegression.lr MixedLinearRegression.zero_grad
  /\ (forall X y e,
        keeps MixedLinearRegression.lr (MixedLinearRegression.train X y e)).
Proof.
  repeat match goal with |- _ /\ _ => split end.
  - exact linear_predict_frame.
  - exact linear_loss_frame.
  - exact mixed_predict_frame.
  - exact mixed_loss_frame.
  - exact linear_update_weight_frame.
  - exact linear_train_frame.
  - exact (proj1 mixed_update_weight_frame).
  - exact mixed_backward_frame.
  - exact (proj1 mixed_zero_grad_frame).
  - exact (proj2 mixed_zero_grad_frame).
  - exact mixed_train_frame.
Qed.

End Frame.

(** * Initial weights *)

Section Init.
Local Open Scope Qc_scope.

Lemma linear_init_row (n : nat) (rate : npfloat) :
  LinearRegression.__init__ n 1 rate
  = LinearRegression.mk (row_mat (fin_vec (repeat (Q2Qc 0%Q) n))) rate.
Proof.
  unfold LinearRegression.__init__, np.zeros, row_mat, fin_vec.
  rewrite length_map, repeat_length, repeat_map. reflexivity.
Qed.

Lemma mixed_init_row (n : nat) (rate : npfloat) :
  MixedLinearRegression.__init__ n 1 rate
  = MixedLinearRegression.mk (row_mat (fin_vec (repeat (Q2Qc 0%Q) n))) None
      rate.
Proof.
  unfold MixedLinearRegression.__init__, torch.zeros, row_mat, fin_vec.
  rewrite length_map, repeat_length, repeat_map. reflexivity.
Qed.

Lemma matvec_zero_weights (X : list (list Qc)) (n : nat) :
  matvec X (repeat (Q2Qc 0%Q) n) = repeat (Q2Qc 0%Q) (length X).
Proof.
  induction X as [|r X IH]; [reflexivity|].
  cbn [matvec map length repeat]. fold (matvec X (repeat (Q2Qc 0%Q) n)).
  rewrite IH. f_equal. clear. revert n.
  induction r as [|a r IHr]; intros [|n]; try reflexivity.
  cbn [repeat]. rewrite dot_cons, IHr. ring.
Qed.

Lemma power2_zero_sub (y : list Qc) :
  power2 (zip_with Qcminus (repeat (Q2Qc 0%Q) (length y)) y) = power2 y.
Proof.
  induction y as [|a y IH]; [reflexivity|].
  cbn [length repeat zip_with power2 map]. unfold power2 in IH.
  rewrite IH. f_equal. cbn. ring.
Qed.

Lemma loss_at_zero_weights (X : ndarray2 Qc) (y : list Qc) (n : nat) :
  wf2 X -> length y = shape0 X ->
  loss_at (fin_mat X) (fin_vec y) (fin_vec (repeat (Q2Qc 0%Q) n))
  = mean (power2 (fin_vec y)).
Proof.
  intros [Hr _] Hy. unfold loss_at, fin_vec. cbn [fin_mat map2 rows].
  change (@sub npfloat _) with (lift2 Qcminus).
  rewrite matvec_fin, zip_with_fin, !power2_fin, matvec_zero_weights.
  now rewrite Hr, <- Hy, power2_zero_sub.
Qed.

(** C10.  The constructors of both classes set [W] to the zero matrix of
    shape [(n_targets, n_features)]: nothing is drawn at random.  So the
    prediction from the weights the first epoch starts with is exactly [0]
    for every example, in both classes; the first gradient of
    [LinearRegression] is computed from that zero prediction; and the first
    loss value that [MixedLinearRegression.train] records is the mean of
    the squares of the labels. *)
Theorem weights_start_at_zero (X : ndarray2 Qc) (y : list Qc)
  (rate : npfloat) (e : Z) :
  wf2 X -> length y = shape0 X -> (1 <= e)%Z ->
  let m := shape0 X in
  let n := shape1 X in
  let zeros := fin_vec (repeat (Q2Qc 0%Q) m) in
  (forall (n_features n_targets : nat) (lr : npfloat),
      LinearRegression.W (LinearRegression.__init__ n_features n_targets lr)
      = mk2 n_targets n_features
          (repeat (repeat (Fin (Q2Qc 0%Q)) n_features) n_targets)
      /\ MixedLinearRegression.W
           (MixedLinearRegression.__init__ n_features n_targets lr)
         = mk2 n_targets n_features
             (repeat (repeat (Fin (Q2Qc 0%Q)) n_features) n_targets))
  /\ LinearRegression.predict (fin_mat X) (LinearRegression.__init__ n 1 rate)
     = Ok (zeros, LinearRegression.__init__ n 1 rate)
  /\ LinearRegression.W_grad (fin_mat X) (fin_vec y)
       (LinearRegression.__init__ n 1 rate)
     = Ok (vdivn
             (vscale (ofnat 2)
                (matvec (transpose n (rows (fin_mat X)))
                   (zip_with sub zeros (fin_vec y))))
             m,
           LinearRegression.__init__ n 1 rate)
  /\ (exists t : MixedLinearRegression.tensor vec,
        MixedLinearRegression.predict (fin_mat X)
          (MixedLinearRegression.__init__ n 1 rate)
        = Ok (inl t, MixedLinearRegression.__init__ n 1 rate)
        /\ torch.data t = zeros)
  /\ exists (loss_history : list npfloat)
       (self' : MixedLinearRegression.state),
      MixedLinearRegression.train (fin_mat X) (fin_vec y) e
        (MixedLinearRegression.__init__ n 1 rate)
      = Ok (loss_history, self')
      /\ hd_error loss_history = Some (mean (power2 (fin_vec y)))
      /\ ((1 <= m)%nat ->
          hd_error loss_history
          = Some (Fin (/ Qc_of_nat m * vsum (map (fun v => v * v) y)))).
Proof.
  intros HX Hy He m n zeros.
  pose proof (wf2_fin_mat HX) as HF.
  assert (Hn : length (fin_vec (repeat (Q2Qc 0%Q) n)) = shape1 (fin_mat X))
    by (rewrite fin_vec_length; apply repeat_length).
  assert (Hp : matvec (rows (fin_mat X)) (fin_vec (repeat (Q2Qc 0%Q) n))
               = zeros).
  { cbn [fin_mat map2 rows]. unfold fin_vec. rewrite matvec_fin.
    rewrite matvec_zero_weights. destruct HX as [Hr _]. now rewrite Hr. }
  assert (HyF : length (fin_vec y) = shape0 (fin_mat X))
    by now rewrite fin_vec_length.
  split; [|split; [|split; [|split]]].
  - intros n_features n_targets lr. split; reflexivity.
  - rewrite linear_init_row, predict_row by assumption. now rewrite Hp.
  - rewrite linear_init_row, W_grad_row by assumption.
    unfold hand_gradient. now rewrite Hp.
  - rewrite mixed_init_row.
    destruct (@mixed_predict_row (fin_mat X)
                (fin_vec (repeat (Q2Qc 0%Q) n)) rate None Hn)
      as (t & Ep & Ed & _).
    exists t. split; [assumption|]. now rewrite Ed.
  - rewrite mixed_init_row. unfold MixedLinearRegression.train.
    destruct (Z.to_nat e) as [|k] eqn:Ek; [lia|].
    destruct (@mixed_train_loop_row (fin_mat X) (fin_vec y) rate HF HyF
                (S k) (fin_vec (repeat (Q2Qc 0%Q) n)) None [])
      as (g & _ & E); [assumption|now left|].
    rewrite E. do 2 eexists. split; [reflexivity|].
    cbn [app seq map hd_error Nat.iter nat_rect].
    rewrite loss_at_zero_weights by assumption. split; [reflexivity|].
    intros Hm. f_equal. unfold fin_vec. rewrite power2_fin, mean_fin.
    + f_equal. unfold mean, power2. rewrite length_map, Hy.
      cbn [divn Num_Qc]. unfold Qcdiv. fold m. cbn [mul Num_Qc]. ring.
    + unfold power2. destruct y; [simpl in Hy; lia|discriminate].
Qed.

Lemma weights_start_at_zero_sample :
  LinearRegression.predict (fin_mat sample_X)
    (LinearRegression.__init__ 2 1 (Fin sample_lr))
  = Ok (fin_vec (repeat (Q2Qc 0%Q) 2),
        LinearRegression.__init__ 2 1 (Fin sample_lr)).
Proof.
  apply (@weights_start_at_zero sample_X sample_y (Fin sample_lr) 1).
  - split; [reflexivity|]. repeat constructor.
  - reflexivity.
  - lia.
Defined.

End Init.

(** * The hand-written gradient and the one from autograd *)

Section SameWeights.
Local Open Scope Qc_scope.

(** C1.  On a data set [X] with [m >= 1] rows and labels [y] of length [m],
    for every learning rate and epoch count, in exact arithmetic:
    the gradient [2 * X^T (y_hat - y) / m] that
    [LinearRegression.update_weight] computes by hand is the gradient that
    autograd leaves in [W.grad] for [MixedLinearRegression.update_weight],
    at every weight row [w]; and the two classes, both started by their
    constructor from the zero matrix, hold the same weight matrix after
    [e] epochs of [train], for every [e]. *)
Theorem hand_gradient_is_autograd_gradient (X : ndarray2 Qc) (y : list Qc)
  (lr : Qc) :
  wf2 X -> (1 <= shape0 X)%nat -> length y = shape0 X ->
  let n := shape1 X in
  (forall w : list Qc,
      length w = n ->
      let g := fin_vec (Spec.mse_gradient n (rows X) y w) in
      LinearRegression.W_grad (fin_mat X) (fin_vec y)
        (LinearRegression.mk (row_mat (fin_vec w)) (Fin lr))
      = Ok (g, LinearRegression.mk (row_mat (fin_vec w)) (Fin lr))
      /\ autograd_W_grad (fin_mat X) (fin_vec y)
           (MixedLinearRegression.mk (row_mat (fin_vec w)) None (Fin lr))
         = Ok (Some (mk2 1 n [g]),
               MixedLinearRegression.mk (row_mat (fin_vec w))
                 (Some (mk2 1 n [g])) (Fin lr)))
  /\ forall e : Z,
      exists (h1 h2 : list npfloat) (s1 : LinearRegression.state)
        (s2 : MixedLinearRegression.state),
        LinearRegression.train (fin_mat X) (fin_vec y) e
          (LinearRegression.__init__ n 1 (Fin lr)) = Ok (h1, s1)
        /\ MixedLinearRegression.train (fin_mat X) (fin_vec y) e
             (MixedLinearRegression.__init__ n 1 (Fin lr)) = Ok (h2, s2)
        /\ LinearRegression.W s1 = MixedLinearRegression.W s2.
Proof.
  intros HX Hm Hy n.
  pose proof (wf2_fin_mat HX) as HF.
  assert (HyF : length (fin_vec y) = shape0 (fin_mat X))
    by now rewrite fin_vec_length.
  split.
  - intros w Hw g.
    assert (HwF : length (fin_vec w) = shape1 (fin_mat X))
      by now rewrite fin_vec_length.
    split.
    + rewrite W_grad_row by assumption. now rewrite hand_gradient_fin.
    + destruct (@forward_backward_row (fin_mat X) (fin_vec y) (fin_vec w)
                  (Fin lr) None HF HyF HwF) as (l & _ & Ek).
      unfold autograd_W_grad. rewrite Ek. cbv zeta.
      rewrite autograd_gradient_fin by assumption. reflexivity.
  - intros e.
    assert (Hz : length (fin_vec (repeat (Q2Qc 0%Q) n)) = shape1 (fin_mat X))
      by (rewrite fin_vec_length; apply repeat_length).
    unfold LinearRegression.train, MixedLinearRegression.train.
    rewrite linear_init_row, mixed_init_row.
    rewrite (@train_loop_row _ _ (Fin lr) HF HyF) by assumption.
    destruct (@mixed_train_loop_row (fin_mat X) (fin_vec y) (Fin lr) HF HyF
                (Z.to_nat e) (fin_vec (repeat (Q2Qc 0%Q) n)) None [])
      as (g & _ & E); [assumption|now left|].
    rewrite E. do 4 eexists. split; [reflexivity|]. split; [reflexivity|].
    cbn [LinearRegression.W MixedLinearRegression.W].
    rewrite iter_hand_step_fin, iter_autograd_step_fin by assumption.
    reflexivity.
Qed.

Lemma hand_gradient_is_autograd_gradient_sample :
  exists (h1 h2 : list npfloat) (s1 : LinearRegression.state)
    (s2 : MixedLinearRegression.state),
    LinearRegression.train (fin_mat sample_X) (fin_vec sample_y) 3
      (LinearRegression.__init__ 2 1 (Fin sample_lr)) = Ok (h1, s1)
    /\ MixedLinearRegression.train (fin_mat sample_X) (fin_vec sample_y) 3
         (MixedLinearRegression.__init__ 2 1 (Fin sample_lr)) = Ok (h2, s2)
    /\ LinearRegression.W s1 = MixedLinearRegression.W s2.
Proof.
  apply (@hand_gradient_is_autograd_gradient sample_X sample_y sample_lr).
  - split; [reflexivity|]. repeat constructor.
  - simpl. lia.
  - reflexivity.
Defined.

End SameWeights.

(** * The function [train] of the full PyTorch solution *)

Section FullPyTorchLoop.
Import FullPyTorch.

Variables (X : mat) (y : vec) (rate : npfloat).
Hypothesis HX : wf2 X.
Hypothesis Hy : length y = shape0 X.

Let step := sgd_step rate X y.

Lemma sgd_step_length (p : vec * npfloat) :
  length (fst p) = shape1 X -> length (fst (step p)) = shape1 X.
Proof using HX.
  intros Hp. subst step. unfold sgd_step. cbv zeta. cbn [fst].
  rewrite zip_with_length. unfold vscale at 1.
  rewrite length_map, matvec_length, transpose_length, Hp by apply HX.
  apply Nat.min_id.
Qed.

Lemma sgd_iter_length (e : nat) (p : vec * npfloat) :
  length (fst p) = shape1 X -> length (fst (Nat.iter e step p)) = shape1 X.
Proof using HX.
  intros Hp. induction e as [|e IH]; simpl; [assumption|].
  now apply sgd_step_length.
Qed.

Lemma sgd_iter_shift (e : nat) (p : vec * npfloat) :
  Nat.iter e step (step p) = Nat.iter (S e) step p.
Proof.
  induction e as [|e IH]; simpl; [reflexivity|]. now rewrite IH.
Qed.

Lemma full_epoch (n : nat) (w : vec) (b : npfloat) (gw : option vec)
  (gb : option npfloat) (mode : bool) (history : list npfloat) :
  length w = shape1 X ->
  exists (gw' : option vec) (gb' : option npfloat),
    train_loop X y (S n) history (mk w b gw gb mode rate)
    = train_loop X y n (history ++ [affine_loss X y w b])
        (mk (fst (step (w, b))) (snd (step (w, b))) gw' gb' mode rate).
Proof using HX Hy.
  intros Hw. cbn [train_loop].
  unfold zero_grad, forward, loss_fn, backward, FullPyTorch.step, torch.sub11.
  unfold bind, get, put, lift, ret.
  cbn [weight bias weight_grad bias_grad training lr torch.data].
  rewrite Hw, Nat.eqb_refl. cbn [torch.data].
  destruct HX as [Hr Hc]. rewrite length_map, Hr, Hy, Nat.eqb_refl.
  cbn [torch.data torch.grad_fn torch.mean1 torch.pow1 weight bias
         weight_grad bias_grad training lr fst snd].
  do 2 eexists. reflexivity.
Qed.

Lemma full_train_loop (n : nat) (w : vec) (b : npfloat) (gw : option vec)
  (gb : option npfloat) (mode : bool) (history : list npfloat) :
  length w = shape1 X ->
  exists (gw' : option vec) (gb' : option npfloat),
    train_loop X y n history (mk w b gw gb mode rate)
    = Ok (history
          ++ map (fun i =>
                    affine_loss X y (fst (Nat.iter i step (w, b)))
                      (snd (Nat.iter i step (w, b))))
              (seq 0 n),
          mk (fst (Nat.iter n step (w, b))) (snd (Nat.iter n step (w, b)))
            gw' gb' mode rate).
Proof using HX Hy.
  revert w b gw gb history. induction n as [|n IH]; intros w b gw gb history Hw.
  - exists gw, gb. simpl. unfold ret. now rewrite app_nil_r.
  - destruct (@full_epoch n w b gw gb mode history Hw) as (gw1 & gb1 & E).
    rewrite E.
    destruct (IH (fst (step (w, b))) (snd (step (w, b))) gw1 gb1
                (history ++ [affine_loss X y w b]))
      as (gw' & gb' & E').
    { now apply (@sgd_step_length (w, b)). }
    exists gw', gb'. rewrite E'. rewrite <- surjective_pairing.
    assert (El : map (fun i =>
                        affine_loss X y (fst (Nat.iter i step (step (w, b))))
                          (snd (Nat.iter i step (step (w, b)))))
                   (seq 0 n)
                 = map (fun i =>
                          affine_loss X y (fst (Nat.iter i step (w, b)))
                            (snd (Nat.iter i step (w, b))))
                     (seq 1 n)).
    { rewrite <- seq_shift, map_map. apply map_ext. intros i.
      now rewrite sgd_iter_shift. }
    rewrite El, sgd_iter_shift, <- app_assoc. reflexivity.
Qed.

End FullPyTorchLoop.

(** * The three loss histories *)

Section Histories.
Local Open Scope Qc_scope.

(** C2 as stated fails.  On the data set of one example [x = 1], [y = 1],
    with [lr = 0.01]: after one epoch [LinearRegression.train] has recorded
    the loss of the updated weight, [(0.02 - 1)^2 = 2401/2500], and
    [MixedLinearRegression.train] the loss of the initial weight, [1].
    After two epochs the function [train], even with its layer started at
    weight [0] and bias [0], has recorded [1] and [576/625], while
    [MixedLinearRegression.train] has recorded [1] and [2401/2500]: the
    layer has a bias, which the first step moved. *)
Lemma loss_histories_differ :
  (exists (h1 h2 : list npfloat) (s1 : LinearRegression.state)
     (s2 : MixedLinearRegression.state),
      LinearRegression.train tiny_X tiny_y 1
        (LinearRegression.__init__ 1 1 LinearRegression.default_lr)
      = Ok (h1, s1)
      /\ MixedLinearRegression.train tiny_X tiny_y 1
           (MixedLinearRegression.__init__ 1 1
              MixedLinearRegression.default_lr)
         = Ok (h2, s2)
      /\ map value_of h1 = [Some (2401 # 2500)%Q]
      /\ map value_of h2 = [Some (1 # 1)%Q]
      /\ h1 <> h2)
  /\ (exists (h2 h3 : list npfloat) (s2 : MixedLinearRegression.state)
        (s3 : FullPyTorch.state),
         MixedLinearRegression.train tiny_X tiny_y 2
           (MixedLinearRegression.__init__ 1 1
              MixedLinearRegression.default_lr)
         = Ok (h2, s2)
         /\ FullPyTorch.train tiny_X tiny_y 2
              (FullPyTorch.__init__ [zero] zero
                 MixedLinearRegression.default_lr)
            = Ok (h3, s3)
         /\ map value_of h2 = [Some (1 # 1)%Q; Some (2401 # 2500)%Q]
         /\ map value_of h3 = [Some (1 # 1)%Q; Some (576 # 625)%Q]
         /\ h2 <> h3).
Proof.
  split.
  - do 4 eexists. split; [vm_compute; reflexivity|].
    split; [vm_compute; reflexivity|].
    split; [vm_compute; reflexivity|].
    split; [vm_compute; reflexivity|].
    intros E. apply (f_equal (map value_of)) in E. vm_compute in E.
    discriminate E.
  - do 4 eexists. split; [vm_compute; reflexivity|].
    split; [vm_compute; reflexivity|].
    split; [vm_compute; reflexivity|].
    split; [vm_compute; reflexivity|].
    intros E. apply (f_equal (map value_of)) in E. vm_compute in E.
    discriminate E.
Qed.

Lemma affine_zero_dot (r : list Qc) (n : nat) :
  dot r (repeat (Q2Qc 0%Q) n) = Q2Qc 0%Q.
Proof.
  revert n. induction r as [|a r IH]; intros [|n]; try reflexivity.
  cbn [repeat]. rewrite dot_cons, IH. ring.
Qed.

End Histories.

(** * More on [LinearRegression.train] *)

Section TrainAgain.
Import LinearRegression.

Variables (X : mat) (y : vec).

(** The history a loop is started with is only ever extended. *)
Lemma train_loop_history (n : nat) (history : list npfloat) (s : state) :
  train_loop X y n history s
  = match train_loop X y n [] s with
    | Ok (h, s') => Ok (history ++ h, s')
    | Raise e => Raise e
    end.
Proof.
  revert history s. induction n as [|n IH]; intros history s.
  - simpl. unfold ret. now rewrite app_nil_r.
  - cbn [train_loop]. unfold bind.
    destruct (update_weight X y s) as [[[] s1]|]; [|reflexivity].
    destruct (predict X s1) as [[y_hat s2]|]; [|reflexivity].
    destruct (loss y_hat y s2) as [[l s3]|]; [|reflexivity].
    rewrite (IH (history ++ [l])), (IH ([] ++ [l])).
    destruct (train_loop X y n [] s3) as [[h s4]|]; [|reflexivity].
    now rewrite <- app_assoc.
Qed.

Lemma train_loop_add (a b : nat) (history : list npfloat) (s : state) :
  train_loop X y (a + b) history s
  = match train_loop X y a history s with
    | Ok (h, s') => train_loop X y b h s'
    | Raise e => Raise e
    end.
Proof.
  revert history s. induction a as [|a IH]; intros history s.
  - reflexivity.
  - cbn [Nat.add train_loop]. unfold bind.
    destruct (update_weight X y s) as [[[] s1]|]; [|reflexivity].
    destruct (predict X s1) as [[y_hat s2]|]; [|reflexivity].
    destruct (loss y_hat y s2) as [[l s3]|]; [|reflexivity].
    apply IH.
Qed.

(** X1.  Training can be resumed: [train(X, y, e1)] followed by
    [train(X, y, e2)] on the same object does what [train(X, y, e1 + e2)]
    does, and the two histories put end to end are its history; an
    exception of either call is the exception of the long run. *)
Theorem train_resumes (e1 e2 : Z) (s : state) :
  (0 <= e1)%Z -> (0 <= e2)%Z ->
  (h1 <- train X y e1 ;; h2 <- train X y e2 ;; ret (h1 ++ h2)) s
  = train X y (e1 + e2) s.
Proof.
  intros H1 H2. unfold train, bind, ret.
  replace (Z.to_nat (e1 + e2)) with (Z.to_nat e1 + Z.to_nat e2) by lia.
  rewrite train_loop_add.
  destruct (train_loop X y (Z.to_nat e1) [] s) as [[h1 s1]|]; [|reflexivity].
  rewrite (train_loop_history (Z.to_nat e2) h1).
  now destruct (train_loop X y (Z.to_nat e2) [] s1) as [[h2 s2]|].
Qed.

End TrainAgain.

Lemma train_resumes_sample :
  (h1 <- LinearRegression.train (fin_mat sample_X) (fin_vec sample_y) 1 ;;
   h2 <- LinearRegression.train (fin_mat sample_X) (fin_vec sample_y) 2 ;;
   ret (h1 ++ h2))
    (LinearRegression.__init__ 2 1 (Fin sample_lr))
  = LinearRegression.train (fin_mat sample_X) (fin_vec sample_y) (1 + 2)
      (LinearRegression.__init__ 2 1 (Fin sample_lr)).
Proof.
  apply (@train_resumes (fin_mat sample_X) (fin_vec sample_y) 1 2).
  - lia.
  - lia.
Defined.

(** * Shapes that fit, shapes that do not *)

Section Broadcast.
Import LinearRegression.

Lemma zip_with_sub_repeat (u : vec) (c : npfloat) :
  zip_with sub u (repeat c (length u)) = map (fun a => sub a c) u.
Proof.
  induction u as [|a u IH]; [reflexivity|].
  cbn [length repeat zip_with map]. now rewrite IH.
Qed.

Lemma sub11_one_label (u : vec) (c : npfloat) :
  np.sub11 u [c] = np.sub11 u (repeat c (length u)).
Proof.
  unfold np.sub11. rewrite repeat_length, Nat.eqb_refl.
  cbn [length hd]. destruct (Nat.eqb_spec (length u) 1) as [E|E].
  - now rewrite E.
  - cbn [Nat.eqb]. now rewrite zip_with_sub_repeat, Nat.eqb_refl.
Qed.

Lemma predict_length (X : mat) (s s' : state) (y_hat : vec) :
  predict X s = Ok (y_hat, s') -> length y_hat = length (rows X).
Proof.
  unfold predict, bind, get, lift, np.dot22, np.squeeze_last.
  destruct (Nat.eqb _ _); [|discriminate]. cbn [shape1 rows].
  destruct (Nat.eqb _ _); [|discriminate].
  intros E. injection E as <- _. unfold mmul. now rewrite !length_map.
Qed.

Variable X : mat.
Hypothesis HX : wf2 X.

Lemma W_grad_one_label (c : npfloat) (s : state) :
  W_grad X [c] s = W_grad X (repeat c (shape0 X)) s.
Proof using HX.
  unfold W_grad, bind.
  destruct (predict X s) as [[y_hat s1]|] eqn:E; [|reflexivity].
  apply predict_length in E. destruct HX as [Hr _].
  now rewrite <- Hr, <- E, sub11_one_label.
Qed.

Lemma update_weight_one_label (c : npfloat) (s : state) :
  update_weight X [c] s = update_weight X (repeat c (shape0 X)) s.
Proof using HX.
  unfold update_weight, bind. now rewrite W_grad_one_label.
Qed.

Lemma loss_one_label (c : npfloat) (y_hat : vec) (s : state) :
  length y_hat = shape0 X ->
  loss y_hat [c] s = loss y_hat (repeat c (shape0 X)) s.
Proof.
  intros E. unfold loss, bind. now rewrite <- E, sub11_one_label.
Qed.

Lemma train_loop_one_label (c : npfloat) (n : nat) (history : list npfloat)
  (s : state) :
  train_loop X [c] n history s
  = train_loop X (repeat c (shape0 X)) n history s.
Proof using HX.
  revert history s. induction n as [|n IH]; intros history s; [reflexivity|].
  cbn [train_loop]. unfold bind. rewrite update_weight_one_label.
  destruct (update_weight X (repeat c (shape0 X)) s) as [[[] s1]|];
    [|reflexivity].
  destruct (predict X s1) as [[y_hat s2]|] eqn:E; [|reflexivity].
  apply predict_length in E. destruct HX as [Hr _].
  rewrite loss_one_label by congruence.
  destruct (loss y_hat (repeat c (shape0 X)) s2) as [[l s3]|]; [|reflexivity].
  apply IH.
Qed.

(** X2.  A label vector with a single entry is not rejected: numpy
    broadcasts it, and [train(X, [c], e)] does exactly what
    [train(X, [c, ..., c], e)] does with the label repeated once per
    example, whatever the state and the epoch count. *)
Theorem single_label_is_broadcast (c : npfloat) (e : Z) (s : state) :
  train X [c] e s = train X (repeat c (shape0 X)) e s.
Proof using HX.
  apply train_loop_one_label.
Qed.

(** X3.  When [train] raises.  With a weight matrix of shape [(1, n)] and
    at least one epoch, [train(X, y, e)] returns, with [e] losses and a
    weight matrix of shape [(1, n)] again, exactly when [X] has [n] columns
    and [y] has as many entries as [X] has rows, or one entry; in every
    other case it raises [ValueError], in the first epoch. *)
Theorem train_raises_on_shapes (y w : vec) (rate : npfloat) (e : Z) :
  (1 <= e)%Z ->
  let fits := shape1 X = length w
              /\ (length y = shape0 X \/ length y = 1) in
  (fits ->
   exists (loss_history : list npfloat) (w' : vec),
     train X y e (mk (row_mat w) rate)
     = Ok (loss_history, mk (row_mat w') rate)
     /\ Z.of_nat (length loss_history) = e
     /\ length w' = length w)
  /\ (~ fits -> train X y e (mk (row_mat w) rate) = Raise ValueError).
Proof using HX.
  intros He fits. subst fits. split.
  - intros [Hn Hy].
    assert (G : forall y', length y' = shape0 X ->
              exists (loss_history : list npfloat) (w' : vec),
                train X y' e (mk (row_mat w) rate)
                = Ok (loss_history, mk (row_mat w') rate)
                /\ Z.of_nat (length loss_history) = e
                /\ length w' = length w).
    { intros y' Hy'. unfold train.
      rewrite (@train_loop_row X y' rate HX Hy') by congruence.
      do 2 eexists. split; [reflexivity|]. split.
      - cbn [app]. rewrite length_map, length_seq. lia.
      - rewrite <- Hn. apply iter_step_length; auto. }
    destruct Hy as [Hy|Hy]; [now apply G|].
    destruct y as [|c [|? ?]]; try discriminate Hy.
    rewrite single_label_is_broadcast.
    apply G. apply repeat_length.
  - intros Hno. unfold train.
    destruct (Z.to_nat e) as [|k] eqn:Ek; [lia|].
    cbn [train_loop]. unfold bind at 1, update_weight, bind at 1.
    unfold W_grad, bind at 1.
    destruct (Nat.eq_dec (shape1 X) (length w)) as [Hn|Hn].
    + rewrite predict_row by congruence.
      unfold bind at 1, lift at 1, np.sub11.
      rewrite matvec_length. destruct HX as [Hr _]. rewrite Hr.
      destruct (Nat.eqb_spec (shape0 X) (length y)) as [E|E];
        [exfalso; apply Hno; split; [assumption|left; congruence]|].
      destruct (Nat.eqb_spec (length y) 1) as [E1|E1];
        [exfalso; apply Hno; split; [assumption|now right]|].
      destruct (Nat.eqb_spec (shape0 X) 1) as [E2|E2]; [|reflexivity].
      unfold bind at 1, lift at 1, np.dot21. cbn [np.T shape1].
      rewrite length_map.
      destruct (Nat.eqb_spec (shape0 X) (length y)) as [E3|E3];
        [contradiction|reflexivity].
    + unfold predict, bind at 1, get, bind at 1, lift at 1, np.dot22.
      cbn [W row_mat np.T shape0 shape1].
      destruct (Nat.eqb_spec (shape1 X) (length w)) as [E|E];
        [contradiction|reflexivity].
Qed.

End Broadcast.

Lemma single_label_is_broadcast_sample :
  LinearRegression.train (fin_mat sample_X) [Fin sample_lr] 2
    (LinearRegression.__init__ 2 1 (Fin sample_lr))
  = LinearRegression.train (fin_mat sample_X)
      (repeat (Fin sample_lr) 2) 2
      (LinearRegression.__init__ 2 1 (Fin sample_lr)).
Proof.
  apply (@single_label_is_broadcast (fin_mat sample_X)).
  split; [reflexivity|]. repeat constructor.
Defined.

Lemma train_raises_on_shapes_sample :
  LinearRegression.train (fin_mat sample_X) [zero; zero; zero] 1
    (LinearRegression.mk (row_mat (fin_vec sample_w)) (Fin sample_lr))
  = Raise ValueError.
Proof.
  apply (@train_raises_on_shapes (fin_mat sample_X)).
  - split; [reflexivity|]. repeat constructor.
  - lia.
  - simpl. intros [_ [H|H]]; discriminate H.
Defined.

(** * Degenerate uses *)

Section Degenerate.

Lemma sub_nonfinite (w : vec) :
  zip_with sub w (repeat NonFinite (length w)) = repeat NonFinite (length w).
Proof.
  induction w as [|a w IH]; [reflexivity|].
  cbn [length repeat zip_with]. rewrite IH. now destruct a.
Qed.

Lemma hand_step_empty (X : mat) (w : vec) (rate : npfloat) :
  rows X = [] -> shape0 X = 0 -> length w = shape1 X ->
  hand_step rate X [] w = repeat NonFinite (shape1 X).
Proof.
  intros Hr Hm Hw. unfold hand_step, hand_gradient. rewrite Hr, Hm.
  cbn [transpose matvec map zip_with]. unfold vdivn, vscale.
  rewrite !repeat_map. cbn [dot zip_with vsum fold_right].
  assert (E : mul rate (divn (mul (ofnat 2) zero) 0) = NonFinite)
    by now destruct rate.
  rewrite E, <- Hw. apply sub_nonfinite.
Qed.

(** X4.  On a data set without examples the first update overwrites every
    weight with a non-finite value, and they stay so: after [e >= 1] epochs
    on an [X] of shape [(0, n)] the weight matrix is a row of [n]
    non-finite values, whatever it was before, and so is every recorded
    loss. *)
Theorem empty_data_destroys_weights (X : mat) (w : vec) (rate : npfloat)
  (e : Z) :
  wf2 X -> shape0 X = 0 -> length w = shape1 X -> (1 <= e)%Z ->
  LinearRegression.train X [] e (LinearRegression.mk (row_mat w) rate)
  = Ok (repeat NonFinite (Z.to_nat e),
        LinearRegression.mk (row_mat (repeat NonFinite (shape1 X))) rate).
Proof.
  intros HX Hm Hw He.
  assert (Hr : rows X = []).
  { destruct HX as [Hr _]. rewrite Hm in Hr.
    now apply length_zero_iff_nil in Hr. }
  assert (Hy : length (@nil npfloat) = shape0 X) by now rewrite Hm.
  unfold LinearRegression.train.
  rewrite (@train_loop_row X [] rate HX Hy) by assumption.
  assert (Hit : forall k, Nat.iter (S k) (hand_step rate X []) w
                          = repeat NonFinite (shape1 X)).
  { induction k as [|k IH].
    - now apply hand_step_empty.
    - change (Nat.iter (S (S k)) (hand_step rate X []) w)
        with (hand_step rate X [] (Nat.iter (S k) (hand_step rate X []) w)).
      rewrite IH. apply hand_step_empty; auto. apply repeat_length. }
  destruct (Z.to_nat e) as [|k] eqn:Ek; [lia|].
  rewrite Hit. cbn [app]. f_equal. f_equal.
  assert (El : forall w', loss_at X [] w' = NonFinite).
  { intros w'. unfold loss_at. now rewrite Hr. }
  generalize 0 at 1. generalize (S k). intros n.
  induction n as [|n IH]; intros j; [reflexivity|].
  cbn [seq map repeat]. now rewrite El, IH.
Qed.

Lemma empty_data_destroys_weights_sample :
  LinearRegression.train empty_X [] 2
    (LinearRegression.mk (row_mat (fin_vec sample_w)) (Fin sample_lr))
  = Ok (repeat NonFinite 2,
        LinearRegression.mk (row_mat (repeat NonFinite 2)) (Fin sample_lr)).
Proof.
  apply (@empty_data_destroys_weights empty_X (fin_vec sample_w)
           (Fin sample_lr) 2).
  - split; [reflexivity|]. constructor.
  - reflexivity.
  - reflexivity.
  - lia.
Defined.

(** X5.  The two classes differ when [n_targets] is not one.  On an [X]
    with [n_features] columns, [LinearRegression.predict] raises
    [ValueError], since numpy's [squeeze(-1)] refuses an axis whose size is
    not one, and so does [train] with at least one epoch; torch's
    [squeeze(-1)] leaves the tensor as it is, and
    [MixedLinearRegression.predict] returns the two-dimensional product of
    shape [(m, n_targets)]. *)
Theorem n_targets_not_one (X : mat) (y : vec) (n_targets : nat)
  (rate : npfloat) (e : Z) :
  n_targets <> 1 -> (1 <= e)%Z ->
  let n_features := shape1 X in
  LinearRegression.predict X
    (LinearRegression.__init__ n_features n_targets rate)
  = Raise ValueError
  /\ LinearRegression.train X y e
       (LinearRegression.__init__ n_features n_targets rate)
     = Raise ValueError
  /\ exists t : MixedLinearRegression.tensor mat,
      MixedLinearRegression.predict X
        (MixedLinearRegression.__init__ n_features n_targets rate)
      = Ok (inr t, MixedLinearRegression.__init__ n_features n_targets rate)
      /\ shape0 (torch.data t) = shape0 X
      /\ shape1 (torch.data t) = n_targets.
Proof.
  intros Hk He n_features.
  assert (P : LinearRegression.predict X
                (LinearRegression.__init__ n_features n_targets rate)
              = Raise ValueError).
  { unfold LinearRegression.predict, bind, get, lift, np.dot22,
      np.squeeze_last.
    cbn [LinearRegression.__init__ LinearRegression.W np.zeros np.T shape0
           shape1 rows].
    subst n_features. rewrite Nat.eqb_refl. cbn [shape1].
    apply Nat.eqb_neq in Hk. now rewrite Hk. }
  split; [exact P|]. split.
  - unfold LinearRegression.train.
    destruct (Z.to_nat e) as [|k] eqn:Ek; [lia|].
    cbn [LinearRegression.train_loop].
    unfold bind at 1, LinearRegression.update_weight, bind at 1,
      LinearRegression.W_grad, bind at 1.
    now rewrite P.
  - unfold MixedLinearRegression.predict, bind, get, lift, ret, torch.matmul,
      torch.squeeze_last, torch.t, torch.transpose2.
    cbn [MixedLinearRegression.__init__ MixedLinearRegression.W torch.zeros
           torch.data shape0 shape1 rows].
    subst n_features. rewrite Nat.eqb_refl. cbn [torch.data shape0 shape1].
    apply Nat.eqb_neq in Hk. rewrite Hk.
    eexists. split; [reflexivity|]. split; reflexivity.
Qed.

Lemma n_targets_not_one_sample :
  LinearRegression.predict (fin_mat sample_X)
    (LinearRegression.__init__ 2 3 (Fin sample_lr))
  = Raise ValueError.
Proof.
  apply (@n_targets_not_one (fin_mat sample_X) (fin_vec sample_y) 3
           (Fin sample_lr) 1).
  - discriminate.
  - lia.
Defined.

End Degenerate.

(** * The loss as a distance *)

Section LossFacts.
Local Open Scope Qc_scope.

Lemma square_sub_comm (a b : npfloat) :
  mul (sub a b) (sub a b) = mul (sub b a) (sub b a).
Proof.
  destruct a as [p|], b as [r|]; try reflexivity.
  cbn. f_equal. ring.
Qed.

Lemma power2_sub_comm (u v : vec) :
  power2 (zip_with sub u v) = power2 (zip_with sub v u).
Proof.
  revert v. induction u as [|a u IH]; intros [|b v]; try reflexivity.
  cbn [zip_with power2 map]. fold (power2 (zip_with sub u v)).
  fold (power2 (zip_with sub v u)). now rewrite IH, square_sub_comm.
Qed.

Lemma power2_sub_one (u : vec) (c : npfloat) :
  power2 (map (fun a => sub a c) u) = power2 (map (fun b => sub c b) u).
Proof.
  unfold power2. rewrite !map_map. apply map_ext. intros a.
  apply square_sub_comm.
Qed.

(** X6.  The loss does not tell its arguments apart:
    [loss(y_hat, y) = loss(y, y_hat)] for all vectors, whether numpy pairs
    them entry by entry, broadcasts the shorter one, or raises. *)
Theorem loss_symmetric (y_hat y : vec) (s : LinearRegression.state) :
  LinearRegression.loss y_hat y s = LinearRegression.loss y y_hat s.
Proof.
  unfold LinearRegression.loss, bind, lift, ret, np.sub11, np.mean, np.power.
  destruct (Nat.eqb_spec (length y_hat) (length y)) as [E|E].
  - rewrite <- E, Nat.eqb_refl. now rewrite power2_sub_comm.
  - destruct (Nat.eqb_spec (length y) (length y_hat)) as [E'|_];
      [congruence|].
    destruct (Nat.eqb_spec (length y) 1) as [E1|E1];
      destruct (Nat.eqb_spec (length y_hat) 1) as [E2|E2];
      try congruence; try reflexivity.
    + now rewrite power2_sub_one.
    + now rewrite power2_sub_one.
Qed.

Lemma Qc_square_nonneg (x : Qc) : 0 <= x * x.
Proof.
  destruct (Qclt_le_dec x 0) as [H|H].
  - replace (x * x) with (- x * - x) by ring.
    assert (H' : 0 <= - x).
    { apply Qclt_le_weak in H. apply Qcopp_le_compat in H.
      now replace (- 0) with 0 in H by ring. }
    replace 0 with (0 * - x) by ring.
    now apply Qcmult_le_compat_r.
  - replace 0 with (0 * x) by ring. now apply Qcmult_le_compat_r.
Qed.

Lemma Qc_sum_zero (a s : Qc) : 0 <= a -> 0 <= s -> a + s = 0 -> a = 0 /\ s = 0.
Proof.
  intros Ha Hs E.
  assert (Ea : a = - s) by (rewrite <- (Qcplus_0_r (- s)), <- E; ring).
  assert (H0 : a <= 0).
  { rewrite Ea. apply Qcopp_le_compat in Hs.
    now replace (- 0) with 0 in Hs by ring. }
  assert (Z : a = 0) by now apply Qcle_antisym.
  split; [assumption|]. rewrite Z in E. now rewrite Qcplus_0_l in E.
Qed.

Lemma sum_squares_nonneg (a b : list Qc) :
  0 <= vsum (zip_with (fun p r => (p - r) * (p - r)) a b).
Proof.
  revert b. induction a as [|p a IH]; intros [|r b]; try apply Qcle_refl.
  cbn [zip_with]. rewrite vsum_cons.
  replace 0 with (0 + 0) by ring.
  apply Qcplus_le_compat; [apply Qc_square_nonneg|apply IH].
Qed.

Lemma sum_squares_zero (a b : list Qc) :
  length a = length b ->
  vsum (zip_with (fun p r => (p - r) * (p - r)) a b) = 0 -> a = b.
Proof.
  revert b. induction a as [|p a IH]; intros [|r b] E H;
    try discriminate E; [reflexivity|].
  cbn [zip_with] in H. rewrite vsum_cons in H.
  apply Qc_sum_zero in H;
    [|apply Qc_square_nonneg|apply sum_squares_nonneg].
  destruct H as [Hp Hs]. f_equal.
  - apply Qcmult_integral in Hp.
    assert (Z : p - r = 0) by (destruct Hp; assumption).
    rewrite <- (Qcplus_0_l r), <- Z. ring.
  - apply IH; [simpl in E; lia|assumption].
Qed.

Lemma sum_squares_same (a : list Qc) :
  vsum (zip_with (fun p r => (p - r) * (p - r)) a a) = 0.
Proof.
  induction a as [|p a IH]; [reflexivity|].
  cbn [zip_with]. rewrite vsum_cons, IH. ring.
Qed.

Lemma Qc_inv_of_nat_pos (m : nat) : (1 <= m)%nat -> 0 < / Qc_of_nat m.
Proof.
  intros Hm. unfold Qclt.
  change (this (/ Qc_of_nat m)) with (Qred (/ this (Qc_of_nat m))).
  change (this 0) with 0%Q.
  rewrite Qred_correct. apply Qinv_lt_0_compat.
  change (this (Qc_of_nat m)) with (Qred (inject_Z (Z.of_nat m))).
  rewrite Qred_correct. unfold Qlt. simpl. lia.
Qed.

(** X7.  For two vectors of the same length [m >= 1] the loss is never
    negative, and it is zero exactly when the prediction equals the
    labels. *)
Theorem loss_zero_iff_equal (y_hat y : list Qc) (s : LinearRegression.state) :
  (1 <= length y_hat)%nat -> length y_hat = length y ->
  exists v : Qc,
    LinearRegression.loss (fin_vec y_hat) (fin_vec y) s = Ok (Fin v, s)
    /\ 0 <= v
    /\ (v = 0 <-> y_hat = y).
Proof.
  intros Hm E. exists (Spec.mean_squared_error y_hat y).
  assert (Hne : y_hat <> [])
    by (destruct y_hat; [simpl in Hm; lia|congruence]).
  split; [|split].
  - rewrite loss_same_length by now rewrite !fin_vec_length.
    now rewrite loss_fin.
  - unfold Spec.mean_squared_error.
    replace 0 with (/ Qc_of_nat (length y_hat) * 0) by ring.
    rewrite !(Qcmult_comm (/ Qc_of_nat (length y_hat))).
    apply Qcmult_le_compat_r; [apply sum_squares_nonneg|].
    apply Qclt_le_weak. now apply Qc_inv_of_nat_pos.
  - unfold Spec.mean_squared_error. split.
    + intros H. apply Qcmult_integral in H. destruct H as [H|H].
      * pose proof (Qc_inv_of_nat_pos Hm) as P. rewrite H in P.
        now apply Qclt_not_eq in P.
      * now apply sum_squares_zero.
    + intros <-. rewrite sum_squares_same. ring.
Qed.

Lemma loss_zero_iff_equal_sample :
  exists v : Qc,
    LinearRegression.loss (fin_vec sample_w) (fin_vec sample_y)
      (LinearRegression.__init__ 2 1 LinearRegression.default_lr)
    = Ok (Fin v, LinearRegression.__init__ 2 1 LinearRegression.default_lr)
    /\ 0 <= v
    /\ (v = 0 <-> sample_w = sample_y).
Proof.
  apply (@loss_zero_iff_equal sample_w sample_y).
  - simpl. lia.
  - reflexivity.
Defined.

End LossFacts.

(** * Training on finite data, in closed form *)

Section Descent.
Local Open Scope Qc_scope.

Lemma Qc_list_eq (u v : list Qc) : map this u = map this v -> u = v.
Proof.
  revert v. induction u as [|a u IH]; intros [|b v] E;
    try discriminate E; [reflexivity|].
  injection E as Ea Eu. f_equal; [now apply Qc_decomp|now apply IH].
Qed.

Variables (X : ndarray2 Qc) (y : list Qc) (lr : Qc).
Hypothesis HX : wf2 X.
Hypothesis Hm : (1 <= shape0 X)%nat.
Hypothesis Hy : length y = shape0 X.

Let step := Spec.gd_step lr (shape1 X) (rows X) y.

(** The result of [train] on finite data: the losses and weights of the
    iterates of [Spec.gd_step]. *)
Lemma train_fin (w : list Qc) (e : Z) :
  length w = shape1 X ->
  LinearRegression.train (fin_mat X) (fin_vec y) e
    (LinearRegression.mk (row_mat (fin_vec w)) (Fin lr))
  = Ok (map (fun i => Fin (Spec.objective (rows X) y (Nat.iter (S i) step w)))
          (seq 0 (Z.to_nat e)),
        LinearRegression.mk
          (row_mat (fin_vec (Nat.iter (Z.to_nat e) step w))) (Fin lr)).
Proof using HX Hm Hy.
  intros Hw. unfold LinearRegression.train.
  rewrite (@train_loop_row (fin_mat X) (fin_vec y) (Fin lr)).
  - cbn [app]. rewrite iter_hand_step_fin by assumption. f_equal. f_equal.
    apply map_ext. intros i.
    rewrite iter_hand_step_fin by assumption. now apply loss_at_fin.
  - now apply wf2_fin_mat.
  - now rewrite fin_vec_length.
  - now rewrite fin_vec_length.
Qed.

Lemma gd_step_as_sum (w : list Qc) :
  step w
  = zip_with Qcplus w
      (vscale (- lr) (Spec.mse_gradient (shape1 X) (rows X) y w)).
Proof.
  subst step. unfold Spec.gd_step.
  generalize (Spec.mse_gradient (shape1 X) (rows X) y w). intros g.
  revert g. induction w as [|a w IH]; intros [|b g]; try reflexivity.
  cbn [vscale map zip_with]. fold (vscale lr g) (vscale (- lr) g).
  rewrite IH. f_equal. cbn. ring.
Qed.

(** X8.  What one epoch does to the loss.  With [g] the gradient at the
    weights [w], the loss that [train] records after the update of an epoch
    is [L(w) - lr * |g|^2 + lr^2 * (1/m) * |X g|^2]: the step lowers the
    loss by [lr * |g|^2] and raises it by a term in [lr^2], so that a large
    [lr] makes the loss grow. *)
Theorem loss_after_update (w : list Qc) :
  length w = shape1 X ->
  let g := Spec.mse_gradient (shape1 X) (rows X) y w in
  exists s' : LinearRegression.state,
    (LinearRegression.update_weight (fin_mat X) (fin_vec y) ;;;
     current_loss (fin_mat X) (fin_vec y))
      (LinearRegression.mk (row_mat (fin_vec w)) (Fin lr))
    = Ok (Fin (Spec.objective (rows X) y w
               - lr * dot g g
               + lr * lr
                 * (/ Qc_of_nat (shape0 X)
                    * dot (matvec (rows X) g) (matvec (rows X) g))),
          s').
Proof using HX Hm Hy.
  intros Hw g.
  pose proof (wf2_fin_mat HX) as HF.
  assert (HyF : length (fin_vec y) = shape0 (fin_mat X))
    by now rewrite fin_vec_length.
  unfold bind. rewrite update_weight_row; auto;
    [|now rewrite fin_vec_length].
  rewrite hand_step_fin by assumption.
  rewrite (@current_loss_row (fin_mat X) (fin_vec y) (Fin lr) HF HyF).
  2:{ rewrite fin_vec_length. apply gd_step_length; [apply HX|assumption]. }
  eexists. f_equal. f_equal. rewrite loss_at_fin by assumption. f_equal.
  fold step. rewrite gd_step_as_sum. fold g.
  destruct HX as [Hr Hc].
  rewrite (@objective_expansion (shape1 X)); auto.
  - fold g. rewrite dot_scale_r, matvec_scale_r, dot_scale_l, dot_scale_r, Hr.
    ring.
  - congruence.
  - unfold vscale. rewrite length_map. subst g.
    unfold Spec.mse_gradient, vscale.
    rewrite length_map, matvec_length. now apply transpose_length.
Qed.

(** X9.  Weights that solve the normal equations [X^T (X w - y) = 0] are
    a fixed point: [train] then leaves the weight matrix as it is, for
    every learning rate, and records the same loss [L(w)] in every
    epoch. *)
Theorem stationary_weights_stay (w : list Qc) (e : Z) :
  length w = shape1 X ->
  matvec (transpose (shape1 X) (rows X))
    (zip_with Qcminus (matvec (rows X) w) y)
  = repeat (Q2Qc 0%Q) (shape1 X) ->
  LinearRegression.train (fin_mat X) (fin_vec y) e
    (LinearRegression.mk (row_mat (fin_vec w)) (Fin lr))
  = Ok (repeat (Fin (Spec.objective (rows X) y w)) (Z.to_nat e),
        LinearRegression.mk (row_mat (fin_vec w)) (Fin lr)).
Proof using HX Hm Hy.
  intros Hw Hg. rewrite train_fin by assumption.
  assert (Hs : step w = w).
  { subst step. unfold Spec.gd_step, Spec.mse_gradient,
      Spec.linear_prediction.
    rewrite Hg, !vscale_repeat, <- Hw. clear.
    induction w as [|a w IH]; [reflexivity|].
    cbn [length repeat zip_with]. rewrite IH. f_equal. ring. }
  assert (Hi : forall k, Nat.iter k step w = w).
  { induction k as [|k IH]; [reflexivity|]. simpl. now rewrite IH. }
  rewrite Hi. f_equal. f_equal.
  generalize 0%nat at 1. induction (Z.to_nat e) as [|k IH]; intros j.
  - reflexivity.
  - cbn [seq map repeat]. now rewrite Hi, IH.
Qed.

End Descent.

Lemma loss_after_update_sample :
  exists s' : LinearRegression.state,
    (LinearRegression.update_weight (fin_mat sample_X) (fin_vec sample_y) ;;;
     current_loss (fin_mat sample_X) (fin_vec sample_y))
      (LinearRegression.mk (row_mat (fin_vec sample_w)) (Fin sample_lr))
    = Ok (Fin (Spec.objective (rows sample_X) sample_y sample_w
               - sample_lr
                 * dot (Spec.mse_gradient 2 (rows sample_X) sample_y sample_w)
                     (Spec.mse_gradient 2 (rows sample_X) sample_y sample_w)
               + sample_lr * sample_lr
                 * (/ Qc_of_nat 2
                    * dot
                        (matvec (rows sample_X)
                           (Spec.mse_gradient 2 (rows sample_X) sample_y
                              sample_w))
                        (matvec (rows sample_X)
                           (Spec.mse_gradient 2 (rows sample_X) sample_y
                              sample_w))))%Qc,
          s').
Proof.
  apply (@loss_after_update sample_X sample_y sample_lr).
  - split; [reflexivity|]. repeat constructor.
  - simpl. lia.
  - reflexivity.
  - reflexivity.
Defined.

Lemma stationary_weights_stay_sample :
  LinearRegression.train (fin_mat sample_X) (fin_vec fitted_y) 3
    (LinearRegression.mk (row_mat (fin_vec sample_w)) (Fin sample_lr))
  = Ok (repeat (Fin (Spec.objective (rows sample_X) fitted_y sample_w)) 3,
        LinearRegression.mk (row_mat (fin_vec sample_w)) (Fin sample_lr)).
Proof.
  apply (@stationary_weights_stay sample_X fitted_y sample_lr).
  - split; [reflexivity|]. repeat constructor.
  - simpl. lia.
  - reflexivity.
  - reflexivity.
  - apply Qc_list_eq. vm_compute. reflexivity.
Defined.

(** * The order of the examples *)

Section Order.
Local Open Scope Qc_scope.

Lemma vsum_permutation (u v : list Qc) : Permutation u v -> vsum u = vsum v.
Proof.
  induction 1 as [|a u v _ IH|a b u|u v t _ IH1 _ IH2].
  - reflexivity.
  - now rewrite !vsum_cons, IH.
  - rewrite !vsum_cons. ring.
  - congruence.
Qed.

Lemma zip_with_plus_swap (u v acc : list Qc) :
  zip_with Qcplus u (zip_with Qcplus v acc)
  = zip_with Qcplus v (zip_with Qcplus u acc).
Proof.
  revert v acc. induction u as [|a u IH]; intros [|b v] [|c acc];
    try reflexivity.
  cbn [zip_with]. rewrite IH. f_equal. ring.
Qed.

Lemma fold_sum_permutation {A} (f : A -> list Qc) (init : list Qc)
  (l l' : list A) :
  Permutation l l' ->
  fold_right (fun a acc => zip_with Qcplus (f a) acc) init l
  = fold_right (fun a acc => zip_with Qcplus (f a) acc) init l'.
Proof.
  induction 1 as [|a u v _ IH|a b u|u v t _ IH1 _ IH2].
  - reflexivity.
  - cbn [fold_right]. now rewrite IH.
  - cbn [fold_right]. apply zip_with_plus_swap.
  - congruence.
Qed.

Lemma zip_with_matvec (f : Qc -> Qc -> Qc) (X : list (list Qc))
  (y w : list Qc) :
  zip_with f (matvec X w) y
  = map (fun xy : list Qc * Qc => f (dot (fst xy) w) (snd xy)) (combine X y).
Proof.
  revert y. induction X as [|r X IH]; intros [|t y]; try reflexivity.
  cbn [matvec map zip_with combine fst snd]. fold (matvec X w).
  now rewrite IH.
Qed.

Variables (X X' : ndarray2 Qc) (y y' : list Qc).
Hypothesis HX : wf2 X.
Hypothesis HX' : wf2 X'.
Hypothesis Hshape : shape0 X' = shape0 X /\ shape1 X' = shape1 X.
Hypothesis Hy : length y = shape0 X.
Hypothesis Hy' : length y' = shape0 X.
Hypothesis Hperm : Permutation (combine (rows X) y) (combine (rows X') y').

Lemma rows_same_length : length (rows X') = length (rows X).
Proof using HX HX' Hshape.
  destruct HX as [Hr _], HX' as [Hr' _], Hshape as [H0 _]. congruence.
Qed.

Lemma objective_permutation (w : list Qc) :
  Spec.objective (rows X) y w = Spec.objective (rows X') y' w.
Proof using HX HX' Hshape Hperm.
  unfold Spec.objective, Spec.mean_squared_error, Spec.linear_prediction.
  rewrite !matvec_length, rows_same_length, !zip_with_matvec.
  f_equal. apply vsum_permutation. now apply Permutation_map.
Qed.

Lemma gd_step_permutation (lr : Qc) (w : list Qc) :
  Spec.gd_step lr (shape1 X) (rows X) y w
  = Spec.gd_step lr (shape1 X') (rows X') y' w.
Proof using HX HX' Hshape Hy Hy' Hperm.
  unfold Spec.gd_step. f_equal. f_equal.
  destruct Hshape as [H0 H1].
  rewrite <- !batch_gradient_eq.
  - unfold Spec.batch_gradient. rewrite rows_same_length, H1.
    now apply (fold_sum_permutation
                 (fun xy : list Qc * Qc =>
                    vscale (Spec.two / Qc_of_nat (length (rows X))
                            * (dot (fst xy) w - snd xy)) (fst xy))).
  - apply HX'.
  - destruct HX' as [Hr' _]. congruence.
  - apply HX.
  - destruct HX as [Hr _]. congruence.
Qed.

(** X10.  The order of the examples does not matter.  When the rows of
    [X'] with their labels [y'] are the rows of [X] with their labels [y]
    in another order, [train] returns the same loss history and ends with
    the same weights on both: every update uses the whole data set, not the
    examples one after the other. *)
Theorem train_ignores_example_order (lr : Qc) (w : list Qc) (e : Z) :
  (1 <= shape0 X)%nat -> length w = shape1 X ->
  LinearRegression.train (fin_mat X') (fin_vec y') e
    (LinearRegression.mk (row_mat (fin_vec w)) (Fin lr))
  = LinearRegression.train (fin_mat X) (fin_vec y) e
      (LinearRegression.mk (row_mat (fin_vec w)) (Fin lr)).
Proof using HX HX' Hshape Hy Hy' Hperm.
  intros Hm Hw. destruct Hshape as [H0 H1].
  rewrite !train_fin by congruence.
  assert (Hi : forall k,
             Nat.iter k (Spec.gd_step lr (shape1 X') (rows X') y') w
             = Nat.iter k (Spec.gd_step lr (shape1 X) (rows X) y) w).
  { induction k as [|k IH]; [reflexivity|].
    cbn [Nat.iter nat_rect]. unfold Nat.iter in IH. rewrite IH.
    symmetry. apply gd_step_permutation. }
  rewrite Hi. f_equal. f_equal. apply map_ext. intros i.
  rewrite Hi. f_equal. symmetry. apply objective_permutation.
Qed.

End Order.

Lemma train_ignores_example_order_sample :
  LinearRegression.train (fin_mat swapped_X) (fin_vec swapped_y) 3
    (LinearRegression.mk (row_mat (fin_vec sample_w)) (Fin sample_lr))
  = LinearRegression.train (fin_mat sample_X) (fin_vec sample_y) 3
      (LinearRegression.mk (row_mat (fin_vec sample_w)) (Fin sample_lr)).
Proof.
  apply (@train_ignores_example_order sample_X swapped_X sample_y swapped_y).
  - split; [reflexivity|]. repeat constructor.
  - split; [reflexivity|]. repeat constructor.
  - split; reflexivity.
  - reflexivity.
  - reflexivity.
  - apply perm_swap.
  - simpl. lia.
  - reflexivity.
Defined.

(** * The attribute [W.grad] of [MixedLinearRegression] *)

Section Grad.
Local Open Scope Qc_scope.
Import MixedLinearRegression.

Lemma mixed_train_loop_zeroed (X : mat) (y : vec) (rate : npfloat) (n : nat)
  (w : vec) (grad : option mat) (history : list npfloat) :
  wf2 X -> length y = shape0 X -> length w = shape1 X ->
  grad_clear (shape1 X) grad ->
  exists (h : list npfloat) (w' : vec),
    train_loop X y (S n) history (mk (row_mat w) grad rate)
    = Ok (h, mk (row_mat w') (Some (torch.zeros 1 (shape1 X))) rate)
    /\ w' = Nat.iter (S n) (autograd_step rate X y) w.
Proof.
  intros HX Hy Hw Hg. rewrite (@mixed_epoch X y rate HX Hy) by assumption.
  clear Hg grad.
  assert (G : forall k v hist,
             length v = shape1 X ->
             train_loop X y k hist
               (mk (row_mat v) (Some (torch.zeros 1 (shape1 X))) rate)
             = Ok (hist
                   ++ map (fun i =>
                             loss_at X y
                               (Nat.iter i (autograd_step rate X y) v))
                       (seq 0 k),
                   mk (row_mat (Nat.iter k (autograd_step rate X y) v))
                     (Some (torch.zeros 1 (shape1 X))) rate)).
  { induction k as [|k IH]; intros v hist Hv.
    - simpl. unfold ret. now rewrite app_nil_r.
    - rewrite (@mixed_epoch X y rate HX Hy) by (auto; now right).
      rewrite IH by now apply autograd_step_length.
      rewrite mixed_iter_step_shift, <- app_assoc. f_equal. f_equal. f_equal.
      cbn [seq map app Nat.iter nat_rect]. f_equal.
      rewrite <- seq_shift, map_map. apply map_ext. intros i.
      now rewrite mixed_iter_step_shift. }
  rewrite G by now apply autograd_step_length.
  do 2 eexists. split; [reflexivity|]. now rewrite mixed_iter_step_shift.
Qed.

Lemma sub_scaled_zeros (lr : Qc) (w : list Qc) :
  zip_with sub (fin_vec w) (vscale (Fin lr) (repeat zero (length w)))
  = fin_vec w.
Proof.
  induction w as [|a w IH]; [reflexivity|].
  cbn [length repeat vscale map zip_with fin_vec].
  unfold fin_vec, vscale in IH. rewrite IH. f_equal. cbn. f_equal. ring.
Qed.

(** X11.  [update_weight] needs a gradient.  On a freshly built object it
    raises [AttributeError], [W.grad] being [None].  After [train] with at
    least one epoch, on finite data with [m >= 1], [W.grad] is the zero
    matrix of the shape of [W], and a further call of [update_weight]
    returns and changes nothing. *)
Theorem update_weight_needs_a_gradient (X : ndarray2 Qc) (y w : list Qc)
  (lr : Qc) (e : Z) :
  wf2 X -> (1 <= shape0 X)%nat -> length y = shape0 X ->
  length w = shape1 X -> (1 <= e)%Z ->
  (forall (n_features n_targets : nat) (rate : npfloat),
      update_weight (__init__ n_features n_targets rate)
      = Raise AttributeError)
  /\ exists (h : list npfloat) (s' : state),
      train (fin_mat X) (fin_vec y) e (mk (row_mat (fin_vec w)) None (Fin lr))
      = Ok (h, s')
      /\ W_grad s' = Some (torch.zeros 1 (shape1 X))
      /\ update_weight s' = Ok (tt, s').
Proof.
  intros HX Hm Hy Hw He. split; [reflexivity|].
  pose proof (wf2_fin_mat HX) as HF.
  unfold train. destruct (Z.to_nat e) as [|k] eqn:Ek; [lia|].
  destruct (@mixed_train_loop_zeroed (fin_mat X) (fin_vec y) (Fin lr) k
              (fin_vec w) None []) as (h & w' & E & Ew); auto.
  - now rewrite fin_vec_length.
  - now rewrite fin_vec_length.
  - now left.
  - rewrite E. exists h. eexists. split; [reflexivity|].
    split; [reflexivity|].
    rewrite iter_autograd_step_fin in Ew by assumption. subst w'.
    set (v := Nat.iter (S k) (Spec.gd_step lr (shape1 X) (rows X) y) w).
    assert (Hv : length v = shape1 X).
    { subst v. apply (@iter_ext _ (Spec.gd_step lr (shape1 X) (rows X) y)
                         (Spec.gd_step lr (shape1 X) (rows X) y)
                         (fun u => length u = shape1 X)); auto.
      intros u Hu. apply gd_step_length; [apply HX|assumption]. }
    unfold update_weight, bind, get, put. cbn [W_grad W MixedLinearRegression.lr].
    unfold torch.axpy22, torch.zeros, row_mat.
    cbn [shape0 shape1 rows repeat combine map fst snd fin_mat map2].
    replace (zip_with sub (fin_vec v)
               (vscale (Fin lr) (repeat zero (shape1 X))))
      with (fin_vec v); [reflexivity|].
    now rewrite <- Hv, sub_scaled_zeros.
Qed.

Lemma update_weight_needs_a_gradient_sample :
  exists (h : list npfloat) (s' : state),
    train (fin_mat sample_X) (fin_vec sample_y) 2
      (mk (row_mat (fin_vec sample_w)) None (Fin sample_lr))
    = Ok (h, s')
    /\ W_grad s' = Some (torch.zeros 1 2)
    /\ update_weight s' = Ok (tt, s').
Proof.
  apply (@update_weight_needs_a_gradient sample_X sample_y sample_w
           sample_lr 2).
  - split; [reflexivity|]. repeat constructor.
  - simpl. lia.
  - reflexivity.
  - reflexivity.
  - lia.
Defined.

End Grad.

(** * Why the gradient is reset *)

Section Accumulate.
Local Open Scope Qc_scope.
Import MixedLinearRegression.

(** X12.  [backward] adds to [W.grad]; it does not overwrite it.  When the
    three statements [predict], [loss], [backward] of an epoch are executed
    twice with no [W.grad.data.zero_()] in between, [W.grad] holds twice
    the gradient of the loss. *)
Theorem backward_accumulates (X : ndarray2 Qc) (y w : list Qc) (lr : Qc) :
  wf2 X -> (1 <= shape0 X)%nat -> length y = shape0 X ->
  length w = shape1 X ->
  let g := Spec.mse_gradient (shape1 X) (rows X) y w in
  let twice := mk2 1 (shape1 X) [fin_vec (zip_with Qcplus g g)] in
  (y_hat <- predict (fin_mat X) ;;
   l <- loss y_hat (fin_vec y) ;;
   backward l ;;;
   autograd_W_grad (fin_mat X) (fin_vec y))
    (mk (row_mat (fin_vec w)) None (Fin lr))
  = Ok (Some twice, mk (row_mat (fin_vec w)) (Some twice) (Fin lr)).
Proof.
  intros HX Hm Hy Hw g twice.
  pose proof (wf2_fin_mat HX) as HF.
  assert (HyF : length (fin_vec y) = shape0 (fin_mat X))
    by now rewrite fin_vec_length.
  assert (HwF : length (fin_vec w) = shape1 (fin_mat X))
    by now rewrite fin_vec_length.
  destruct (@forward_backward_row (fin_mat X) (fin_vec y) (fin_vec w)
              (Fin lr) None HF HyF HwF) as (l1 & _ & E1).
  rewrite E1. cbv zeta.
  destruct (@forward_backward_row (fin_mat X) (fin_vec y) (fin_vec w)
              (Fin lr)
              (Some (mk2 1 (shape1 (fin_mat X))
                       [autograd_gradient (fin_mat X) (fin_vec y)
                          (fin_vec w)]))
              HF HyF HwF) as (l2 & _ & E2).
  unfold autograd_W_grad. rewrite E2. cbv zeta.
  rewrite autograd_gradient_fin by assumption. fold g.
  unfold bind, get, ret. cbn [W_grad].
  unfold torch.add22. cbn [shape0 shape1 rows combine map fst snd fin_mat map2].
  change (@add npfloat _) with (lift2 Qcplus).
  unfold fin_vec. rewrite zip_with_fin. reflexivity.
Qed.

Lemma backward_accumulates_sample :
  (y_hat <- predict (fin_mat sample_X) ;;
   l <- loss y_hat (fin_vec sample_y) ;;
   backward l ;;;
   autograd_W_grad (fin_mat sample_X) (fin_vec sample_y))
    (mk (row_mat (fin_vec sample_w)) None (Fin sample_lr))
  = Ok (Some
          (mk2 1 2
             [fin_vec
                (zip_with Qcplus
                   (Spec.mse_gradient 2 (rows sample_X) sample_y sample_w)
                   (Spec.mse_gradient 2 (rows sample_X) sample_y sample_w))]),
        mk (row_mat (fin_vec sample_w))
          (Some
             (mk2 1 2
                [fin_vec
                   (zip_with Qcplus
                      (Spec.mse_gradient 2 (rows sample_X) sample_y sample_w)
                      (Spec.mse_gradient 2 (rows sample_X) sample_y
                         sample_w))]))
          (Fin sample_lr)).
Proof.
  apply (@backward_accumulates sample_X sample_y sample_w sample_lr).
  - split; [reflexivity|]. repeat constructor.
  - simpl. lia.
  - reflexivity.
  - reflexivity.
Defined.

End Accumulate.

(** * A column of ones is a bias *)

Section Bias.
Local Open Scope Qc_scope.

Lemma transpose_cons_column {A} (a : A) (n : nat) (M : list (list A)) :
  transpose (S n) (map (cons a) M) = map (fun _ => a) M :: transpose n M.
Proof.
  induction M as [|r M IH]; [reflexivity|].
  cbn [map transpose]. rewrite IH. reflexivity.
Qed.

Lemma dot_ones (M : list (list Qc)) (d : list Qc) :
  length d = length M -> dot (map (fun _ => Q2Qc 1%Q) M) d = vsum d.
Proof.
  revert d. induction M as [|r M IH]; intros [|a d] E; try discriminate E;
    [reflexivity|].
  cbn [map]. rewrite dot_cons, vsum_cons, IH by (simpl in E; lia). ring.
Qed.

Lemma vsum_vscale (c : Qc) (v : list Qc) : vsum (vscale c v) = c * vsum v.
Proof.
  induction v as [|a v IH]; [cbn; ring|].
  cbn [vscale map]. fold (vscale c v). rewrite !vsum_cons, IH. cbn. ring.
Qed.

Lemma matvec_bias_column (M : list (list Qc)) (w : list Qc) (b : Qc) :
  matvec (map (cons (Q2Qc 1%Q)) M) (b :: w)
  = map (fun r => dot r w + b) M.
Proof.
  unfold matvec. rewrite map_map. apply map_ext. intros r.
  rewrite dot_cons. ring.
Qed.

Variables (X : ndarray2 Qc) (y : list Qc) (lr : Qc).
Hypothesis HX : wf2 X.
Hypothesis Hm : (1 <= shape0 X)%nat.
Hypothesis Hy : length y = shape0 X.

Lemma wf2_bias_column : wf2 (bias_column X).
Proof using HX.
  destruct HX as [Hr Hc]. split; cbn [bias_column rows shape0 shape1].
  - now rewrite length_map.
  - apply Forall_map. eapply Forall_impl; [|exact Hc].
    intros r Hlen. simpl. now rewrite Hlen.
Qed.

Lemma hstack_ones_fin :
  hstack_ones (shape0 X) (fin_mat X) = Ok (fin_mat (bias_column X)).
Proof.
  unfold hstack_ones, fin_mat, map2, bias_column.
  cbn [shape0 shape1 rows].
  rewrite Nat.eqb_refl, !map_map. reflexivity.
Qed.

Lemma residual_length (w : list Qc) (b : Qc) :
  length (zip_with Qcminus (map (fun r => dot r w + b) (rows X)) y)
  = length (rows X).
Proof using HX Hy.
  destruct HX as [Hr _].
  rewrite zip_with_length, length_map, Hy, Hr. apply Nat.min_id.
Qed.

Lemma gd_step_bias_column (w : list Qc) (b : Qc) :
  Spec.gd_step lr (1 + shape1 X) (rows (bias_column X)) y (b :: w)
  = snd (affine_gd_step lr (shape1 X) (rows X) y (w, b))
    :: fst (affine_gd_step lr (shape1 X) (rows X) y (w, b)).
Proof using HX Hy.
  unfold Spec.gd_step, Spec.mse_gradient, Spec.linear_prediction,
    affine_gd_step.
  cbn [bias_column rows fst snd Nat.add]. cbv zeta.
  rewrite matvec_bias_column, transpose_cons_column, length_map.
  cbn [matvec map]. fold (matvec (transpose (shape1 X) (rows X))).
  rewrite dot_ones by apply residual_length.
  reflexivity.
Qed.

Lemma affine_loss_fin (w : list Qc) (b : Qc) :
  affine_loss (fin_mat X) (fin_vec y) (fin_vec w) (Fin b)
  = Fin (Spec.objective (rows (bias_column X)) y (b :: w)).
Proof using HX Hm Hy.
  unfold affine_loss, Spec.objective, Spec.linear_prediction.
  cbn [fin_mat map2 rows bias_column].
  rewrite matvec_bias_column, map_map.
  rewrite (map_ext (fun r => add (dot (map Fin r) (fin_vec w)) (Fin b))
             (fun r => Fin (dot r w + b))).
  2:{ intros r. unfold fin_vec. now rewrite dot_fin. }
  rewrite <- (map_map (fun r => dot r w + b) Fin).
  apply loss_fin.
  - destruct HX as [Hr _]. intros E. apply (f_equal (@length _)) in E.
    rewrite length_map in E. simpl in E. lia.
  - rewrite length_map. destruct HX. congruence.
Qed.

Lemma sgd_step_fin (w : list Qc) (b : Qc) :
  sgd_step (Fin lr) (fin_mat X) (fin_vec y) (fin_vec w, Fin b)
  = (fin_vec (fst (affine_gd_step lr (shape1 X) (rows X) y (w, b))),
     Fin (snd (affine_gd_step lr (shape1 X) (rows X) y (w, b)))).
Proof using HX Hm Hy.
  unfold sgd_step, affine_gd_step. cbn [fst snd fin_mat map2 rows shape1].
  cbv zeta.
  rewrite map_map.
  rewrite (map_ext (fun r => add (dot (map Fin r) (fin_vec w)) (Fin b))
             (fun r => Fin (dot r w + b))).
  2:{ intros r. unfold fin_vec. now rewrite dot_fin. }
  rewrite <- (map_map (fun r => dot r w + b) Fin).
  unfold fin_vec.
  change (@sub npfloat _) with (lift2 Qcminus).
  change (@mul npfloat _) with (lift2 Qcmult).
  rewrite zip_with_fin, power2_fin, length_map.
  set (d := zip_with Qcminus (map (fun r => dot r w + b) (rows X)) y).
  assert (Hd : length d = shape0 X).
  { subst d. rewrite residual_length. apply HX. }
  unfold power2. rewrite !length_map, !Hd.
  assert (E1 : divn (one : npfloat) (shape0 X)
               = Fin (Q2Qc 1%Q / Qc_of_nat (shape0 X))).
  { cbn [divn one Num_npfloat np_divn].
    destruct (Nat.eqb_spec (shape0 X) 0) as [E|_]; [lia|reflexivity]. }
  rewrite E1, <- (repeat_map Fin).
  change (@ofnat npfloat _ 2) with (Fin (Qc_of_nat 2)).
  rewrite vscale_fin, zip_with_fin, transpose_map, matvec_fin, vsum_fin.
  rewrite vscale_fin, zip_with_fin.
  rewrite zip_with_repeat by (unfold vscale; now rewrite length_map).
  rewrite vscale_vscale, matvec_scale_r, vsum_vscale.
  destruct HX as [Hr _]. rewrite Hr.
  assert (Ec : Q2Qc 1%Q / Qc_of_nat (shape0 X) * Qc_of_nat 2
               = Spec.two / Qc_of_nat (shape0 X)).
  { change (Qc_of_nat 2) with Spec.two. field. apply Qc_of_nat_neq0. lia. }
  rewrite Ec. reflexivity.
Qed.

Lemma full_train_init (A : mat) (v w : vec) (b rate : npfloat) (e : Z) :
  FullPyTorch.train A v e (FullPyTorch.__init__ w b rate)
  = FullPyTorch.train_loop A v (Z.to_nat e) []
      (FullPyTorch.mk w b None None true rate).
Proof. reflexivity. Qed.

Let full_step := sgd_step (Fin lr) (fin_mat X) (fin_vec y).
Let aug_step := Spec.gd_step lr (1 + shape1 X) (rows (bias_column X)) y.
Let affine := affine_gd_step lr (shape1 X) (rows X) y.

Lemma bias_iterates (k : nat) (w : list Qc) (b : Qc) :
  Nat.iter k aug_step (b :: w)
  = snd (Nat.iter k affine (w, b)) :: fst (Nat.iter k affine (w, b))
  /\ Nat.iter k full_step (fin_vec w, Fin b)
     = (fin_vec (fst (Nat.iter k affine (w, b))),
        Fin (snd (Nat.iter k affine (w, b)))).
Proof using HX Hm Hy.
  induction k as [|k [IH1 IH2]]; [now split|].
  cbn [Nat.iter nat_rect]. unfold Nat.iter in IH1, IH2.
  rewrite IH1, IH2. subst aug_step full_step affine. cbv beta.
  destruct (nat_rect _ (w, b) _ k) as [wk bk]. cbn [fst snd].
  split; [apply gd_step_bias_column|apply sgd_step_fin].
Qed.

(** X13.  The branch [use_bias] gives the model of the full PyTorch
    solution.  [LinearRegression] trained on the data with a first column
    of ones, its weight row started at [bias0 :: weight0], goes through the
    same parameters as the function [train] with its layer started at
    [weight0] and [bias0]: after [e] epochs the weight row of the one is
    the bias of the other followed by its weight, and the [e] losses of
    [LinearRegression.train] are the losses that [train] records in its
    epochs [2] to [e + 1]. *)
Theorem bias_column_is_the_bias (weight0 : list Qc) (bias0 : Qc) (e : Z) :
  length weight0 = shape1 X -> (0 <= e)%Z ->
  exists (X_np : mat) (h h3 : list npfloat) (w : list Qc) (b : Qc)
    (l0 : npfloat) (s3 s3' : FullPyTorch.state),
    hstack_ones (shape0 X) (fin_mat X) = Ok X_np
    /\ LinearRegression.train X_np (fin_vec y) e
         (LinearRegression.mk (row_mat (fin_vec (bias0 :: weight0))) (Fin lr))
       = Ok (h, LinearRegression.mk (row_mat (fin_vec (b :: w))) (Fin lr))
    /\ FullPyTorch.train (fin_mat X) (fin_vec y) e
         (FullPyTorch.__init__ (fin_vec weight0) (Fin bias0) (Fin lr))
       = Ok (h3, s3)
    /\ FullPyTorch.weight s3 = fin_vec w
    /\ FullPyTorch.bias s3 = Fin b
    /\ FullPyTorch.train (fin_mat X) (fin_vec y) (e + 1)
         (FullPyTorch.__init__ (fin_vec weight0) (Fin bias0) (Fin lr))
       = Ok (l0 :: h, s3').
Proof using HX Hm Hy.
  intros Hw He.
  pose proof (wf2_fin_mat HX) as HF.
  pose proof wf2_bias_column as HB.
  assert (HyF : length (fin_vec y) = shape0 (fin_mat X))
    by now rewrite fin_vec_length.
  assert (HwF : length (fin_vec weight0) = shape1 (fin_mat X))
    by now rewrite fin_vec_length.
  set (p := Nat.iter (Z.to_nat e) affine (weight0, bias0)).
  exists (fin_mat (bias_column X)).
  rewrite (@train_fin (bias_column X) y lr HB) by (simpl; auto; lia).
  change (Spec.gd_step lr (shape1 (bias_column X)) (rows (bias_column X)) y)
    with aug_step.
  destruct (bias_iterates (Z.to_nat e) weight0 bias0) as [E1 E2].
  rewrite E1. fold p.
  rewrite !full_train_init.
  destruct (@full_train_loop (fin_mat X) (fin_vec y) (Fin lr) HF HyF
              (Z.to_nat e) (fin_vec weight0) (Fin bias0) None None true []
              HwF) as (gw & gb & E3).
  rewrite E3. clear E3. fold full_step. rewrite E2. fold p.
  replace (Z.to_nat (e + 1)) with (S (Z.to_nat e)) by lia.
  destruct (@full_train_loop (fin_mat X) (fin_vec y) (Fin lr) HF HyF
              (S (Z.to_nat e)) (fin_vec weight0) (Fin bias0) None None true []
              HwF) as (gw' & gb' & E4).
  rewrite E4. clear E4. fold full_step.
  do 7 eexists. split; [apply hstack_ones_fin|].
  split; [reflexivity|]. split; [reflexivity|].
  split; [reflexivity|]. split; [reflexivity|].
  cbn [app seq map]. f_equal. f_equal. f_equal.
  rewrite <- seq_shift, map_map. apply map_ext. intros i.
  destruct (bias_iterates (S i) weight0 bias0) as [F1 F2].
  rewrite F1, F2. cbn [fst snd].
  apply affine_loss_fin.
Qed.

End Bias.

Lemma bias_column_is_the_bias_sample :
  exists (X_np : mat) (h h3 : list npfloat) (w : list Qc) (b : Qc)
    (l0 : npfloat) (s3 s3' : FullPyTorch.state),
    hstack_ones 2 (fin_mat sample_X) = Ok X_np
    /\ LinearRegression.train X_np (fin_vec sample_y) 2
         (LinearRegression.mk (row_mat (fin_vec (q 1 3 :: sample_w)))
            (Fin sample_lr))
       = Ok (h, LinearRegression.mk (row_mat (fin_vec (b :: w)))
                  (Fin sample_lr))
    /\ FullPyTorch.train (fin_mat sample_X) (fin_vec sample_y) 2
         (FullPyTorch.__init__ (fin_vec sample_w) (Fin (q 1 3))
            (Fin sample_lr))
       = Ok (h3, s3)
    /\ FullPyTorch.weight s3 = fin_vec w
    /\ FullPyTorch.bias s3 = Fin b
    /\ FullPyTorch.train (fin_mat sample_X) (fin_vec sample_y) (2 + 1)
         (FullPyTorch.__init__ (fin_vec sample_w) (Fin (q 1 3))
            (Fin sample_lr))
       = Ok (l0 :: h, s3').
Proof.
  apply (@bias_column_is_the_bias sample_X sample_y sample_lr).
  - split; [reflexivity|]. repeat constructor.
  - simpl. lia.
  - reflexivity.
  - reflexivity.
  - lia.
Defined.

(** * The function [evaluate] *)

Section Evaluate.
Local Open Scope Qc_scope.
Import FullPyTorch.

(** X14.  [evaluate(model, X)] returns the prediction [X w + b] of the
    layer, one entry per row of [X]; it leaves the weight, the bias and
    their gradients as they are and leaves the model in evaluation mode. *)
Theorem evaluate_predicts (X : ndarray2 Qc) (w : list Qc) (b : Qc)
  (gw : option vec) (gb : option npfloat) (mode : bool) (rate : npfloat) :
  shape1 X = length w ->
  evaluate (fin_mat X) (mk (fin_vec w) (Fin b) gw gb mode rate)
  = Ok (fin_vec (map (fun r => dot r w + b) (rows X)),
        mk (fin_vec w) (Fin b) gw gb false rate).
Proof.
  intros Hw. unfold evaluate, set_eval, forward.
  unfold bind, get, put, ret.
  cbn [weight bias weight_grad bias_grad training FullPyTorch.lr].
  cbn [fin_mat map2 shape1 rows]. rewrite fin_vec_length, Hw, Nat.eqb_refl.
  cbn [torch.data]. f_equal. f_equal.
  unfold fin_vec. rewrite !map_map. apply map_ext. intros r.
  now rewrite dot_fin.
Qed.

Lemma evaluate_predicts_sample :
  evaluate (fin_mat sample_X)
    (mk (fin_vec sample_w) (Fin sample_lr) None None true (Fin sample_lr))
  = Ok (fin_vec (map (fun r => dot r sample_w + sample_lr) (rows sample_X)),
        mk (fin_vec sample_w) (Fin sample_lr) None None false
          (Fin sample_lr)).
Proof.
  apply (@evaluate_predicts sample_X sample_w sample_lr).
  reflexivity.
Defined.

(** X15.  Evaluating between two runs does not disturb training: when [X']
    has as many columns as the layer has weights, [evaluate(model, X')]
    followed by [train(model, X, y, e)] returns the history and leaves the
    state that [train(model, X, y, e)] alone does; [train] puts the model
    back in training mode. *)
Theorem evaluate_then_train (X' X : mat) (y : vec) (e : Z) (s : state) :
  shape1 X' = length (weight s) ->
  (evaluate X' ;;; train X y e) s = train X y e s.
Proof.
  intros Hw. unfold evaluate, train, set_eval, set_train, forward.
  unfold bind, get, put, ret.
  cbn [weight bias weight_grad bias_grad training FullPyTorch.lr].
  rewrite Hw, Nat.eqb_refl. reflexivity.
Qed.

Lemma evaluate_then_train_sample :
  (evaluate (fin_mat sample_X) ;;;
   train (fin_mat sample_X) (fin_vec sample_y) 2)
    (__init__ (fin_vec sample_w) zero (Fin sample_lr))
  = train (fin_mat sample_X) (fin_vec sample_y) 2
      (__init__ (fin_vec sample_w) zero (Fin sample_lr)).
Proof.
  apply (@evaluate_then_train (fin_mat sample_X)).
  reflexivity.
Defined.

End Evaluate.

(** * Resuming the other two loops *)

Section ResumeOthers.

Lemma mixed_train_loop_history (X : mat) (y : vec) (n : nat)
  (history : list npfloat) (s : MixedLinearRegression.state) :
  MixedLinearRegression.train_loop X y n history s
  = match MixedLinearRegression.train_loop X y n [] s with
    | Ok (h, s') => Ok (history ++ h, s')
    | Raise e => Raise e
    end.
Proof.
  revert history s. induction n as [|n IH]; intros history s.
  - simpl. unfold ret. now rewrite app_nil_r.
  - cbn [MixedLinearRegression.train_loop]. unfold bind.
    destruct (MixedLinearRegression.predict X s) as [[y_hat s1]|];
      [|reflexivity].
    destruct (MixedLinearRegression.loss y_hat y s1) as [[l s2]|];
      [|reflexivity].
    destruct (MixedLinearRegression.backward l s2) as [[[] s3]|];
      [|reflexivity].
    cbv zeta.
    destruct (MixedLinearRegression.update_weight s3) as [[[] s4]|];
      [|reflexivity].
    destruct (MixedLinearRegression.zero_grad s4) as [[[] s5]|];
      [|reflexivity].
    rewrite (IH (history ++ [torch.data l])), (IH ([] ++ [torch.data l])).
    destruct (MixedLinearRegression.train_loop X y n [] s5) as [[h s6]|];
      [|reflexivity].
    now rewrite <- app_assoc.
Qed.

Lemma mixed_train_loop_add (X : mat) (y : vec) (a b : nat)
  (history : list npfloat) (s : MixedLinearRegression.state) :
  MixedLinearRegression.train_loop X y (a + b) history s
  = match MixedLinearRegression.train_loop X y a history s with
    | Ok (h, s') => MixedLinearRegression.train_loop X y b h s'
    | Raise e => Raise e
    end.
Proof.
  revert history s. induction a as [|a IH]; intros history s.
  - reflexivity.
  - cbn [Nat.add MixedLinearRegression.train_loop]. unfold bind.
    destruct (MixedLinearRegression.predict X s) as [[y_hat s1]|];
      [|reflexivity].
    destruct (MixedLinearRegression.loss y_hat y s1) as [[l s2]|];
      [|reflexivity].
    destruct (MixedLinearRegression.backward l s2) as [[[] s3]|];
      [|reflexivity].
    cbv zeta.
    destruct (MixedLinearRegression.update_weight s3) as [[[] s4]|];
      [|reflexivity].
    destruct (MixedLinearRegression.zero_grad s4) as [[[] s5]|];
      [|reflexivity].
    apply IH.
Qed.

(** X16.  [MixedLinearRegression.train] can be resumed as well:
    [train(X, y, e1)] followed by [train(X, y, e2)] on the same object is
    [train(X, y, e1 + e2)], with the two histories put end to end; the
    gradient left at zero by the first run is what the second starts
    from. *)
Theorem mixed_train_resumes (X : mat) (y : vec) (e1 e2 : Z)
  (s : MixedLinearRegression.state) :
  (0 <= e1)%Z -> (0 <= e2)%Z ->
  (h1 <- MixedLinearRegression.train X y e1 ;;
   h2 <- MixedLinearRegression.train X y e2 ;;
   ret (h1 ++ h2)) s
  = MixedLinearRegression.train X y (e1 + e2) s.
Proof.
  intros H1 H2. unfold MixedLinearRegression.train, bind, ret.
  replace (Z.to_nat (e1 + e2)) with (Z.to_nat e1 + Z.to_nat e2) by lia.
  rewrite mixed_train_loop_add.
  destruct (MixedLinearRegression.train_loop X y (Z.to_nat e1) [] s)
    as [[h1 s1]|]; [|reflexivity].
  rewrite (mixed_train_loop_history X y (Z.to_nat e2) h1).
  now destruct (MixedLinearRegression.train_loop X y (Z.to_nat e2) [] s1)
    as [[h2 s2]|].
Qed.

Lemma mixed_train_resumes_sample :
  (h1 <- MixedLinearRegression.train (fin_mat sample_X) (fin_vec sample_y) 1 ;;
   h2 <- MixedLinearRegression.train (fin_mat sample_X) (fin_vec sample_y) 2 ;;
   ret (h1 ++ h2))
    (MixedLinearRegression.__init__ 2 1 (Fin sample_lr))
  = MixedLinearRegression.train (fin_mat sample_X) (fin_vec sample_y) (1 + 2)
      (MixedLinearRegression.__init__ 2 1 (Fin sample_lr)).
Proof.
  apply (@mixed_train_resumes (fin_mat sample_X) (fin_vec sample_y) 1 2).
  - lia.
  - lia.
Defined.

End ResumeOthers.

(** * The cells on automatic differentiation *)

Section AutogradCells.
Local Open Scope Qc_scope.

Lemma Qc_of_nat_2 : Qc_of_nat 2 = Q2Qc 1%Q + Q2Qc 1%Q.
Proof. apply Qc_is_canon. reflexivity. Qed.

Lemma Qc_of_nat_4 :
  Qc_of_nat 4 = Q2Qc 1%Q + Q2Qc 1%Q + Q2Qc 1%Q + Q2Qc 1%Q.
Proof. apply Qc_is_canon. reflexivity. Qed.

Lemma zip_with_same (f : Qc -> Qc -> Qc) (v : list Qc) :
  zip_with f v v = map (fun a => f a a) v.
Proof. induction v as [|a v IH]; [reflexivity|]. simpl. now rewrite IH. Qed.

Lemma fin_add_zeros (n : nat) (v : list Qc) :
  length v = n -> zip_with add (repeat zero n) (fin_vec v) = fin_vec v.
Proof.
  intros <-. rewrite <- (fin_vec_length v). apply zip_with_add_zeros.
Qed.

Lemma zip_with_ones (n : nat) (v : list Qc) :
  length v = n -> zip_with Qcmult (repeat (Q2Qc 1%Q) n) v = v.
Proof.
  intros <-. induction v as [|a v IH]; [reflexivity|].
  cbn [length repeat zip_with]. rewrite IH. f_equal. ring.
Qed.

(** The gradient of a sum, sent through a product with [v] and added to a
    gradient that was reset. *)
Lemma ones_through (n k : nat) (v : list Qc) :
  length v = n -> length v = k ->
  zip_with add (repeat zero k)
    (zip_with mul (repeat one n) (fin_vec v))
  = fin_vec v.
Proof.
  intros Hn Hk.
  change (@one npfloat _) with (Fin (Q2Qc 1%Q)).
  change (@mul npfloat _) with (lift2 Qcmult).
  unfold fin_vec. rewrite <- (repeat_map Fin), zip_with_fin.
  rewrite zip_with_ones by assumption.
  now apply fin_add_zeros.
Qed.

Lemma dot_cell_fresh (x : list Qc) :
  autograd.dot_cell (autograd.mk (fin_vec x) None)
  = Ok (tt,
        autograd.mk (fin_vec x)
          (Some (fin_vec (vscale (Qc_of_nat 4) x)))).
Proof.
  unfold autograd.dot_cell, autograd.dot, autograd.rmul, autograd.backward,
    autograd.leaf.
  unfold bind, get, put, lift. cbn [autograd.x autograd.x_grad torch.data torch.grad_fn].
  rewrite Nat.eqb_refl. cbn [torch.data torch.grad_fn autograd.accumulate autograd.x
         autograd.x_grad].
  f_equal. f_equal. f_equal. f_equal.
  change (mul one (ofnat 2)) with (Fin (Q2Qc 1%Q * Qc_of_nat 2)).
  unfold fin_vec. rewrite vscale_fin.
  change (@add npfloat _) with (lift2 Qcplus). rewrite zip_with_fin.
  f_equal. rewrite zip_with_same. unfold vscale. rewrite map_map.
  apply map_ext. intros a. cbn [mul Num_Qc].
  rewrite Qc_of_nat_2, Qc_of_nat_4. ring.
Qed.

Lemma detach_cell_after (x g0 : list Qc) :
  length g0 = length x ->
  exists y u : autograd.tensor vec,
    autograd.detach_cell (autograd.mk (fin_vec x) (Some (fin_vec g0)))
    = Ok ((y, u),
          autograd.mk (fin_vec x) (Some (fin_vec (zip_with Qcmult x x))))
    /\ torch.data u = fin_vec (zip_with Qcmult x x)
    /\ torch.data y = fin_vec (zip_with Qcmult x x)
    /\ forall g : vec,
        torch.grad_fn y g
        = Some (zip_with add (zip_with mul g (fin_vec x))
                  (zip_with mul g (fin_vec x))).
Proof.
  intros Hg.
  unfold autograd.detach_cell, autograd.zero_, autograd.mul, autograd.sum,
    autograd.backward, autograd.detach, autograd.leaf.
  unfold bind, get, put, lift, ret.
  cbn [autograd.x autograd.x_grad torch.data torch.grad_fn].
  rewrite Nat.eqb_refl. cbn [torch.data torch.grad_fn].
  change (zip_with mul (fin_vec x) (fin_vec x))
    with (zip_with (lift2 Qcmult) (map Fin x) (map Fin x)).
  rewrite zip_with_fin. fold (fin_vec (zip_with Qcmult x x)) (fin_vec x).
  assert (Hxx : length (zip_with Qcmult x x) = length x)
    by (rewrite zip_with_length; apply Nat.min_id).
  rewrite !fin_vec_length, Hxx, Nat.eqb_refl.
  cbn [torch.data torch.grad_fn autograd.accumulate autograd.x
         autograd.x_grad].
  rewrite zip_with_length, !fin_vec_length, Hxx, Nat.min_id.
  rewrite ones_through by congruence.
  do 2 eexists. split; [reflexivity|].
  cbn [torch.data torch.grad_fn]. repeat split; reflexivity.
Qed.

Lemma sum_cell_after (x g0 : list Qc) (y : autograd.tensor vec) :
  length g0 = length x ->
  torch.data y = fin_vec (zip_with Qcmult x x) ->
  (forall g : vec,
      torch.grad_fn y g
      = Some (zip_with add (zip_with mul g (fin_vec x))
                (zip_with mul g (fin_vec x)))) ->
  autograd.sum_cell y (autograd.mk (fin_vec x) (Some (fin_vec g0)))
  = Ok (tt,
        autograd.mk (fin_vec x)
          (Some (fin_vec (vscale (Qc_of_nat 2) x)))).
Proof.
  intros Hg Hd Hy.
  unfold autograd.sum_cell, autograd.zero_, autograd.sum, autograd.backward.
  unfold bind, get, put, lift.
  cbn [autograd.x autograd.x_grad torch.data torch.grad_fn]. rewrite Hy, Hd.
  cbn [autograd.x autograd.x_grad].
  rewrite !fin_vec_length, zip_with_length, Nat.min_id.
  assert (E1 : zip_with mul (repeat one (length x)) (fin_vec x) = fin_vec x).
  { change (@one npfloat _) with (Fin (Q2Qc 1%Q)).
    change (@mul npfloat _) with (lift2 Qcmult).
    unfold fin_vec. rewrite <- (repeat_map Fin), zip_with_fin.
    now rewrite zip_with_ones. }
  assert (E2 : zip_with add (fin_vec x) (fin_vec x)
               = fin_vec (vscale (Qc_of_nat 2) x)).
  { change (@add npfloat _) with (lift2 Qcplus).
    unfold fin_vec. rewrite zip_with_fin, zip_with_same. f_equal.
    unfold vscale. apply map_ext. intros a.
    cbn [mul Num_Qc]. rewrite Qc_of_nat_2. ring. }
  rewrite E1, E2, fin_add_zeros; [reflexivity|].
  unfold vscale. rewrite length_map. congruence.
Qed.

(** X17.  The three comparisons of the cells hold for every finite
    vector [x], not only for [arange(4.0)]: after [y = 2 * dot(x, x)] and
    [y.backward()], [x.grad] is [4 * x]; after the reset, with
    [u = (x * x).detach()] and [z = u * x], [z.sum().backward()] leaves
    [x.grad] equal to [u], the detached factor counting as a constant; and
    after another reset [(x * x).sum().backward()] leaves [2 * x]. *)
Theorem autograd_cells_hold (x : list Qc) :
  exists s' : autograd.state,
    autograd.cells (autograd.mk (fin_vec x) None)
    = Ok ((Some (fin_vec (vscale (Qc_of_nat 4) x)),
           (Some (fin_vec (zip_with Qcmult x x)),
            fin_vec (zip_with Qcmult x x)),
           Some (fin_vec (vscale (Qc_of_nat 2) x))),
          s').
Proof.
  unfold autograd.cells. unfold bind at 1. rewrite dot_cell_fresh.
  unfold bind at 1, autograd.grad at 1, bind at 1, get at 1, ret at 1.
  cbn [autograd.x_grad]. unfold bind at 1.
  destruct (@detach_cell_after x (vscale (Qc_of_nat 4) x))
    as (y & u & E & Eu & Ey & Eg).
  { unfold vscale. apply length_map. }
  rewrite E.
  unfold bind at 1, autograd.grad at 1, bind at 1, get at 1, ret at 1.
  cbn [autograd.x_grad fst snd]. unfold bind at 1.
  rewrite (@sum_cell_after x (zip_with Qcmult x x) y); auto.
  2:{ rewrite zip_with_length. apply Nat.min_id. }
  unfold bind, autograd.grad, get, ret. cbn [autograd.x_grad]. rewrite Eu.
  eexists. reflexivity.
Qed.

End AutogradCells.

Section AutogradOrder.
Local Open Scope Qc_scope.

(** X18.  What the resets and the order of the cells are for.  The reset
    [x.grad.zero_()] raises [AttributeError] while [x.grad] is still [None],
    so the second cell cannot run before the first.  [backward] on a
    tensor that was only built from detached values raises [RuntimeError].
    And without the reset the old gradient stays in: [x.grad] after
    [(x * x).sum().backward()] is then the old value plus [2 * x]. *)
Theorem autograd_cells_need_resets (x g0 : list Qc) :
  length g0 = length x ->
  autograd.detach_cell (autograd.mk (fin_vec x) None) = Raise AttributeError
  /\ (forall (y : autograd.tensor vec) (s : autograd.state),
        autograd.backward (autograd.sum (autograd.detach y)) s
        = Raise RuntimeError)
  /\ exists y : autograd.tensor vec,
      autograd.mul (autograd.leaf (fin_vec x)) (autograd.leaf (fin_vec x))
      = Ok y
      /\ autograd.sum_cell_without_reset y
           (autograd.mk (fin_vec x) (Some (fin_vec g0)))
         = Ok (tt,
               autograd.mk (fin_vec x)
                 (Some
                    (fin_vec (zip_with Qcplus g0 (vscale (Qc_of_nat 2) x))))).
Proof.
  intros Hg. split; [reflexivity|]. split; [reflexivity|].
  unfold autograd.mul, autograd.leaf. cbn [torch.data torch.grad_fn].
  rewrite Nat.eqb_refl. eexists. split; [reflexivity|].
  unfold autograd.sum_cell_without_reset, autograd.sum, autograd.backward.
  unfold bind, get, put.
  cbn [torch.data torch.grad_fn autograd.accumulate autograd.x
         autograd.x_grad].
  change (zip_with mul (fin_vec x) (fin_vec x))
    with (zip_with (lift2 Qcmult) (map Fin x) (map Fin x)).
  rewrite zip_with_fin, length_map, zip_with_length, Nat.min_id.
  assert (E1 : zip_with mul (repeat one (length x)) (fin_vec x) = fin_vec x).
  { change (@one npfloat _) with (Fin (Q2Qc 1%Q)).
    change (@mul npfloat _) with (lift2 Qcmult).
    unfold fin_vec. rewrite <- (repeat_map Fin), zip_with_fin.
    now rewrite zip_with_ones. }
  assert (E2 : zip_with add (fin_vec x) (fin_vec x)
               = fin_vec (vscale (Qc_of_nat 2) x)).
  { change (@add npfloat _) with (lift2 Qcplus).
    unfold fin_vec. rewrite zip_with_fin, zip_with_same. f_equal.
    unfold vscale. apply map_ext. intros a.
    cbn [mul Num_Qc]. rewrite Qc_of_nat_2. ring. }
  rewrite E1, E2.
  change (@add npfloat _) with (lift2 Qcplus).
  unfold fin_vec. now rewrite zip_with_fin.
Qed.

Lemma autograd_cells_need_resets_sample :
  autograd.detach_cell (autograd.mk (fin_vec sample_w) None)
  = Raise AttributeError
  /\ (forall (y : autograd.tensor vec) (s : autograd.state),
        autograd.backward (autograd.sum (autograd.detach y)) s
        = Raise RuntimeError)
  /\ exists y : autograd.tensor vec,
      autograd.mul (autograd.leaf (fin_vec sample_w))
        (autograd.leaf (fin_vec sample_w))
      = Ok y
      /\ autograd.sum_cell_without_reset y
           (autograd.mk (fin_vec sample_w) (Some (fin_vec sample_y)))
         = Ok (tt,
               autograd.mk (fin_vec sample_w)
                 (Some
                    (fin_vec
                       (zip_with Qcplus sample_y
                          (vscale (Qc_of_nat 2) sample_w))))).
Proof.
  apply (@autograd_cells_need_resets sample_w sample_y).
  reflexivity.
Defined.

End AutogradOrder.

(** * The three loss histories, entry by entry *)

Section HistoriesShifted.
Local Open Scope Qc_scope.

(** C2, amended.  On a well-shaped data set with [m >= 1] examples, for
    every learning rate and epoch count [e >= 0], in exact arithmetic:
    [MixedLinearRegression.train(X, y, e + 1)] returns the mean of the
    squared labels followed by the [e] losses that
    [LinearRegression.train(X, y, e)] returns, the same losses one epoch
    later, since the first records the loss before the update of an epoch
    and the second after it.  The function [train] returns [e] losses as
    well, each recorded before the update of its epoch, of a layer with a
    bias and with the initial parameters it was given: the entry of index
    [i] is the loss of the weight and bias reached after [i] steps of the
    optimizer from the initial ones, and the layer ends with the
    parameters after [e] steps.  When the initial parameters are finite,
    those steps are the steps of gradient descent on the mean squared
    error of [X w + b], and the entry of index [i] is that error after [i]
    of them. *)
Theorem loss_histories_shifted (X : ndarray2 Qc) (y : list Qc) (lr : Qc)
  (e : Z) (weight0 : vec) (bias0 : npfloat) :
  wf2 X -> (1 <= shape0 X)%nat -> length y = shape0 X ->
  (0 <= e)%Z -> length weight0 = shape1 X ->
  let n := shape1 X in
  let step := sgd_step (Fin lr) (fin_mat X) (fin_vec y) in
  exists (h h3 : list npfloat) (s1 : LinearRegression.state)
    (s2 : MixedLinearRegression.state) (s3 : FullPyTorch.state),
    LinearRegression.train (fin_mat X) (fin_vec y) e
      (LinearRegression.__init__ n 1 (Fin lr)) = Ok (h, s1)
    /\ MixedLinearRegression.train (fin_mat X) (fin_vec y) (e + 1)
         (MixedLinearRegression.__init__ n 1 (Fin lr))
       = Ok (mean (power2 (fin_vec y)) :: h, s2)
    /\ FullPyTorch.train (fin_mat X) (fin_vec y) e
         (FullPyTorch.__init__ weight0 bias0 (Fin lr)) = Ok (h3, s3)
    /\ Z.of_nat (length h) = e
    /\ Z.of_nat (length h3) = e
    /\ ((1 <= e)%Z ->
        hd_error h3
        = Some (affine_loss (fin_mat X) (fin_vec y) weight0 bias0))
    /\ h3
       = map (fun i =>
                affine_loss (fin_mat X) (fin_vec y)
                  (fst (Nat.iter i step (weight0, bias0)))
                  (snd (Nat.iter i step (weight0, bias0))))
           (seq 0 (Z.to_nat e))
    /\ FullPyTorch.weight s3
       = fst (Nat.iter (Z.to_nat e) step (weight0, bias0))
    /\ FullPyTorch.bias s3
       = snd (Nat.iter (Z.to_nat e) step (weight0, bias0))
    /\ forall (w0 : list Qc) (b0 : Qc),
        weight0 = fin_vec w0 -> bias0 = Fin b0 ->
        let p := fun i =>
          Nat.iter i (affine_gd_step lr n (rows X) y) (w0, b0) in
        h3
        = map (fun i =>
                 Fin (Spec.objective (rows (bias_column X)) y
                        (snd (p i) :: fst (p i))))
            (seq 0 (Z.to_nat e))
        /\ FullPyTorch.weight s3 = fin_vec (fst (p (Z.to_nat e)))
        /\ FullPyTorch.bias s3 = Fin (snd (p (Z.to_nat e))).
Proof.
  intros HX Hm Hy He Hw0 n step.
  pose proof (wf2_fin_mat HX) as HF.
  assert (HyF : length (fin_vec y) = shape0 (fin_mat X))
    by now rewrite fin_vec_length.
  assert (Hz : length (fin_vec (repeat (Q2Qc 0%Q) n)) = shape1 (fin_mat X))
    by (rewrite fin_vec_length; apply repeat_length).
  unfold LinearRegression.train, MixedLinearRegression.train.
  rewrite full_train_init.
  rewrite linear_init_row, mixed_init_row.
  rewrite (@train_loop_row _ _ (Fin lr) HF HyF) by assumption.
  replace (Z.to_nat (e + 1)) with (S (Z.to_nat e)) by lia.
  destruct (@mixed_train_loop_row (fin_mat X) (fin_vec y) (Fin lr) HF HyF
              (S (Z.to_nat e)) (fin_vec (repeat (Q2Qc 0%Q) n)) None [])
    as (g & _ & E); [assumption|now left|].
  rewrite E. clear E.
  destruct (@full_train_loop (fin_mat X) (fin_vec y) (Fin lr) HF HyF
              (Z.to_nat e) weight0 bias0 None None true [])
    as (gw & gb & E3); [assumption|].
  rewrite E3. clear E3. fold step.
  do 5 eexists. split; [reflexivity|]. split; [|split; [reflexivity|]].
  - cbn [app seq map].
    change (Nat.iter 0 (autograd_step (Fin lr) (fin_mat X) (fin_vec y))
              (fin_vec (repeat (Q2Qc 0%Q) n)))
      with (fin_vec (repeat (Q2Qc 0%Q) n)).
    rewrite loss_at_zero_weights by assumption.
    rewrite <- seq_shift, map_map.
    rewrite (map_ext
               (fun i =>
                  loss_at (fin_mat X) (fin_vec y)
                    (Nat.iter (S i)
                       (autograd_step (Fin lr) (fin_mat X) (fin_vec y))
                       (fin_vec (repeat (Q2Qc 0%Q) n))))
               (fun i =>
                  loss_at (fin_mat X) (fin_vec y)
                    (Nat.iter (S i)
                       (hand_step (Fin lr) (fin_mat X) (fin_vec y))
                       (fin_vec (repeat (Q2Qc 0%Q) n))))).
    + reflexivity.
    + intros i.
      rewrite iter_hand_step_fin, iter_autograd_step_fin by assumption.
      reflexivity.
  - cbn [app FullPyTorch.weight FullPyTorch.bias].
    rewrite !length_map, !length_seq.
    split; [lia|]. split; [lia|]. split; [|split; [|split; [|split]]].
    + intros H1. destruct (Z.to_nat e) as [|k] eqn:Ek; [lia|]. reflexivity.
    + reflexivity.
    + reflexivity.
    + reflexivity.
    + intros w0 b0 -> ->.
      set (p := fun i =>
             Nat.iter i (affine_gd_step lr n (rows X) y) (w0, b0)).
      assert (P : forall i,
                 Nat.iter i step (fin_vec w0, Fin b0)
                 = (fin_vec (fst (p i)), Fin (snd (p i)))).
      { intros i. subst step p n.
        apply (@bias_iterates X y lr HX Hm Hy i w0 b0). }
      split; [|split].
      * apply map_ext. intros i. rewrite P. cbn [fst snd].
        now apply affine_loss_fin.
      * now rewrite P.
      * now rewrite P.
Qed.

Lemma loss_histories_shifted_sample :
  exists (h h3 : list npfloat) (s1 : LinearRegression.state)
    (s2 : MixedLinearRegression.state) (s3 : FullPyTorch.state),
    LinearRegression.train (fin_mat sample_X) (fin_vec sample_y) 2
      (LinearRegression.__init__ 2 1 (Fin sample_lr)) = Ok (h, s1)
    /\ MixedLinearRegression.train (fin_mat sample_X) (fin_vec sample_y)
         (2 + 1) (MixedLinearRegression.__init__ 2 1 (Fin sample_lr))
       = Ok (mean (power2 (fin_vec sample_y)) :: h, s2)
    /\ FullPyTorch.train (fin_mat sample_X) (fin_vec sample_y) 2
         (FullPyTorch.__init__ (fin_vec sample_w) zero (Fin sample_lr))
       = Ok (h3, s3)
    /\ Z.of_nat (length h) = 2%Z
    /\ Z.of_nat (length h3) = 2%Z
    /\ ((1 <= 2)%Z ->
        hd_error h3
        = Some (affine_loss (fin_mat sample_X) (fin_vec sample_y)
                  (fin_vec sample_w) zero))
    /\ h3
       = map (fun i =>
                affine_loss (fin_mat sample_X) (fin_vec sample_y)
                  (fst (Nat.iter i
                          (sgd_step (Fin sample_lr) (fin_mat sample_X)
                             (fin_vec sample_y))
                          (fin_vec sample_w, zero)))
                  (snd (Nat.iter i
                          (sgd_step (Fin sample_lr) (fin_mat sample_X)
                             (fin_vec sample_y))
                          (fin_vec sample_w, zero))))
           (seq 0 2).
Proof.
  destruct (@loss_histories_shifted sample_X sample_y sample_lr 2
              (fin_vec sample_w) zero)
    as (h & h3 & s1 & s2 & s3 & E1 & E2 & E3 & L1 & L3 & Hd & Eh & _).
  - split; [reflexivity|]. repeat constructor.
  - simpl. lia.
  - reflexivity.
  - lia.
  - reflexivity.
  - exists h, h3, s1, s2, s3. repeat split; assumption.
Defined.

End HistoriesShifted.
